(** * discordGPT: conversational memory and response scheduling

    A shallow embedding of [gptbots.py]: the [Message] record and its
    weight, the bounded [message_array] of a [GPTBot], the context built
    for the completion service, the selector [get_ai_response], the
    history hydration [update_message_history] and the scheduler loop
    [send_responses].

    Conventions of the embedding.
    - Python [float] is IEEE binary64: the kernel's primitive [float].
    - Python [int] is [Z].
    - Python [str] is [string]; a character is a code point below 256.
    - A statement that may raise returns [Exc]; the payload of [Raise]
      is [str(e)] of the exception.
    - The attributes of a bot are a record threaded through every
      method; objects of [message_array] are mutated in place in the
      source, which the embedding renders by [alter] at their index.
    - Calls that leave the process (completion service, channel send,
      presence update, clock, random source) read their outcome from an
      explicit environment and append to a trace of events; the room
      that the interpreter's recursion limit leaves to nested calls of
      the selector is part of that environment.
    - An entry point is run on its own: what other handlers do while
      it awaits is not part of its run, unless a statement says which
      messages arrive in between. *)

From Stdlib Require Import ZArith String Ascii List PrimFloat DecimalString.
From stdpp Require Import base list strings gmap.
Import ListNotations.

#[local] Set Warnings "-inexact-float".
#[local] Open Scope Z_scope.

(** ** Python values *)

Module Py.

(** Result of a statement that may raise an [Exception]. *)
Inductive Exc (A : Type) : Type :=
| Ok (a : A)
| Raise (e : string).
Arguments Ok {A} a.
Arguments Raise {A} e.

Definition bind {A B} (m : Exc A) (k : A -> Exc B) : Exc B :=
  match m with
  | Ok a => k a
  | Raise e => Raise e
  end.

(** [str.isspace] on one character, for code points below 256:
    TAB..CR, FS..US, SPACE, NEL and NBSP. *)
Definition isspace (c : ascii) : bool :=
  let n := Z.of_N (N_of_ascii c) in
  ((9 <=? n) && (n <=? 13)) || ((28 <=? n) && (n <=? 32))
  || (n =? 133) || (n =? 160).

Fixpoint lstrip (s : string) : string :=
  match s with
  | EmptyString => EmptyString
  | String c s' => if isspace c then lstrip s' else s
  end.

Fixpoint rstrip (s : string) : string :=
  match s with
  | EmptyString => EmptyString
  | String c s' =>
      match rstrip s' with
      | EmptyString => if isspace c then EmptyString else String c EmptyString
      | r => String c r
      end
  end.

(** [s.strip()] *)
Definition strip (s : string) : string := rstrip (lstrip s).

(** [s.startswith('#')] *)
Definition startswith_hash (s : string) : bool :=
  match s with
  | String c _ => Ascii.eqb c "#"
  | EmptyString => false
  end.

(** [s[0]]: raises [IndexError] on the empty string. *)
Definition index0 (s : string) : Exc ascii :=
  match s with
  | String c _ => Ok c
  | EmptyString => Raise "string index out of range"
  end.

(** [p in s] for two strings. *)
Fixpoint contains (p s : string) : bool :=
  String.prefix p s ||
  match s with
  | EmptyString => false
  | String _ s' => contains p s'
  end.

(** [str(n)] for an [int]. *)
Definition str_int (n : Z) : string := NilZero.string_of_int (Z.to_int n).

(** A value decoded from JSON, or an identifier handed over by the
    gateway. Floats, lists and objects are observed by the program
    only through their type name, [str()] and truth value, which
    [VOpaque] carries. *)
Inductive Val : Type :=
| VNone
| VBool (b : bool)
| VInt (n : Z)
| VStr (s : string)
| VOpaque (tyname repr : string) (truthy : bool).

(** [str(v)] *)
Definition str (v : Val) : string :=
  match v with
  | VNone => "None"
  | VBool true => "True"
  | VBool false => "False"
  | VInt n => str_int n
  | VStr s => s
  | VOpaque _ r _ => r
  end.

(** [bool(v)] *)
Definition truthy (v : Val) : bool :=
  match v with
  | VNone => false
  | VBool b => b
  | VInt n => negb (n =? 0)
  | VStr s => negb (String.eqb s "")
  | VOpaque _ _ t => t
  end.

(** [type(v).__name__] *)
Definition type_name (v : Val) : string :=
  match v with
  | VNone => "NoneType"
  | VBool _ => "bool"
  | VInt _ => "int"
  | VStr _ => "str"
  | VOpaque t _ _ => t
  end.

(** [str(e)] of the [AttributeError] for a missing attribute. *)
Definition no_attribute (tyname attr : string) : string :=
  "'" +:+ tyname +:+ "' object has no attribute '" +:+ attr +:+ "'".

(** [l.pop(0)] followed by the rest of the list; [IndexError] when
    the list is empty. *)
Definition pop0 {A} (l : list A) : Exc (list A) :=
  match l with
  | [] => Raise "pop from empty list"
  | _ :: t => Ok t
  end.

End Py.
Import Py.

(** ** The gateway's objects, as far as the program reads them *)

Module Discord.

(** [discord.User]: [==] compares the ids. *)
Record User : Type := mkUser {
  id : Z;
  bot : bool;
  display : string   (* str(user) *)
}.

Definition user_eq (a b : User) : bool := id a =? id b.

(** [discord.Message] with its [reference]; [resolved] is [None], a
    message, or a [DeletedReferencedMessage]. *)
Inductive Message : Type :=
| mkMessage (author : User) (content : string) (mid : Z) (channel : Z)
            (reference : option Reference)
with Reference : Type :=
| mkReference (resolved : option Resolved)
with Resolved : Type :=
| ResolvedMessage (m : Message)
| DeletedReferencedMessage.

Definition author (m : Message) : User :=
  let 'mkMessage a _ _ _ _ := m in a.
Definition content (m : Message) : string :=
  let 'mkMessage _ c _ _ _ := m in c.
Definition mid (m : Message) : Z :=
  let 'mkMessage _ _ i _ _ := m in i.
Definition channel (m : Message) : Z :=
  let 'mkMessage _ _ _ c _ := m in c.
Definition reference (m : Message) : option Reference :=
  let 'mkMessage _ _ _ _ r := m in r.
Definition resolved (r : Reference) : option Resolved :=
  let 'mkReference x := r in x.

End Discord.

(** ** class Message *)

Record Message : Type := mkMessage {
  author : Discord.User;
  author_id : Z;
  message : string;
  message_id : Val;
  replying_to : option Discord.User;
  replying_to_replying_to : option string;
  weight : float
}.

(** [Message.calculate_base_weight], on the two attributes it reads. *)
Definition calculate_base_weight
    (author : Discord.User) (replying_to : option Discord.User) : float :=
  let base_weight := if Discord.bot author then 0.5%float else 1.0%float in
  match replying_to with
  | Some u => if negb (Discord.bot u) then (base_weight * 1.2)%float else base_weight
  | None => base_weight
  end.

(** [replying_to.author if replying_to else None] *)
Definition init_replying_to (replying_to : option Discord.Resolved)
  : Exc (option Discord.User) :=
  match replying_to with
  | None => Ok None
  | Some (Discord.ResolvedMessage m) => Ok (Some (Discord.author m))
  | Some Discord.DeletedReferencedMessage =>
      Raise (no_attribute "DeletedReferencedMessage" "author")
  end.

(** [replying_to.reference.resolved.content if ... else None]; the
    first line of [__init__] has already raised on a deleted
    [replying_to]. *)
Definition init_replying_to_replying_to (replying_to : option Discord.Resolved)
  : Exc (option string) :=
  match replying_to with
  | Some (Discord.ResolvedMessage m) =>
      match Discord.reference m with
      | Some r =>
          match Discord.resolved r with
          | Some (Discord.ResolvedMessage g) => Ok (Some (Discord.content g))
          | Some Discord.DeletedReferencedMessage =>
              Raise (no_attribute "DeletedReferencedMessage" "content")
          | None => Ok None
          end
      | None => Ok None
      end
  | Some Discord.DeletedReferencedMessage =>
      Raise (no_attribute "DeletedReferencedMessage" "reference")
  | None => Ok None
  end.

(** [Message.__init__] *)
Definition Message_init (author : Discord.User) (content : string)
    (message_id : Val) (replying_to : option Discord.Resolved) : Exc Message :=
  bind (init_replying_to replying_to) (fun rt =>
  bind (init_replying_to_replying_to replying_to) (fun rtrt =>
  Ok {| author := author;
        author_id := Discord.id author;
        message := content;
        message_id := message_id;
        replying_to := rt;
        replying_to_replying_to := rtrt;
        weight := calculate_base_weight author rt |})).

(** [Message.to_dict]: the dictionary handed to [json.dumps]. *)
Record MessageDict : Type := mkMessageDict {
  d_author : string;
  d_author_id : string;
  d_message : string;
  d_message_id : Val;
  d_replying_to : option string;
  d_replying_to_replying_to : option string;
  d_weight : float
}.

Definition to_dict (self : Message) : MessageDict :=
  {| d_author := Discord.display (author self);
     d_author_id := str_int (author_id self);
     d_message := message self;
     d_message_id := message_id self;
     d_replying_to := option_map (fun u => str_int (Discord.id u)) (replying_to self);
     d_replying_to_replying_to := replying_to_replying_to self;
     d_weight := weight self |}.

(** ** Events observed outside the process

    Warnings and errors written to the log, and every call that leaves
    the process. Lines logged at level [info] are not recorded. *)

Inductive Event : Type :=
| LogWarning (msg : string)
| LogError (msg : string)
| CompletionRequest (context : list MessageDict)
| ChannelSend (text : string) (reference : option Val)
| DebugSend (context : list MessageDict)
| ChangePresence (activity : string)
| Sleep (seconds : Z)
| RandInt (a b result : Z)
| ProcessCommands (mid : Z).

(** ** class GPTBot *)

Record GPTBot : Type := mkGPTBot {
  channel_id : Z;
  model_name : string;
  user : Discord.User;                 (* self.bot.user *)
  message_array : list Message;
  MESSAGE_MEMORY : Z;
  DEBUG : bool;
  DELAY_MIN : Z;
  DELAY_MAX : Z;
  time_remaining : Z;
  NIGHT_MODE_ENABLED : bool;
  NIGHT_DELAY_MIN : Z;
  NIGHT_DELAY_MAX : Z;
  bot_mention_pattern : option string
}.

Definition set_message_array (self : GPTBot) (arr : list Message) : GPTBot :=
  {| channel_id := channel_id self; model_name := model_name self;
     user := user self; message_array := arr;
     MESSAGE_MEMORY := MESSAGE_MEMORY self; DEBUG := DEBUG self;
     DELAY_MIN := DELAY_MIN self; DELAY_MAX := DELAY_MAX self;
     time_remaining := time_remaining self;
     NIGHT_MODE_ENABLED := NIGHT_MODE_ENABLED self;
     NIGHT_DELAY_MIN := NIGHT_DELAY_MIN self;
     NIGHT_DELAY_MAX := NIGHT_DELAY_MAX self;
     bot_mention_pattern := bot_mention_pattern self |}.

Definition set_time_remaining (self : GPTBot) (t : Z) : GPTBot :=
  {| channel_id := channel_id self; model_name := model_name self;
     user := user self; message_array := message_array self;
     MESSAGE_MEMORY := MESSAGE_MEMORY self; DEBUG := DEBUG self;
     DELAY_MIN := DELAY_MIN self; DELAY_MAX := DELAY_MAX self;
     time_remaining := t;
     NIGHT_MODE_ENABLED := NIGHT_MODE_ENABLED self;
     NIGHT_DELAY_MIN := NIGHT_DELAY_MIN self;
     NIGHT_DELAY_MAX := NIGHT_DELAY_MAX self;
     bot_mention_pattern := bot_mention_pattern self |}.

(** The attributes set by [__init__], for a bot logged in as [u]. *)
Definition GPTBot_init (channel : Z) (name : string) (u : Discord.User) : GPTBot :=
  {| channel_id := channel; model_name := name; user := u;
     message_array := [];
     MESSAGE_MEMORY := 10; DEBUG := false;
     DELAY_MIN := 15; DELAY_MAX := 25;
     time_remaining := 0;
     NIGHT_MODE_ENABLED := true;
     NIGHT_DELAY_MIN := 40; NIGHT_DELAY_MAX := 60;
     bot_mention_pattern := None |}.

(** [msg.weight *= k] *)
Definition scale_weight (k : float) (msg : Message) : Message :=
  {| author := author msg; author_id := author_id msg;
     message := message msg; message_id := message_id msg;
     replying_to := replying_to msg;
     replying_to_replying_to := replying_to_replying_to msg;
     weight := (weight msg * k)%float |}.

(** *** on_message *)

(** [if len(arr) >= MESSAGE_MEMORY: arr.pop(0)] then [arr.append(msg)] *)
Definition message_array_append (memory : Z) (arr : list Message) (msg : Message)
  : Exc (list Message) :=
  bind (if Z.of_nat (length arr) >=? memory then pop0 arr else Ok arr)
       (fun arr' => Ok (arr' ++ [msg])).

(** [self.bot_mention_pattern and self.bot_mention_pattern in content] *)
Definition mentions_bot (self : GPTBot) (content : string) : bool :=
  match bot_mention_pattern self with
  | Some p => negb (String.eqb p "") && contains p content
  | None => false
  end.

(** The guard of [on_message]: same channel, not the bot's own
    message, no command prefix. *)
Definition on_message_accepts (self : GPTBot) (m : Discord.Message) : bool :=
  (Discord.channel m =? channel_id self)
  && negb (Discord.user_eq (Discord.author m) (user self))
  && negb (startswith_hash (Discord.content m)).

(** [message.reference.resolved if message.reference else None] *)
Definition reference_resolved (m : Discord.Message) : option Discord.Resolved :=
  match Discord.reference m with
  | Some r => Discord.resolved r
  | None => None
  end.

(** The body of the [try] of [on_message], up to [process_commands]. *)
Definition on_message_try (self : GPTBot) (m : Discord.Message) : Exc GPTBot :=
  if on_message_accepts self m then
    bind (Message_init (Discord.author m) (Discord.content m)
                       (VInt (Discord.mid m)) (reference_resolved m)) (fun msg =>
    let msg := if mentions_bot self (Discord.content m)
               then scale_weight 1.4 msg else msg in
    bind (message_array_append (MESSAGE_MEMORY self) (message_array self) msg)
         (fun arr => Ok (set_message_array self arr)))
  else Ok self.

(** [on_message]; the command handlers that [process_commands] may run
    are entry points of their own. *)
Definition on_message (self : GPTBot) (m : Discord.Message) : GPTBot * list Event :=
  match on_message_try self m with
  | Ok self' => (self', [ProcessCommands (Discord.mid m)])
  | Raise e => (self, [LogError ("Error in on_message: " +:+ e)])
  end.

(** A run of appends on one array with a fixed memory size. *)
Fixpoint message_array_extend (memory : Z) (arr : list Message) (msgs : list Message)
  : Exc (list Message) :=
  match msgs with
  | [] => Ok arr
  | msg :: rest =>
      bind (message_array_append memory arr msg)
           (fun arr' => message_array_extend memory arr' rest)
  end.

(** *** prepare_messages_for_ai *)

(** The [if]/[elif] chain choosing [weight_multiplier] for the record
    at [idx] of an array of length [len]. *)
Definition weight_multiplier (self : GPTBot) (len idx : Z) (msg : Message) : float :=
  if Discord.user_eq (author msg) (user self) then 0.0%float
  else if idx =? len - 1 then 0.8%float
  else if idx =? len - 2 then 0.7%float
  else if idx =? len - 3 then 0.6%float
  else if idx =? len - 4 then 0.5%float
  else 0.4%float.

(** [msg_dict['weight'] *= weight_multiplier] *)
Definition scale_dict_weight (k : float) (d : MessageDict) : MessageDict :=
  {| d_author := d_author d; d_author_id := d_author_id d;
     d_message := d_message d; d_message_id := d_message_id d;
     d_replying_to := d_replying_to d;
     d_replying_to_replying_to := d_replying_to_replying_to d;
     d_weight := (d_weight d * k)%float |}.

(** The [for idx, msg in enumerate(...)] loop, from index [idx] on. *)
Fixpoint prepare_loop (self : GPTBot) (len idx : Z) (rest : list Message)
  : list MessageDict :=
  match rest with
  | [] => []
  | msg :: rest' =>
      scale_dict_weight (weight_multiplier self len idx msg) (to_dict msg)
      :: prepare_loop self len (idx + 1) rest'
  end.

(** The list handed to [json.dumps]. *)
Definition prepare_messages_for_ai (self : GPTBot) : list MessageDict :=
  prepare_loop self (Z.of_nat (length (message_array self))) 0 (message_array self).

(** ** Methods as computations

    A method reads and writes the bot, appends to the trace, and ends
    with a value or an exception. [None] stands for a run that needs
    more answers from the environment than were supplied. *)

Definition M (A : Type) : Type :=
  GPTBot -> option (Exc A * GPTBot * list Event).

#[local] Instance M_ret : MRet M :=
  fun A a self => Some (Ok a, self, []).

#[local] Instance M_bind : MBind M :=
  fun A B k m self =>
    match m self with
    | Some (Ok a, self', t) =>
        match k a self' with
        | Some (r, self'', t') => Some (r, self'', t ++ t')
        | None => None
        end
    | Some (Raise e, self', t) => Some (Raise e, self', t)
    | None => None
    end.

Definition raise {A} (e : string) : M A :=
  fun self => Some (Raise e, self, []).

Definition lift {A} (x : Exc A) : M A :=
  fun self => Some (x, self, []).

Definition emit (ev : Event) : M unit :=
  fun self => Some (Ok tt, self, [ev]).

Definition get : M GPTBot :=
  fun self => Some (Ok self, self, []).

Definition put (self' : GPTBot) : M unit :=
  fun _ => Some (Ok tt, self', []).

Definition unanswered {A} : M A :=
  fun _ => None.

(** [try: m except Exception as e: handler(e)] *)
Definition try_except {A} (m : M A) (handler : string -> M A) : M A :=
  fun self =>
    match m self with
    | Some (Raise e, self', t) =>
        match handler e self' with
        | Some (r, self'', t') => Some (r, self'', t ++ t')
        | None => None
        end
    | other => other
    end.

(** [next((msg for msg in self.message_array
           if str(msg.message_id) == str(picked_message_id)), None)]:
    the first record with that id, and where it sits in the array. *)
Definition find_picked (arr : list Message) (picked_message_id : Val)
  : option (nat * Message) :=
  list_find (fun msg => str (message_id msg) = str picked_message_id) arr.

(** [picked_message.weight *= k] on the object found at index [i]. *)
Definition decay_picked (k : float) (i : nat) : M unit :=
  self ← get;
  put (set_message_array self (alter (scale_weight k) i (message_array self))).

(** *** update_message_history *)

(** The body of the [async for]: [messages] is the list built so far. *)
Fixpoint history_loop (self : GPTBot) (fetched : list Discord.Message)
    (messages : list Message) : Exc (list Message) :=
  match fetched with
  | [] => Ok messages
  | m :: rest =>
      bind (index0 (Discord.content m)) (fun c =>
      if negb (Ascii.eqb c "#")
         && negb (Discord.user_eq (Discord.author m) (user self))
      then
        let replying_to :=
          match Discord.reference m with
          | Some r => Discord.resolved r
          | None => None
          end in
        bind (Message_init (Discord.author m) (Discord.content m)
                           (VInt (Discord.mid m)) replying_to) (fun msg =>
        history_loop self rest (messages ++ [msg]))
      else history_loop self rest messages)
  end.

(** [channel.history(limit=...)]: the newest [limit] messages of the
    channel, newest first. *)
Definition channel_history (channel : list Discord.Message) (limit : Z)
  : list Discord.Message :=
  take (Z.to_nat limit) channel.

Definition update_message_history (channel : list Discord.Message) : M unit :=
  try_except
    (self ← get;
     messages ← lift (history_loop self
                        (channel_history channel (MESSAGE_MEMORY self)) []);
     put (set_message_array self (rev messages)))
    (fun e => emit (LogError ("Error in update_message_history: " +:+ e))).

(** *** get_ai_response *)

(** What [json.loads] returned: an object, with the two keys the
    program looks up present or not, or any other JSON value. *)
Inductive ResponseData : Type :=
| JsonObject (response picked_message : option Val)
| JsonOther (v : Val).

(** The outcome of one completion call followed by [json.loads]:
    either of them raised, or the payload was decoded. *)
Inductive Completion : Type :=
| Failed (e : string)
| Parsed (d : ResponseData).

(** The dictionary returned by [get_ai_response]. *)
Record AIResponse : Type := mkAIResponse {
  response : Val;
  picked_message : Val
}.

Definition LINE_FEED : string := String (ascii_of_nat 10) EmptyString.

Definition api_error (e : string) : string := "OpenAI API Error: " +:+ e.

(** [generated_response.strip()]: only a [str] has the method. *)
Definition strip_val (v : Val) : Exc string :=
  match v with
  | VStr s => Ok (strip s)
  | _ => Raise (no_attribute (type_name v) "strip")
  end.

(** [generated_response.strip() == picked_message.message.strip() or
     any(generated_response.strip() == msg.message.strip()
         for msg in self.message_array)] *)
Definition is_echo (generated : string) (picked : Message) (arr : list Message)
  : bool :=
  String.eqb generated (strip (message picked))
  || existsb (fun msg => String.eqb generated (strip (message msg))) arr.

(** The body of the [try] once the payload is decoded; [retry] is the
    recursive call [self.get_ai_response(messages)]. *)
Definition select (retry : M AIResponse) (d : ResponseData) : M AIResponse :=
  match d with
  | JsonOther v => raise (no_attribute (type_name v) "get")
  | JsonObject r p =>
      let generated_response := default (VStr "") r in
      let picked_message_id := default VNone p in
      let result := {| response := generated_response;
                       picked_message := picked_message_id |} in
      if truthy picked_message_id then
        self ← get;
        match find_picked (message_array self) picked_message_id with
        | Some (i, picked) =>
            decay_picked 0.5 i;;
            generated ← lift (strip_val generated_response);
            self' ← get;
            if is_echo generated picked (message_array self') then
              emit (LogWarning "Generated response is the same as the picked message or already exists in message history. Regenerating response.");;
              retry
            else mret result
        | None =>
            emit (LogWarning ("Picked message ID " +:+ str picked_message_id
                              +:+ " not found in message array."));;
            mret result
        end
      else
        emit (LogWarning "No message picked.");;
        mret result
  end.

(** The text of the [RecursionError] that ends a chain of nested
    calls. *)
Definition RECURSION_ERROR : string := "maximum recursion depth exceeded".

(** [get_ai_response]; each call of the completion service takes the
    next outcome of [completions]. The parameter [messages] of the
    source is never read. [depth] is the number of nested calls of
    itself that the interpreter's recursion limit still has room for
    (about 980 when the first call starts, with the default limit of
    1000): the call that cannot nest any deeper gets [RecursionError],
    an [Exception], inside its [try]. *)
Fixpoint get_ai_response (depth : nat) (completions : list Completion)
    {struct completions} : M AIResponse :=
  match completions with
  | [] => unanswered
  | c :: rest =>
      try_except
        (self ← get;
         emit (CompletionRequest (prepare_messages_for_ai self));;
         match c with
         | Failed e => raise e
         | Parsed d =>
             select (match depth with
                     | O => raise RECURSION_ERROR
                     | S depth' => get_ai_response depth' rest
                     end) d
         end)
        (fun e =>
           emit (LogError (api_error e));;
           mret {| response := VStr ""; picked_message := VStr (api_error e) |})
  end.

(** *** update_status and countdown_status *)

(** [update_status]; [raises] is what the gateway answers to
    [change_presence]. *)
Definition update_status (raises : option string) : M unit :=
  self ← get;
  emit (ChangePresence (model_name self +:+ " | Next: "
                        +:+ str_int (time_remaining self) +:+ "s"));;
  match raises with
  | Some e => raise e
  | None => mret tt
  end.

(** The [while self.time_remaining > 0] loop; [fuel] bounds the number
    of iterations. [presence k] is what the gateway answers to the
    presence update that shows [k] seconds: in one countdown every
    number of seconds is shown once. *)
Fixpoint countdown_loop (presence : Z -> option string) (fuel : nat) : M unit :=
  self ← get;
  if 0 <? time_remaining self then
    match fuel with
    | O => unanswered
    | S fuel' =>
        update_status (presence (time_remaining self));;
        emit (Sleep 3);;
        self' ← get;
        put (set_time_remaining self' (Z.max 0 (time_remaining self' - 3)));;
        countdown_loop presence fuel'
    end
  else mret tt.

Definition countdown_status (presence : Z -> option string)
    (total_seconds : Z) : M unit :=
  self ← get;
  put (set_time_remaining self total_seconds);;
  countdown_loop presence (Z.to_nat total_seconds);;
  self' ← get;
  update_status (presence (time_remaining self')).

(** *** send_responses *)

(** What the environment answers during one turn of the loop. *)
Record Cycle : Type := mkCycle {
  completions : list Completion;    (* the completion calls, in order *)
  stack : nat;                      (* nested calls the recursion limit allows *)
  send_raises : option string;      (* channel.send of the response *)
  debug_send_raises : option string;(* channel.send of the debug text *)
  tm_hour : Z;                      (* time.localtime().tm_hour *)
  random_pick : Z;                  (* the draw behind random.randint *)
  presence_raises : Z -> option string
                                    (* change_presence, by the seconds shown *)
}.

Definition is_night_time (current_hour : Z) : bool :=
  (2 <=? current_hour) && (current_hour <? 8).

(** The text of the [ValueError] of [random.randint(a, b)] for an
    empty range, which [randrange(a, b + 1)] raises. *)
Definition empty_range (a b : Z) : string :=
  "empty range for randrange() (" +:+ str_int a +:+ ", "
  +:+ str_int (b + 1) +:+ ", " +:+ str_int (b + 1 - a) +:+ ")".

(** [random.randint(a, b)] *)
Definition randint (pick a b : Z) : M Z :=
  if a <=? b then
    let r := a + pick mod (b - a + 1) in
    emit (RandInt a b r);; mret r
  else raise (empty_range a b).

(** [await channel.send(text, reference=...)] *)
Definition channel_send (raises : option string) (text : string)
    (reference : option Val) : M unit :=
  emit (ChannelSend text reference);;
  match raises with
  | Some e => raise e
  | None => mret tt
  end.

(** [ai_response and ai_response.strip() not in [...]] *)
Definition worth_sending (ai_response : Val) : Exc bool :=
  if truthy ai_response then
    bind (strip_val ai_response) (fun s =>
    Ok (negb (existsb (String.eqb s)
                ["*SILENCE*"; "*END OF CONVERSATION*"; ""; LINE_FEED])))
  else Ok false.

(** The text of a response that passed [worth_sending]. *)
Definition text_of (v : Val) : string :=
  match v with
  | VStr s => s
  | _ => str v
  end.

(** The end of the [try]: the delay is drawn, then counted down. *)
Definition delay_step (env : Cycle) : M unit :=
  self ← get;
  delay ← (if NIGHT_MODE_ENABLED self && is_night_time (tm_hour env)
           then randint (random_pick env) (NIGHT_DELAY_MIN self) (NIGHT_DELAY_MAX self)
           else randint (random_pick env) (DELAY_MIN self) (DELAY_MAX self));
  countdown_status (presence_raises env) delay.

(** [if self.DEBUG:] the context is sent to the channel as well. *)
Definition debug_echo (env : Cycle) : M unit :=
  self ← get;
  if DEBUG self then
    emit (DebugSend (to_dict <$> message_array self));;
    match debug_send_raises env with
    | Some e => raise e
    | None => mret tt
    end
  else mret tt.

(** The [if ai_response and ...] block: the emission. *)
Definition emission (env : Cycle) (ai_response picked_message_id : Val) : M unit :=
  (if truthy picked_message_id then
     self ← get;
     match find_picked (message_array self) picked_message_id with
     | Some (i, _) =>
         decay_picked 0.3 i;;
         channel_send (send_raises env) (text_of ai_response)
                      (Some picked_message_id)
     | None =>
         emit (LogWarning ("Picked message ID " +:+ str picked_message_id
                           +:+ " not found in message array."));;
         channel_send (send_raises env) (text_of ai_response) None
     end
   else
     emit (LogWarning "No message picked.");;
     channel_send (send_raises env) (text_of ai_response) None);;
  debug_echo env.

(** The body of the [try] of one turn of the loop. *)
Definition send_responses_try (env : Cycle) : M unit :=
  ai_response_json ← get_ai_response (stack env) (completions env);
  let ai_response := response ai_response_json in
  let picked_message_id := picked_message ai_response_json in
  go ← lift (worth_sending ai_response);
  (if go : bool then emission env ai_response picked_message_id else mret tt);;
  delay_step env.

(** One turn of [while True]: the [try] and its [except Exception]. *)
Definition send_responses_turn (env : Cycle) : M unit :=
  try_except (send_responses_try env)
             (fun e => emit (LogError ("Error in send_responses: " +:+ e))).

(** [send_responses], for as many turns as the environment answers. *)
Fixpoint send_responses (envs : list Cycle) : M unit :=
  match envs with
  | [] => mret tt
  | env :: rest => send_responses_turn env;; send_responses rest
  end.

(** ** The rest of the class: logging colours, commands, on_ready *)

(** [c.lower()] for one character with a code point below 256: the
    letters A..Z and the Latin-1 capitals, the multiplication sign
    apart. *)
Definition lower_char (c : ascii) : ascii :=
  let n := Z.of_N (N_of_ascii c) in
  if ((65 <=? n) && (n <=? 90))
     || ((192 <=? n) && (n <=? 222) && negb (n =? 215))
  then ascii_of_N (Z.to_N (n + 32)) else c.

(** [s.lower()] *)
Fixpoint lower (s : string) : string :=
  match s with
  | EmptyString => EmptyString
  | String c s' => String (lower_char c) (lower s')
  end.

(** The dictionary [colors] of [get_color_code]. *)
Definition colors : gmap string string :=
  list_to_map
    [("black", "30"); ("red", "31"); ("green", "32"); ("yellow", "33");
     ("blue", "34"); ("magenta", "35"); ("cyan", "36"); ("white", "37")].

(** [colors.get(color_name.lower(), '37')] *)
Definition get_color_code (color_name : string) : string :=
  default "37" (colors !! lower color_name).

Definition set_MESSAGE_MEMORY (self : GPTBot) (size : Z) : GPTBot :=
  {| channel_id := channel_id self; model_name := model_name self;
     user := user self; message_array := message_array self;
     MESSAGE_MEMORY := size; DEBUG := DEBUG self;
     DELAY_MIN := DELAY_MIN self; DELAY_MAX := DELAY_MAX self;
     time_remaining := time_remaining self;
     NIGHT_MODE_ENABLED := NIGHT_MODE_ENABLED self;
     NIGHT_DELAY_MIN := NIGHT_DELAY_MIN self;
     NIGHT_DELAY_MAX := NIGHT_DELAY_MAX self;
     bot_mention_pattern := bot_mention_pattern self |}.

Definition set_DEBUG (self : GPTBot) (value : bool) : GPTBot :=
  {| channel_id := channel_id self; model_name := model_name self;
     user := user self; message_array := message_array self;
     MESSAGE_MEMORY := MESSAGE_MEMORY self; DEBUG := value;
     DELAY_MIN := DELAY_MIN self; DELAY_MAX := DELAY_MAX self;
     time_remaining := time_remaining self;
     NIGHT_MODE_ENABLED := NIGHT_MODE_ENABLED self;
     NIGHT_DELAY_MIN := NIGHT_DELAY_MIN self;
     NIGHT_DELAY_MAX := NIGHT_DELAY_MAX self;
     bot_mention_pattern := bot_mention_pattern self |}.

Definition set_DELAY (self : GPTBot) (min_delay max_delay : Z) : GPTBot :=
  {| channel_id := channel_id self; model_name := model_name self;
     user := user self; message_array := message_array self;
     MESSAGE_MEMORY := MESSAGE_MEMORY self; DEBUG := DEBUG self;
     DELAY_MIN := min_delay; DELAY_MAX := max_delay;
     time_remaining := time_remaining self;
     NIGHT_MODE_ENABLED := NIGHT_MODE_ENABLED self;
     NIGHT_DELAY_MIN := NIGHT_DELAY_MIN self;
     NIGHT_DELAY_MAX := NIGHT_DELAY_MAX self;
     bot_mention_pattern := bot_mention_pattern self |}.

Definition set_NIGHT_MODE_ENABLED (self : GPTBot) (value : bool) : GPTBot :=
  {| channel_id := channel_id self; model_name := model_name self;
     user := user self; message_array := message_array self;
     MESSAGE_MEMORY := MESSAGE_MEMORY self; DEBUG := DEBUG self;
     DELAY_MIN := DELAY_MIN self; DELAY_MAX := DELAY_MAX self;
     time_remaining := time_remaining self;
     NIGHT_MODE_ENABLED := value;
     NIGHT_DELAY_MIN := NIGHT_DELAY_MIN self;
     NIGHT_DELAY_MAX := NIGHT_DELAY_MAX self;
     bot_mention_pattern := bot_mention_pattern self |}.

Definition set_bot_mention_pattern (self : GPTBot) (p : option string) : GPTBot :=
  {| channel_id := channel_id self; model_name := model_name self;
     user := user self; message_array := message_array self;
     MESSAGE_MEMORY := MESSAGE_MEMORY self; DEBUG := DEBUG self;
     DELAY_MIN := DELAY_MIN self; DELAY_MAX := DELAY_MAX self;
     time_remaining := time_remaining self;
     NIGHT_MODE_ENABLED := NIGHT_MODE_ENABLED self;
     NIGHT_DELAY_MIN := NIGHT_DELAY_MIN self;
     NIGHT_DELAY_MAX := NIGHT_DELAY_MAX self;
     bot_mention_pattern := p |}.

(** [await ctx.send(text)]: a message to the channel of the command,
    with no reference; [raises] is what the transport answers. *)
Definition ctx_send (raises : option string) (text : string) : M unit :=
  channel_send raises text None.

(** The command [reset_history]. *)
Definition reset_history (ack_raises : option string) : M unit :=
  try_except
    (self ← get;
     put (set_message_array self []);;
     ctx_send ack_raises "#Message history has been reset.")
    (fun e => emit (LogError ("Error in reset_history: " +:+ e))).

(** The command [set_memory_size]; [ctx_channel] is the history of the
    channel the command came from. *)
Definition set_memory_size (ctx_channel : list Discord.Message)
    (ack_raises : option string) (size : Z) : M unit :=
  try_except
    (if (size <? 1) || (size >? 100) then
       ctx_send ack_raises
         "#Invalid memory size. Please choose a number between 1 and 100.";;
       emit (LogWarning ("Invalid memory size attempted: " +:+ str_int size))
     else
       self ← get;
       put (set_MESSAGE_MEMORY self size);;
       update_message_history ctx_channel;;
       ctx_send ack_raises ("#Message memory size set to " +:+ str_int size))
    (fun e => emit (LogError ("Error in set_memory_size: " +:+ e))).

(** [value.lower() not in ['true', 'false']] *)
Definition not_a_flag (value : string) : bool :=
  negb (existsb (String.eqb (lower value)) ["true"; "false"]).

(** The command [debug]. *)
Definition set_debug (ack_raises : option string) (value : string) : M unit :=
  try_except
    (if not_a_flag value then
       ctx_send ack_raises "#Invalid value. Please use 'true' or 'false'."
     else
       self ← get;
       put (set_DEBUG self (String.eqb (lower value) "true"));;
       self' ← get;
       ctx_send ack_raises ("#Debug mode set to " +:+ str (VBool (DEBUG self'))))
    (fun e => emit (LogError ("Error in set_debug: " +:+ e))).

(** The command [set_delay]. The two comparison signs of the refusal
    text lie beyond code point 255 and are spelled in ASCII here. *)
Definition set_delay (presence_raises ack_raises : option string)
    (min_delay max_delay : Z) : M unit :=
  try_except
    (if (min_delay <? 1) || (max_delay >? 60) || (min_delay >=? max_delay) then
       ctx_send ack_raises
         "#Invalid delay range. Min must be >=1, max must be <=60, and min must be less than max."
     else
       self ← get;
       put (set_DELAY self min_delay max_delay);;
       update_status presence_raises;;
       self' ← get;
       ctx_send ack_raises
         ("#Delay range set to " +:+ str_int (DELAY_MIN self') +:+ "-"
          +:+ str_int (DELAY_MAX self') +:+ " seconds"))
    (fun e => emit (LogError ("Error in set_delay: " +:+ e))).

(** The command [night_mode]. *)
Definition set_night_mode (ack_raises : option string) (value : string)
  : M unit :=
  try_except
    (if not_a_flag value then
       ctx_send ack_raises "#Invalid value. Please use 'true' or 'false'."
     else
       self ← get;
       put (set_NIGHT_MODE_ENABLED self (String.eqb (lower value) "true"));;
       self' ← get;
       ctx_send ack_raises
         ("#Night mode set to " +:+ str (VBool (NIGHT_MODE_ENABLED self'))))
    (fun e => emit (LogError ("Error in set_night_mode: " +:+ e))).

(** The command [refresh_prompt]: [__init__] never assigns
    [self.config], so the first expression of the [try] raises. *)
Definition refresh_prompt (ack_raises : option string) : M unit :=
  try_except
    (raise (A := unit) (no_attribute "GPTBot" "config");;
     ctx_send ack_raises "#System prompt has been refreshed.")
    (fun e => emit (LogError ("Error in refresh_prompt: " +:+ e))).

Definition help_text : string :=
  "#Available commands:" +:+ LINE_FEED
  +:+ "#reset_history - Reset the message history." +:+ LINE_FEED
  +:+ "#set_memory_size <size> - Set the message memory size (1-100)." +:+ LINE_FEED
  +:+ "#debug <true/false> - Enable or disable debug mode." +:+ LINE_FEED
  +:+ "#set_delay <min_delay> <max_delay> - Set the delay range in seconds." +:+ LINE_FEED
  +:+ "#night_mode <true/false> - Enable or disable night mode." +:+ LINE_FEED
  +:+ "#refresh_prompt - Refresh the system prompt.".

(** The command [help]: the one handler without a [try]. *)
Definition help_command (ack_raises : option string) : M unit :=
  ctx_send ack_raises help_text.

(** [f'<@{self.bot.user.id}>'] *)
Definition mention_of (u : Discord.User) : string :=
  "<@" +:+ str_int (Discord.id u) +:+ ">".

(** [on_ready]. [timed_out] says whether [asyncio.wait_for] gave up on
    the hydration after its 20 seconds: the hydration is then
    cancelled before it assigns the buffer, and [TimeoutError], whose
    text is empty, is raised. [presence_raises] is what the gateway
    answers to the presence update. The value is whether the task
    running [send_responses] was created. *)
Definition on_ready (channel : list Discord.Message) (timed_out : bool)
    (presence_raises : option string) : M bool :=
  try_except
    ((if timed_out then raise "" else update_message_history channel);;
     update_status presence_raises;;
     self ← get;
     put (set_bot_mention_pattern self (Some (mention_of (user self))));;
     mret true)
    (fun e => emit (LogError ("Error in on_ready: " +:+ e));; mret false).

(** ** Vocabulary of the specification *)

(** A replied-to message exists and its author is not an automated
    participant. *)
Definition replied_to_a_user (replying_to : option Discord.Resolved) : bool :=
  match replying_to with
  | Some (Discord.ResolvedMessage m) => negb (Discord.bot (Discord.author m))
  | _ => false
  end.

(** The replied-to message, or the message it replied to, is deleted. *)
Definition touches_deleted (replying_to : option Discord.Resolved) : bool :=
  match replying_to with
  | Some Discord.DeletedReferencedMessage => true
  | Some (Discord.ResolvedMessage m) =>
      match Discord.reference m with
      | Some (Discord.mkReference (Some Discord.DeletedReferencedMessage)) => true
      | _ => false
      end
  | None => false
  end.

(** The filtering rule of the inbound path, applied to a fetched
    message: no command prefix, not written by the bot itself. *)
Definition hydration_keeps (self : GPTBot) (m : Discord.Message) : bool :=
  negb (startswith_hash (Discord.content m))
  && negb (Discord.user_eq (Discord.author m) (user self)).

(** The recency multiplier of a record, by its distance from the
    newest end of the buffer. *)
Definition recency_multiplier (from_newest : nat) : float :=
  match from_newest with
  | 0%nat => 0.8%float
  | 1%nat => 0.7%float
  | 2%nat => 0.6%float
  | 3%nat => 0.5%float
  | _ => 0.4%float
  end.

(** The effective-weight multiplier of the record at index [j] of a
    buffer of [n] records. *)
Definition effective_multiplier (self : GPTBot) (n j : nat) (msg : Message) : float :=
  if Discord.user_eq (author msg) (user self) then 0.0%float
  else recency_multiplier (n - 1 - j).

(** The completion call, the decoding of its payload, or the first
    look at the decoded payload raises an exception with text [e]. *)
Definition completion_raises (c : Completion) : option string :=
  match c with
  | Failed e => Some e
  | Parsed (JsonOther v) => Some (no_attribute (type_name v) "get")
  | Parsed (JsonObject _ _) => None
  end.

(** The trace [t] put in front of the trace of a run. *)
Definition after {A} (t : list Event)
    (run : option (Exc A * GPTBot * list Event)) : option (Exc A * GPTBot * list Event) :=
  match run with
  | Some (r, self, t') => Some (r, self, t ++ t')
  | None => None
  end.

(** Every finished run of [m] relates the bot before and after by [R]
    and leaves only events satisfying [P]. *)
Definition respects (R : GPTBot -> GPTBot -> Prop) (P : Event -> Prop)
    {A} (m : M A) : Prop :=
  forall self r self' t, m self = Some (r, self', t) -> R self self' /\ Forall P t.

(** A finished run of [m] never ends with an exception. *)
Definition never_raises {A} (m : M A) : Prop :=
  forall self r self' t, m self = Some (r, self', t) -> exists a, r = Ok a.

(** [m] finishes from every bot: it needs no answer beyond those
    supplied, and its loops run out of their own accord. *)
Definition finishes {A} (m : M A) : Prop :=
  forall self, exists r self' t, m self = Some (r, self', t).

(** The runs leave the stored records as they are. *)
Definition same_records (self self' : GPTBot) : Prop :=
  message_array self' = message_array self.

(** Events that come from the selector: its request and its log
    lines. *)
Definition is_selector_event (ev : Event) : bool :=
  match ev with
  | CompletionRequest _ | LogWarning _ | LogError _ => true
  | _ => false
  end.

(** Events of the delay step: the draw, the presence updates, the
    sleeps. *)
Definition is_delay_event (ev : Event) : bool :=
  match ev with
  | RandInt _ _ _ | ChangePresence _ | Sleep _ => true
  | _ => false
  end.

(** The calls of the completion service. *)
Definition is_completion_request (ev : Event) : bool :=
  match ev with
  | CompletionRequest _ => true
  | _ => false
  end.

(** Events that put something into the channel. *)
Definition is_send_event (ev : Event) : bool :=
  match ev with
  | ChannelSend _ _ | DebugSend _ => true
  | _ => false
  end.

(** The reference the emission gives to its send: the picked id when
    it is truthy and some record of the buffer carries it. *)
Definition reply_target (arr : list Message) (picked_message_id : Val)
  : option Val :=
  if truthy picked_message_id then
    match find_picked arr picked_message_id with
    | Some _ => Some picked_message_id
    | None => None
    end
  else None.

(** The bot after the decay of the emission: the weight of the record
    that the reply targets is multiplied by 0.3. *)
Definition decayed_on_send (self : GPTBot) (picked_message_id : Val) : GPTBot :=
  if truthy picked_message_id then
    match find_picked (message_array self) picked_message_id with
    | Some (i, _) =>
        set_message_array self
          (alter (scale_weight 0.3) i (message_array self))
    | None => self
    end
  else self.

(** The warning that the emission logs before an un-targeted send. *)
Definition send_warnings (arr : list Message) (picked_message_id : Val)
  : list Event :=
  if truthy picked_message_id then
    match find_picked arr picked_message_id with
    | Some _ => []
    | None => [LogWarning ("Picked message ID " +:+ str picked_message_id
                           +:+ " not found in message array.")]
    end
  else [LogWarning "No message picked."].

(** What follows the selector in one turn of the loop, given the
    selector's result. *)
Definition after_selector (env : Cycle) (a : AIResponse) : M unit :=
  lift (worth_sending (response a)) ≫= fun go =>
  (if go : bool then emission env (response a) (picked_message a)
   else mret tt) ≫= fun _ => delay_step env.

(** The log line of the turn's handler, if the turn ended in it. *)
Definition turn_error (r : Exc unit) : list Event :=
  match r with
  | Ok _ => []
  | Raise e => [LogError ("Error in send_responses: " +:+ e)]
  end.

(** The sends of a trace, in order. *)
Definition sends_of (t : list Event) : list Event :=
  filter (fun ev => is_send_event ev = true) t.

(** One pick-and-send cycle on a record: the two decays. *)
Definition engage (msg : Message) : Message :=
  scale_weight 0.3 (scale_weight 0.5 msg).

(** In the turn [env] the service answers with a text that is no echo
    and passes the test before the emission, and picks the id [p]. *)
Definition answers_to (p : Val) (picked : Message) (arr : list Message)
    (env : Cycle) : Prop :=
  exists g rest,
    completions env = Parsed (JsonObject (Some (VStr g)) (Some p)) :: rest
    /\ is_echo (strip g) picked arr = false
    /\ worth_sending (VStr g) = Ok true.

(** The hydration gets through a fetch: every message has some text,
    and no message that passes the filtering rule replies to a deleted
    message or to a reply to one. *)
Definition hydratable (self : GPTBot) (fetched : list Discord.Message) : bool :=
  forallb (fun m =>
             negb (String.eqb (Discord.content m) "")
             && (negb (hydration_keeps self m)
                 || negb (touches_deleted (reference_resolved m))))
          fetched.

(** The weight of the record is the one its construction gave it: no
    mention boost, no decay. *)
Definition has_base_weight (msg : Message) : Prop :=
  weight msg = calculate_base_weight (author msg) (replying_to msg).

(** How an awaited call ends that raises [raises], if anything. *)
Definition outcome (raises : option string) : Exc unit :=
  match raises with
  | Some e => Raise e
  | None => Ok tt
  end.

(** The presence text while [k] seconds remain. *)
Definition status_text (name : string) (k : Z) : string :=
  name +:+ " | Next: " +:+ str_int k +:+ "s".

(** [n] rounds of the countdown from [d] seconds: the presence, then a
    sleep of 3 seconds, the remainder going down by 3 and not below 0. *)
Fixpoint countdown_events (name : string) (n : nat) (d : Z) : list Event :=
  match n with
  | O => []
  | S n' =>
      ChangePresence (status_text name d) :: Sleep 3
      :: countdown_events name n' (Z.max 0 (d - 3))
  end.

(** The settings lie within the ranges that the commands accept, and
    the night range is the one of [__init__]. *)
Definition config_ok (self : GPTBot) : Prop :=
  1 <= MESSAGE_MEMORY self <= 100
  /\ 1 <= DELAY_MIN self /\ DELAY_MIN self < DELAY_MAX self
  /\ DELAY_MAX self <= 60
  /\ NIGHT_DELAY_MIN self = 40 /\ NIGHT_DELAY_MAX self = 60.

(** The buffer is no longer than the memory size. *)
Definition within_memory (self : GPTBot) : Prop :=
  Z.of_nat (length (message_array self)) <= MESSAGE_MEMORY self.

(** The channel, the account and the name of the bot are the same. *)
Definition same_identity (self self' : GPTBot) : Prop :=
  channel_id self' = channel_id self
  /\ user self' = user self
  /\ model_name self' = model_name self.

(** Every finished run of [m] from a bot satisfying [I] ends in a bot
    satisfying [I]. *)
Definition preserves (I : GPTBot -> Prop) {A} (m : M A) : Prop :=
  forall self r self' t, I self -> m self = Some (r, self', t) -> I self'.

(** The entry points that [setup_handlers] registers with the client,
    the two events and the seven commands, and one turn of the loop of
    [send_responses], each with what the environment supplies to it. *)
Inductive Handler : Type :=
| OnReady (channel : list Discord.Message) (timed_out : bool)
          (presence_raises : option string)
| OnMessage (m : Discord.Message)
| Turn (env : Cycle)
| ResetHistory (ack_raises : option string)
| SetMemorySize (ctx_channel : list Discord.Message)
                (ack_raises : option string) (size : Z)
| SetDebug (ack_raises : option string) (value : string)
| SetDelay (presence_raises ack_raises : option string)
           (min_delay max_delay : Z)
| SetNightMode (ack_raises : option string) (value : string)
| RefreshPrompt (ack_raises : option string)
| Help (ack_raises : option string).

(** One run of an entry point, on its own. *)
Definition handle (h : Handler) : M unit :=
  match h with
  | OnReady channel timed_out presence_raises =>
      on_ready channel timed_out presence_raises ≫= fun _ => mret tt
  | OnMessage m =>
      fun self => Some (Ok tt, fst (on_message self m), snd (on_message self m))
  | Turn env => send_responses_turn env
  | ResetHistory ack_raises => reset_history ack_raises
  | SetMemorySize ctx_channel ack_raises size =>
      set_memory_size ctx_channel ack_raises size
  | SetDebug ack_raises value => set_debug ack_raises value
  | SetDelay presence_raises ack_raises min_delay max_delay =>
      set_delay presence_raises ack_raises min_delay max_delay
  | SetNightMode ack_raises value => set_night_mode ack_raises value
  | RefreshPrompt ack_raises => refresh_prompt ack_raises
  | Help ack_raises => help_command ack_raises
  end.

Definition is_command (h : Handler) : bool :=
  match h with
  | OnReady _ _ _ | OnMessage _ | Turn _ => false
  | _ => true
  end.

(** A [set_memory_size] that stores a new size also gets through its
    hydration. *)
Definition rehydrates (h : Handler) (self : GPTBot) : bool :=
  match h with
  | SetMemorySize ctx_channel _ size =>
      (size <? 1) || (size >? 100)
      || hydratable self (channel_history ctx_channel size)
  | _ => true
  end.

(** The bot after [on_message] has run on each of [ms] in turn. *)
Definition receive (self : GPTBot) (ms : list Discord.Message) : GPTBot :=
  fold_left (fun s m => fst (on_message s m)) ms self.

(** ** Sample data

    A channel with two human participants and the bot, used where a
    statement is evaluated on a concrete input. *)

Module Sample.

Definition alice : Discord.User := Discord.mkUser 11 false "alice".
Definition bob : Discord.User := Discord.mkUser 12 false "bob".
Definition me : Discord.User := Discord.mkUser 99 true "v3s".

(** A stored record of weight 1.0, with a string id as the completion
    service spells it. *)
Definition record (i : string) (text : string) : Message :=
  {| author := alice; author_id := 11; message := text;
     message_id := VStr i; replying_to := None;
     replying_to_replying_to := None; weight := 1.0%float |}.

Definition r1 : Message := record "1" "good morning".
Definition r2 : Message := record "2" "hello".
Definition r3 : Message := record "3" "see you".

(** The bot of scenario A: three records of weight 1.0. *)
Definition bot3 : GPTBot :=
  set_message_array (GPTBot_init 5 "v3s" me)
    [record "1" "good morning"; record "2" "how are you"; record "3" "see you"].

(** The bot of scenario B: the record with id 2 reads "hello". *)
Definition bot_echo : GPTBot :=
  set_message_array (GPTBot_init 5 "v3s" me) [r1; r2; r3].

(** The completion service answers "hello", picking the message [i]. *)
Definition hello (i : string) : Completion :=
  Parsed (JsonObject (Some (VStr "hello")) (Some (VStr i))).

(** The completion service answers "hello there", picking the
    message [i]. *)
Definition hello_there (i : string) : Completion :=
  Parsed (JsonObject (Some (VStr "hello there")) (Some (VStr i))).

(** A turn at noon in which the service answers "hello" to message
    [i], and the channel send raises [send] if it is not [None]. *)
Definition turn (i : string) (send : option string) : Cycle :=
  {| completions := [hello i]; stack := 980; send_raises := send;
     debug_send_raises := None; tm_hour := 12; random_pick := 7;
     presence_raises := fun _ => None |}.

(** A channel, newest first, whose middle message has an attachment
    and no text. *)
Definition channel_with_attachment : list Discord.Message :=
  [Discord.mkMessage alice "see you" 3 5 None;
   Discord.mkMessage bob "" 2 5 None;
   Discord.mkMessage alice "good morning" 1 5 None].

(** The same channel without that message. *)
Definition channel_of_texts : list Discord.Message :=
  [Discord.mkMessage alice "see you" 3 5 None;
   Discord.mkMessage me "hello" 4 5 None;
   Discord.mkMessage bob "#reset_history" 2 5 None;
   Discord.mkMessage alice "good morning" 1 5 None].

(** A bot with six records; the third is its own, the second and the
    fifth have the weight 0.5. *)
Definition bot6 : GPTBot :=
  set_message_array (GPTBot_init 5 "v3s" me)
    [record "1" "good morning";
     scale_weight 0.5 (record "2" "hello");
     {| author := me; author_id := 99; message := "hello to you";
        message_id := VStr "3"; replying_to := None;
        replying_to_replying_to := None; weight := 1.0%float |};
     record "4" "how are you";
     scale_weight 0.5 (record "5" "are you there");
     record "6" "see you"].

(** The bot as [__init__] leaves it. *)
Definition fresh : GPTBot := GPTBot_init 5 "v3s" me.

(** The transport error of the failing turn. *)
Definition unreachable : string := "Cannot connect to host discord.com:443".

(** A turn at noon in which the service answers [text] to message [i]
    and every send succeeds. *)
Definition turn_of (text i : string) : Cycle :=
  {| completions := [Parsed (JsonObject (Some (VStr text)) (Some (VStr i)))];
     stack := 980; send_raises := None; debug_send_raises := None;
     tm_hour := 12; random_pick := 7; presence_raises := fun _ => None |}.

(** A turn at noon in which the completion call fails. *)
Definition failing_turn : Cycle :=
  {| completions := [Failed "Connection error."]; stack := 980;
     send_raises := None; debug_send_raises := None;
     tm_hour := 12; random_pick := 7; presence_raises := fun _ => None |}.

(** The gateway refuses the presence update that shows [k] seconds,
    and no other. *)
Definition presence_fails_at (k : Z) : Z -> option string :=
  fun shown => if shown =? k then Some unreachable else None.

(** A bot that is logged in and knows its mention pattern. *)
Definition ready : GPTBot :=
  {| channel_id := 5; model_name := "v3s"; user := me;
     message_array := []; MESSAGE_MEMORY := 10; DEBUG := false;
     DELAY_MIN := 15; DELAY_MAX := 25; time_remaining := 0;
     NIGHT_MODE_ENABLED := true; NIGHT_DELAY_MIN := 40;
     NIGHT_DELAY_MAX := 60; bot_mention_pattern := Some "<@99>" |}.

Definition incoming (text : string) : Discord.Message :=
  Discord.mkMessage bob text 1001 5 None.

End Sample.

(** * Properties *)

(** ** Running a computation *)

Section Run.
Context {A B : Type}.

Lemma after_nil (run : option (Exc A * GPTBot * list Event)) :
  after [] run = run.
Proof. destruct run as [[[r s] t]|]; reflexivity. Qed.

Lemma after_after (t1 t2 : list Event)
    (run : option (Exc A * GPTBot * list Event)) :
  after t1 (after t2 run) = after (t1 ++ t2) run.
Proof.
  destruct run as [[[r s] t]|]; cbn; [|reflexivity].
  rewrite app_assoc. reflexivity.
Qed.

Lemma run_bind_ok (m : M A) (k : A -> M B) self a self' t :
  m self = Some (Ok a, self', t) -> (m ≫= k) self = after t (k a self').
Proof.
  intros H. unfold mbind, M_bind. rewrite H.
  destruct (k a self') as [[[r s] t']|]; reflexivity.
Qed.

Lemma run_bind_raise (m : M A) (k : A -> M B) self e self' t :
  m self = Some (Raise e, self', t) -> (m ≫= k) self = Some (Raise e, self', t).
Proof. intros H. unfold mbind, M_bind. rewrite H. reflexivity. Qed.

Lemma run_bind_inv (m : M A) (k : A -> M B) self r self2 t :
  (m ≫= k) self = Some (r, self2, t) ->
  (exists a self1 t1 t2,
      m self = Some (Ok a, self1, t1) /\ k a self1 = Some (r, self2, t2)
      /\ t = t1 ++ t2)
  \/ (exists e, m self = Some (Raise e, self2, t) /\ r = Raise e).
Proof.
  unfold mbind, M_bind.
  destruct (m self) as [[[[a|e] s1] t1]|]; [| |discriminate].
  - destruct (k a s1) as [[[r' s2] t2]|] eqn:Hk; [|discriminate].
    intros [= <- <- <-]. left. exists a, s1, t1, t2. auto.
  - intros [= <- <- <-]. right. exists e. auto.
Qed.

Lemma run_try_ok (m : M A) (h : string -> M A) self a self' t :
  m self = Some (Ok a, self', t) -> try_except m h self = Some (Ok a, self', t).
Proof. intros H. unfold try_except. rewrite H. reflexivity. Qed.

Lemma run_try_raise (m : M A) (h : string -> M A) self e self' t :
  m self = Some (Raise e, self', t) ->
  try_except m h self = after t (h e self').
Proof.
  intros H. unfold try_except. rewrite H.
  destruct (h e self') as [[[r s] t']|]; reflexivity.
Qed.

Lemma run_try_inv (m : M A) (h : string -> M A) self r self2 t :
  try_except m h self = Some (r, self2, t) ->
  (exists a, m self = Some (Ok a, self2, t) /\ r = Ok a)
  \/ (exists e self1 t1 t2,
         m self = Some (Raise e, self1, t1) /\ h e self1 = Some (r, self2, t2)
         /\ t = t1 ++ t2).
Proof.
  unfold try_except.
  destruct (m self) as [[[[a|e] s1] t1]|]; [| |discriminate].
  - intros [= <- <- <-]. left. exists a. auto.
  - destruct (h e s1) as [[[r' s2] t2]|] eqn:Hh; [|discriminate].
    intros [= <- <- <-]. right. exists e, s1, t1, t2. auto.
Qed.

(** A [try] whose handler never raises never raises. *)
Lemma try_except_never_raises (m : M A) (h : string -> M A) :
  (forall e, never_raises (h e)) -> never_raises (try_except m h).
Proof.
  intros Hh self r self2 t H.
  apply run_try_inv in H as [(a & _ & ->)|(e & s1 & t1 & t2 & _ & H & _)].
  - exists a. reflexivity.
  - exact (Hh e _ _ _ _ H).
Qed.

End Run.

(** ** What a computation leaves behind *)

Section Respects.
Variable R : GPTBot -> GPTBot -> Prop.
Variable P : Event -> Prop.
Hypothesis R_refl : forall s, R s s.
Hypothesis R_trans : forall a b c, R a b -> R b c -> R a c.

Lemma respects_ret {A} (a : A) : respects R P (mret a).
Proof. intros s r s' t [= <- <- <-]. auto. Qed.

Lemma respects_raise {A} (e : string) : respects R P (raise (A := A) e).
Proof. intros s r s' t [= <- <- <-]. auto. Qed.

Lemma respects_lift {A} (x : Exc A) : respects R P (lift x).
Proof. intros s r s' t [= <- <- <-]. auto. Qed.

Lemma respects_get : respects R P get.
Proof. intros s r s' t [= <- <- <-]. auto. Qed.

Lemma respects_unanswered {A} : respects R P (unanswered (A := A)).
Proof. intros s r s' t [=]. Qed.

Lemma respects_emit (ev : Event) : P ev -> respects R P (emit ev).
Proof. intros Hev s r s' t [= <- <- <-]. auto. Qed.

Lemma respects_put (self' : GPTBot) :
  (forall s, R s self') -> respects R P (put self').
Proof. intros H s r s' t [= <- <- <-]. auto. Qed.

Lemma respects_bind {A B} (m : M A) (k : A -> M B) :
  respects R P m -> (forall a, respects R P (k a)) -> respects R P (m ≫= k).
Proof.
  intros Hm Hk s r s2 t H.
  apply run_bind_inv in H
    as [(a & s1 & t1 & t2 & H1 & H2 & ->)|(e & H1 & _)].
  - destruct (Hm _ _ _ _ H1) as [HR1 HP1].
    destruct (Hk a _ _ _ _ H2) as [HR2 HP2].
    split; [eauto|]. apply Forall_app; auto.
  - exact (Hm _ _ _ _ H1).
Qed.

Lemma respects_try_except {A} (m : M A) (h : string -> M A) :
  respects R P m -> (forall e, respects R P (h e)) ->
  respects R P (try_except m h).
Proof.
  intros Hm Hh s r s2 t H.
  apply run_try_inv in H
    as [(a & H1 & _)|(e & s1 & t1 & t2 & H1 & H2 & ->)].
  - exact (Hm _ _ _ _ H1).
  - destruct (Hm _ _ _ _ H1) as [HR1 HP1].
    destruct (Hh e _ _ _ _ H2) as [HR2 HP2].
    split; [eauto|]. apply Forall_app; auto.
Qed.

End Respects.

(** ** Message *)

(** C8: the weight of a constructed record is 1.0 for a human author
    and 0.5 for a bot, times 1.2 exactly when a replied-to message
    exists and its author is not a bot; it is strictly positive; the
    construction fails only on a deleted reference. *)
Theorem Message_init_weight (author : Discord.User) (content : string)
    (message_id : Val) (replying_to : option Discord.Resolved) :
  match Message_init author content message_id replying_to with
  | Ok msg =>
      let base := if Discord.bot author then 0.5%float else 1.0%float in
      weight msg = (if replied_to_a_user replying_to
                    then (base * 1.2)%float else base)
      /\ (0 <? weight msg)%float = true
  | Raise _ => touches_deleted replying_to = true
  end.
Proof.
  destruct replying_to as [[m|]|]; cbn; [|reflexivity|].
  - destruct m as [a c i ch [[[[g|]|]]|]]; cbn;
      try reflexivity;
      destruct (Discord.bot author), (Discord.bot a); cbn; split; reflexivity.
  - destruct (Discord.bot author); cbn; split; reflexivity.
Qed.

(** ** The bounded buffer *)

Lemma message_array_append_drop (memory : Z) (arr : list Message) (msg : Message) :
  1 <= memory ->
  Z.of_nat (length arr) <= memory ->
  message_array_append memory arr msg
  = Ok (drop (length (arr ++ [msg]) - Z.to_nat memory) (arr ++ [msg])).
Proof.
  intros Hmem Hlen. unfold message_array_append.
  rewrite length_app. cbn [length].
  destruct (Z.geb_spec (Z.of_nat (length arr)) memory) as [Hge|Hlt].
  - destruct arr as [|x arr]; cbn [length] in *; [lia|].
    cbn. replace (S (length arr + 1) - Z.to_nat memory)%nat with 1%nat by lia.
    reflexivity.
  - cbn. replace (length arr + 1 - Z.to_nat memory)%nat with 0%nat by lia.
    reflexivity.
Qed.

(** C7: with a memory size of at least 1, any run of appends on a
    buffer within the bound succeeds, leaves the buffer within the
    bound, and retains exactly the most recent records, in order. *)
Theorem message_array_capacity (memory : Z) (arr msgs : list Message) :
  1 <= memory ->
  Z.of_nat (length arr) <= memory ->
  message_array_extend memory arr msgs
  = Ok (drop (length (arr ++ msgs) - Z.to_nat memory) (arr ++ msgs))
  /\ Z.of_nat (length (drop (length (arr ++ msgs) - Z.to_nat memory) (arr ++ msgs)))
     <= memory.
Proof.
  intros Hmem. revert arr.
  induction msgs as [|msg rest IH]; intros arr Hlen.
  - cbn [message_array_extend]. rewrite app_nil_r.
    replace (length arr - Z.to_nat memory)%nat with 0%nat by lia.
    rewrite drop_0. split; [reflexivity|lia].
  - cbn [message_array_extend].
    rewrite message_array_append_drop by assumption. cbn [bind].
    set (n1 := (length (arr ++ [msg]) - Z.to_nat memory)%nat).
    assert (Hn1 : (n1 <= length (arr ++ [msg]))%nat) by (subst n1; lia).
    assert (Hl1 : length (drop n1 (arr ++ [msg])) = (length arr + 1 - n1)%nat).
    { rewrite length_drop, length_app. cbn. lia. }
    destruct (IH (drop n1 (arr ++ [msg]))) as [Heq Hle].
    { rewrite Hl1. subst n1. rewrite length_app. cbn [length]. lia. }
    assert (Hdrop :
      drop (length (drop n1 (arr ++ [msg]) ++ rest) - Z.to_nat memory)
           (drop n1 (arr ++ [msg]) ++ rest)
      = drop (length (arr ++ msg :: rest) - Z.to_nat memory) (arr ++ msg :: rest)).
    { replace (arr ++ msg :: rest) with ((arr ++ [msg]) ++ rest)
        by (rewrite <- app_assoc; reflexivity).
      rewrite <- (drop_app_le (arr ++ [msg]) rest n1) by exact Hn1.
      rewrite drop_drop. f_equal.
      rewrite length_drop, !length_app. rewrite length_app in Hn1.
      subst n1. rewrite length_app. cbn [length] in *. lia. }
    rewrite Heq, <- Hdrop. split; [reflexivity|exact Hle].
Qed.

Lemma message_array_capacity_witness :
  message_array_extend 2 [] [Sample.r1; Sample.r2; Sample.r3]
  = Ok [Sample.r2; Sample.r3]
  /\ Z.of_nat (length [Sample.r2; Sample.r3]) <= 2.
Proof.
  apply (message_array_capacity 2 [] [Sample.r1; Sample.r2; Sample.r3]);
    [lia | cbn; lia].
Defined.

(** [on_message] keeps the buffer within the memory size. *)
Lemma on_message_within_memory (self : GPTBot) (m : Discord.Message) :
  1 <= MESSAGE_MEMORY self ->
  Z.of_nat (length (message_array self)) <= MESSAGE_MEMORY self ->
  Z.of_nat (length (message_array (fst (on_message self m))))
  <= MESSAGE_MEMORY (fst (on_message self m)).
Proof.
  intros Hmem Hlen. unfold on_message, on_message_try.
  destruct (on_message_accepts self m); [|exact Hlen].
  destruct (Message_init _ _ _ _) as [msg|e]; cbn [bind fst]; [|exact Hlen].
  rewrite message_array_append_drop by assumption. cbn.
  rewrite length_drop, length_app. cbn. lia.
Qed.

(** ** Mentions *)

Lemma prefix_split (p s : string) :
  String.prefix p s = true -> exists b, s = p +:+ b.
Proof.
  revert s. induction p as [|c p IH]; intros s H.
  - exists s. reflexivity.
  - destruct s as [|d s]; cbn in H; [discriminate|].
    destruct (Ascii.ascii_dec c d) as [->|]; [|discriminate].
    destruct (IH s H) as [b ->]. exists b. reflexivity.
Qed.

Lemma prefix_append (p b : string) : String.prefix p (p +:+ b) = true.
Proof.
  induction p as [|c p IH]; simpl; [destruct b; reflexivity|].
  destruct (Ascii.ascii_dec c c); [exact IH|congruence].
Qed.

Lemma contains_prefix (p s : string) :
  String.prefix p s = true -> contains p s = true.
Proof. intros H. destruct s; cbn [contains]; rewrite H; reflexivity. Qed.

(** [contains p s] holds exactly when [p] occurs in [s]. *)
Lemma contains_occurs (p s : string) :
  contains p s = true <-> exists a b, s = a +:+ p +:+ b.
Proof.
  split.
  - induction s as [|c s IH]; cbn [contains]; intros H.
    + rewrite orb_false_r in H. destruct (prefix_split _ _ H) as [b Hb].
      exists EmptyString, b. exact Hb.
    + apply orb_true_iff in H as [H|H].
      * destruct (prefix_split _ _ H) as [b Hb]. exists EmptyString, b. exact Hb.
      * destruct (IH H) as (a & b & ->). exists (String c a), b. reflexivity.
  - intros (a & b & ->). induction a as [|c a IH].
    + change (contains p (p +:+ b) = true).
      apply contains_prefix, prefix_append.
    + change (contains p (String c (a +:+ p +:+ b)) = true).
      cbn [contains]. rewrite IH. apply orb_true_r.
Qed.

(** C10, as the code has it: an accepted message is stored as the
    newest record; its weight is the base weight of the construction,
    times 1.4 exactly when the attribute [bot_mention_pattern] is set
    and occurs in the text. *)
Theorem on_message_mention_weight (self : GPTBot) (m : Discord.Message)
    (msg : Message) :
  on_message_accepts self m = true ->
  1 <= MESSAGE_MEMORY self ->
  Message_init (Discord.author m) (Discord.content m) (VInt (Discord.mid m))
               (reference_resolved m) = Ok msg ->
  weight msg = calculate_base_weight (Discord.author m) (replying_to msg)
  /\ exists kept,
       message_array (fst (on_message self m))
       = kept ++ [if mentions_bot self (Discord.content m)
                  then scale_weight 1.4 msg else msg]
       /\ (kept = message_array self \/ kept = tail (message_array self)).
Proof.
  intros Hacc Hmem Hinit. split.
  - unfold Message_init in Hinit.
    destruct (init_replying_to _) as [rt|]; cbn [bind] in Hinit; [|discriminate].
    destruct (init_replying_to_replying_to _); cbn [bind] in Hinit; [|discriminate].
    injection Hinit as <-. reflexivity.
  - unfold on_message, on_message_try. rewrite Hacc, Hinit. cbn [bind].
    unfold message_array_append.
    destruct (Z.geb_spec (Z.of_nat (length (message_array self)))
                         (MESSAGE_MEMORY self)) as [Hge|Hlt].
    + destruct (message_array self) as [|x arr] eqn:E; cbn [length] in Hge; [lia|].
      cbn. exists arr. split; [reflexivity|right; reflexivity].
    + cbn. exists (message_array self). split; [reflexivity|left; reflexivity].
Qed.

Lemma on_message_mention_weight_witness :
  weight {| author := Sample.bob; author_id := 12;
            message := "hi <@99>, are you there?"; message_id := VInt 1001;
            replying_to := None; replying_to_replying_to := None;
            weight := 1.0%float |}
  = calculate_base_weight Sample.bob None
  /\ exists kept,
       message_array (fst (on_message Sample.ready
                             (Sample.incoming "hi <@99>, are you there?")))
       = kept ++ [{| author := Sample.bob; author_id := 12;
                     message := "hi <@99>, are you there?"; message_id := VInt 1001;
                     replying_to := None; replying_to_replying_to := None;
                     weight := 1.4%float |}]
       /\ (kept = [] \/ kept = tail []).
Proof.
  apply (on_message_mention_weight Sample.ready
           (Sample.incoming "hi <@99>, are you there?"));
    [reflexivity | cbn; lia | reflexivity].
Defined.

(** C10, as stated, fails: until [on_ready] has stored the mention
    pattern the attribute is [None]; a message that mentions the bot is
    accepted and stored with the base weight 1.0, not 1.4. *)
Lemma mention_before_ready_not_boosted :
  bot_mention_pattern Sample.fresh = None
  /\ contains "<@99>" "hi <@99>, are you there?" = true
  /\ on_message_accepts Sample.fresh (Sample.incoming "hi <@99>, are you there?")
     = true
  /\ weight <$> message_array
                  (fst (on_message Sample.fresh
                          (Sample.incoming "hi <@99>, are you there?")))
     = [1.0%float]
  /\ (1.0 * 1.4 =? 1.0)%float = false.
Proof. repeat split. Qed.

(** ** The context handed to the completion service *)

Lemma weight_multiplier_spec (self : GPTBot) (msg : Message) (rest : list Message)
    (idx : Z) :
  weight_multiplier self (idx + Z.of_nat (length (msg :: rest))) idx msg
  = effective_multiplier self (length (msg :: rest)) 0 msg.
Proof.
  unfold weight_multiplier, effective_multiplier.
  destruct (Discord.user_eq _ _); [reflexivity|].
  cbn [length]. replace (S (length rest) - 1 - 0)%nat with (length rest) by lia.
  destruct rest as [|a [|b [|c [|d rest]]]]; cbn [length recency_multiplier];
    repeat match goal with
           | |- context [?x =? ?y] => destruct (Z.eqb_spec x y); try lia
           end; reflexivity.
Qed.

Lemma prepare_loop_imap (self : GPTBot) (rest : list Message) (idx : Z) :
  prepare_loop self (idx + Z.of_nat (length rest)) idx rest
  = imap (fun j msg =>
            scale_dict_weight (effective_multiplier self (length rest) j msg)
                              (to_dict msg)) rest.
Proof.
  revert idx. induction rest as [|msg rest IH]; intros idx; [reflexivity|].
  cbn [prepare_loop imap]. rewrite weight_multiplier_spec. f_equal.
  replace (idx + Z.of_nat (length (msg :: rest)))
    with ((idx + 1) + Z.of_nat (length rest)) by (cbn [length]; lia).
  rewrite IH. apply imap_ext. intros j x _. cbn [compose].
  unfold effective_multiplier. cbn [length].
  replace (S (length rest) - 1 - S j)%nat with (length rest - 1 - j)%nat by lia.
  reflexivity.
Qed.

Lemma prepare_messages_for_ai_imap (self : GPTBot) :
  prepare_messages_for_ai self
  = imap (fun j msg =>
            scale_dict_weight
              (effective_multiplier self (length (message_array self)) j msg)
              (to_dict msg))
         (message_array self).
Proof.
  unfold prepare_messages_for_ai.
  exact (prepare_loop_imap self (message_array self) 0).
Qed.

(** C6: the context has one dictionary for each record, in the order
    of the buffer. The dictionary of the record at position [j] carries
    the fields of the record, and as its weight the stored weight
    multiplied by 0.8, 0.7, 0.6, 0.5 for the newest four records and by
    0.4 for older ones, or by 0.0 for a record of the bot itself,
    wherever it stands. The multiplication is done on the dictionary,
    a copy: the records of the bot keep their stored weights. *)
Theorem prepare_messages_for_ai_weights (self : GPTBot) (j : nat)
    (msg : Message) :
  message_array self !! j = Some msg ->
  let from_newest := (length (message_array self) - 1 - j)%nat in
  let multiplier :=
    if Discord.user_eq (author msg) (user self) then 0.0%float
    else match from_newest with
         | 0%nat => 0.8%float
         | 1%nat => 0.7%float
         | 2%nat => 0.6%float
         | 3%nat => 0.5%float
         | _ => 0.4%float
         end in
  length (prepare_messages_for_ai self) = length (message_array self)
  /\ prepare_messages_for_ai self !! j
     = Some {| d_author := Discord.display (author msg);
               d_author_id := str_int (author_id msg);
               d_message := message msg;
               d_message_id := message_id msg;
               d_replying_to :=
                 option_map (fun u => str_int (Discord.id u)) (replying_to msg);
               d_replying_to_replying_to := replying_to_replying_to msg;
               d_weight := (weight msg * multiplier)%float |}.
Proof.
  intros Hmsg from_newest multiplier.
  rewrite prepare_messages_for_ai_imap. split.
  - apply length_imap.
  - rewrite list_lookup_imap, Hmsg. reflexivity.
Qed.

Lemma prepare_messages_for_ai_weights_witness :
  length (prepare_messages_for_ai Sample.bot6) = 6%nat
  /\ prepare_messages_for_ai Sample.bot6 !! 4%nat
     = Some {| d_author := "alice"; d_author_id := "11";
               d_message := "are you there"; d_message_id := VStr "5";
               d_replying_to := None; d_replying_to_replying_to := None;
               d_weight := (0.5 * 0.7)%float |}.
Proof.
  exact (prepare_messages_for_ai_weights Sample.bot6 4
           (scale_weight 0.5 (Sample.record "5" "are you there")) eq_refl).
Defined.

(** Six records, the third written by the bot, with stored weights 1.0,
    0.5, 1.0, 1.0, 0.5 and 1.0: the effective weights of the context
    are 0.4, 0.2, 0.0, 0.6, 0.35 and 0.8, and the stored weights are
    what they were. *)
Lemma recency_weighting_of_six :
  d_weight <$> prepare_messages_for_ai Sample.bot6
  = [0.4; 0.2; 0.0; 0.6; 0.35; 0.8]%float
  /\ d_message_id <$> prepare_messages_for_ai Sample.bot6
     = [VStr "1"; VStr "2"; VStr "3"; VStr "4"; VStr "5"; VStr "6"]
  /\ weight <$> message_array Sample.bot6 = [1.0; 0.5; 1.0; 1.0; 0.5; 1.0]%float.
Proof. repeat split. Qed.

(** ** The selector *)

Ltac run_unfold :=
  unfold try_except, select, decay_picked, channel_send, mbind, M_bind,
         mret, M_ret, get, put, emit, lift, raise, unanswered in *.

(** The selector returns a pair whatever happens: no exception leaves
    [get_ai_response]. *)
Lemma get_ai_response_never_raises (depth : nat)
    (completions : list Completion) :
  never_raises (get_ai_response depth completions).
Proof.
  destruct completions as [|c rest]; [intros s r s' t [=]|].
  cbn [get_ai_response]. apply try_except_never_raises.
  intros e s r s' t H. run_unfold. injection H as <- _ _. eauto.
Qed.

(** Scaling a weight changes neither the ids nor the texts. *)
Lemma find_picked_alter (k : float) (arr : list Message) (p : Val)
    (i : nat) (picked : Message) :
  find_picked arr p = Some (i, picked) ->
  find_picked (alter (scale_weight k) i arr) p = Some (i, scale_weight k picked).
Proof.
  unfold find_picked. intros H.
  apply list_find_Some in H as (Hi & Hp & Hbefore).
  apply list_find_Some. split; [|split].
  - rewrite list_lookup_alter_eq, Hi. reflexivity.
  - exact Hp.
  - intros j y Hj Hlt. rewrite list_lookup_alter_ne in Hj by lia.
    exact (Hbefore j y Hj Hlt).
Qed.

Lemma is_echo_alter (k : float) (g : string) (picked : Message)
    (arr : list Message) (i : nat) :
  is_echo g picked (alter (scale_weight k) i arr) = is_echo g picked arr.
Proof.
  unfold is_echo. f_equal. revert i.
  induction arr as [|x arr IH]; intros [|i]; cbn; try reflexivity.
  rewrite IH. reflexivity.
Qed.






(** Scenario B: the service answers "hello" to the message 2, which
    reads "hello"; it is asked again and answers "hello there". The
    selector returns the second answer, after two requests, and the
    picked weight has been halved twice. *)
Lemma scenario_B_regenerates :
  exists self' t,
    get_ai_response 980 [Sample.hello "2"; Sample.hello_there "2"]
                    Sample.bot_echo
    = Some (Ok {| response := VStr "hello there";
                  picked_message := VStr "2" |}, self', t)
    /\ length (filter (fun ev => is_completion_request ev = true) t) = 2%nat
    /\ weight <$> message_array self' = [1.0; 0.25; 1.0]%float.
Proof.
  eexists _, _. split; [vm_compute; reflexivity|]. split; reflexivity.
Qed.

(** An echo at the recursion limit: the selector gives up with the
    failure pair, which the scheduler does not send. *)
Lemma echo_at_the_limit :
  get_ai_response 0 [Sample.hello "2"; Sample.hello_there "2"] Sample.bot_echo
  = Some (Ok {| response := VStr "";
                picked_message := VStr (api_error RECURSION_ERROR) |},
          set_message_array Sample.bot_echo
            (alter (scale_weight 0.5) 1%nat (message_array Sample.bot_echo)),
          [CompletionRequest (prepare_messages_for_ai Sample.bot_echo);
           LogWarning "Generated response is the same as the picked message or already exists in message history. Regenerating response.";
           LogError (api_error RECURSION_ERROR)]).
Proof. reflexivity. Qed.

(** A service that keeps echoing: with room for three nested calls the
    selector asks four times, halves the picked weight four times and
    then returns the failure pair; the fifth answer is never asked
    for. *)
Lemma echo_chain_ends_at_the_limit :
  let echo := Sample.hello "2" in
  exists self' t,
    get_ai_response 3 [echo; echo; echo; echo; echo] Sample.bot_echo
    = Some (Ok {| response := VStr "";
                  picked_message := VStr (api_error RECURSION_ERROR) |},
            self', t)
    /\ length (filter (fun ev => is_completion_request ev = true) t) = 4%nat
    /\ weight <$> message_array self' = [1.0; 0.0625; 1.0]%float.
Proof.
  eexists _, _. split; [vm_compute; reflexivity|]. split; reflexivity.
Qed.

(** The text logged when the picked id matches no record. *)
Lemma unmatched_pick_logged (p : Val) (arr : list Message) :
  Forall (fun msg => str (message_id msg) <> str p) arr ->
  find_picked arr p = None.
Proof. intros H. apply list_find_None. exact H. Qed.

(** C1, as the code has it: when the picked id matches no record, the
    selector logs the anomaly, leaves the buffer alone and returns the
    response together with the picked id as the service gave it; the
    scheduler then finds no record for that id either and sends the
    response with no reference. *)
Theorem unmatched_pick_is_returned (r : option Val) (p : Val)
    (rest : list Completion) (depth : nat) (self : GPTBot) (env : Cycle)
    (text : string) :
  truthy p = true ->
  Forall (fun msg => str (message_id msg) <> str p) (message_array self) ->
  let anomaly := LogWarning ("Picked message ID " +:+ str p
                             +:+ " not found in message array.") in
  get_ai_response depth (Parsed (JsonObject r (Some p)) :: rest) self
  = Some (Ok {| response := default (VStr "") r; picked_message := p |},
          self,
          [CompletionRequest (prepare_messages_for_ai self); anomaly])
  /\ emission env (VStr text) p self
     = after [anomaly; ChannelSend text None]
         (match send_raises env with
          | Some e => raise e self
          | None => debug_echo env self
          end).
Proof.
  intros Htruthy Hnone anomaly. apply unmatched_pick_logged in Hnone.
  split.
  - cbn [get_ai_response]. run_unfold. cbn. rewrite Htruthy, Hnone.
    reflexivity.
  - unfold emission. run_unfold. cbn. rewrite Htruthy, Hnone.
    destruct (send_raises env) as [e|]; [reflexivity|].
    unfold debug_echo. run_unfold.
    destruct (DEBUG self); [|reflexivity].
    destruct (debug_send_raises env); reflexivity.
Qed.

Lemma unmatched_pick_is_returned_witness :
  get_ai_response 980 [Sample.hello "99"] Sample.bot3
  = Some (Ok {| response := VStr "hello"; picked_message := VStr "99" |},
          Sample.bot3,
          [CompletionRequest (prepare_messages_for_ai Sample.bot3);
           LogWarning "Picked message ID 99 not found in message array."])
  /\ emission (Sample.turn "99" None) (VStr "hello") (VStr "99") Sample.bot3
     = after [LogWarning "Picked message ID 99 not found in message array.";
              ChannelSend "hello" None]
         (debug_echo (Sample.turn "99" None) Sample.bot3).
Proof.
  apply (unmatched_pick_is_returned (Some (VStr "hello")) (VStr "99") [] 980
           Sample.bot3 (Sample.turn "99" None) "hello");
    [reflexivity | repeat constructor; discriminate].
Defined.

(** C1, as stated, fails: on the three-record buffer the service picks
    the id 99, which matches no record, and the returned pair still
    carries that id as its target. *)
Lemma unmatched_pick_keeps_id :
  find_picked (message_array Sample.bot3) (VStr "99") = None
  /\ exists result t,
       get_ai_response 980 [Sample.hello "99"] Sample.bot3
       = Some (Ok result, Sample.bot3, t)
       /\ picked_message result = VStr "99"
       /\ picked_message result <> VNone.
Proof.
  split; [reflexivity|]. eexists _, _. split; [reflexivity|].
  split; [reflexivity|discriminate].
Qed.

Ltac respects_step :=
  first [ apply respects_ret | apply respects_raise | apply respects_lift
        | apply respects_get | apply respects_unanswered
        | apply respects_emit | apply respects_put
        | apply respects_bind | apply respects_try_except ];
  try solve [ trivial | reflexivity ].

(** The selector only asks the completion service and writes to the
    log: it neither sends to the channel nor waits. *)
Lemma get_ai_response_events (depth : nat) (completions : list Completion) :
  respects (fun _ _ => True) (fun ev => is_selector_event ev = true)
           (get_ai_response depth completions).
Proof.
  revert depth.
  induction completions as [|c rest IH]; intros depth; cbn [get_ai_response];
    [respects_step|].
  respects_step; [|intros e; repeat (respects_step; intros)].
  repeat (respects_step; intros).
  destruct c as [e|[r p|v]]; cbn [select]; repeat (respects_step; intros).
  destruct (truthy _); repeat (respects_step; intros).
  destruct (find_picked _ _) as [[i picked]|]; repeat (respects_step; intros).
  destruct (is_echo _ _ _); repeat (respects_step; intros).
  destruct depth; [respects_step|apply IH].
Qed.

(** ** The delay step *)

(** The countdown loop ends, by its own test or by a presence update
    that raises, within as many turns as there are seconds to wait. *)
Lemma countdown_loop_run (presence : Z -> option string) (fuel : nat)
    (self : GPTBot) :
  time_remaining self <= Z.of_nat fuel ->
  exists r self' t,
    countdown_loop presence fuel self = Some (r, self', t)
    /\ same_records self self'
    /\ Forall (fun ev => is_delay_event ev = true) t.
Proof.
  revert self. induction fuel as [|fuel IH]; intros self Hfuel.
  - cbn [countdown_loop]. run_unfold.
    destruct (Z.ltb_spec 0 (time_remaining self)); [lia|].
    exists (Ok tt), self, []. repeat split; constructor.
  - cbn [countdown_loop]. unfold update_status. run_unfold.
    destruct (Z.ltb_spec 0 (time_remaining self)) as [Hpos|Hle];
      [|exists (Ok tt), self, []; repeat split; constructor].
    destruct (presence (time_remaining self)) as [e|];
      [eexists _, _, _; split; [reflexivity|]; split; [reflexivity|];
       repeat constructor|].
    destruct (IH (set_time_remaining self (Z.max 0 (time_remaining self - 3))))
      as (r & self' & t & Hrun & Hsame & Hev); [cbn; lia|].
    cbn. rewrite Hrun. destruct r as [[]|e];
      (eexists _, self', _; split; [reflexivity|];
       split; [exact Hsame|];
       repeat (constructor; [reflexivity|]); exact Hev).
Qed.

Lemma update_status_run (raises : option string) (self : GPTBot) :
  update_status raises self
  = Some (match raises with Some e => Raise e | None => Ok tt end, self,
          [ChangePresence (status_text (model_name self) (time_remaining self))]).
Proof. unfold update_status. run_unfold. destruct raises; reflexivity. Qed.

Lemma countdown_status_delay_events (presence : Z -> option string) (d : Z)
    (self : GPTBot) :
  exists r self' t,
    countdown_status presence d self = Some (r, self', t)
    /\ same_records self self'
    /\ Forall (fun ev => is_delay_event ev = true) t.
Proof.
  destruct (countdown_loop_run presence (Z.to_nat d) (set_time_remaining self d))
    as (r & self' & t & Hrun & Hsame & Hev); [cbn; lia|].
  unfold countdown_status.
  rewrite (run_bind_ok get _ self self self [] eq_refl), after_nil.
  rewrite (run_bind_ok (put _) _ self tt _ [] eq_refl), after_nil.
  destruct r as [[]|e].
  - rewrite (run_bind_ok _ _ _ _ _ _ Hrun).
    rewrite (run_bind_ok get _ self' self' self' [] eq_refl), after_nil.
    rewrite update_status_run. cbn [after].
    eexists _, _, _. split; [reflexivity|]. split; [exact Hsame|].
    apply Forall_app. split; [exact Hev|repeat constructor].
  - rewrite (run_bind_raise _ _ _ _ _ _ Hrun).
    eexists _, _, _. split; [reflexivity|]. split; [exact Hsame|exact Hev].
Qed.

(** The delay step always finishes, touches no record and produces
    only the draw, the presence updates and the sleeps. *)
Lemma delay_step_run (env : Cycle) (self : GPTBot) :
  exists r self' t,
    delay_step env self = Some (r, self', t)
    /\ same_records self self'
    /\ Forall (fun ev => is_delay_event ev = true) t.
Proof.
  unfold delay_step.
  rewrite (run_bind_ok get _ self self self [] eq_refl), after_nil.
  set (night := NIGHT_MODE_ENABLED self && is_night_time (tm_hour env)).
  assert (Hdraw : forall a b,
    exists r self' t,
      (randint (random_pick env) a b
       ≫= fun delay => countdown_status (presence_raises env) delay) self
      = Some (r, self', t)
      /\ same_records self self'
      /\ Forall (fun ev => is_delay_event ev = true) t).
  { intros a b. unfold randint.
    destruct (a <=? b).
    - set (d := a + random_pick env mod (b - a + 1)).
      destruct (countdown_status_delay_events (presence_raises env) d self)
        as (r & self' & t & Hrun & Hsame & Hev).
      rewrite (run_bind_ok _ _ self d self [RandInt a b d] eq_refl), Hrun.
      eexists _, _, _. split; [reflexivity|]. split; [exact Hsame|].
      constructor; [reflexivity|exact Hev].
    - eexists _, _, _. split; [reflexivity|]. split; [reflexivity|constructor]. }
  destruct night; apply Hdraw.
Qed.

Lemma delay_events_send_nothing (t : list Event) :
  Forall (fun ev => is_delay_event ev = true) t ->
  Forall (fun ev => is_send_event ev = false) t.
Proof.
  intros Ht. eapply Forall_impl; [exact Ht|].
  intros ev H. destruct ev; cbn in *; congruence.
Qed.

Lemma selector_events_send_nothing (t : list Event) :
  Forall (fun ev => is_selector_event ev = true) t ->
  Forall (fun ev => is_send_event ev = false) t.
Proof.
  intros Ht. eapply Forall_impl; [exact Ht|].
  intros ev H. destruct ev; cbn in *; congruence.
Qed.

Lemma selector_events_delay_nothing (t : list Event) :
  Forall (fun ev => is_selector_event ev = true) t ->
  Forall (fun ev => is_delay_event ev = false) t.
Proof.
  intros Ht. eapply Forall_impl; [exact Ht|].
  intros ev H. destruct ev; cbn in *; congruence.
Qed.

(** ** Failure of the completion call *)

(** A response that is no text, with a pick that is found: the call
    of [strip] raises after the weight has been halved, and the
    selector returns the failure pair all the same. *)
Lemma non_text_response_is_failure (v p : Val) (i : nat) (picked : Message)
    (rest : list Completion) (depth : nat) (self : GPTBot) :
  (forall text, v <> VStr text) ->
  truthy p = true ->
  find_picked (message_array self) p = Some (i, picked) ->
  let e := api_error (no_attribute (type_name v) "strip") in
  get_ai_response depth (Parsed (JsonObject (Some v) (Some p)) :: rest) self
  = Some (Ok {| response := VStr ""; picked_message := VStr e |},
          set_message_array self
            (alter (scale_weight 0.5) i (message_array self)),
          [CompletionRequest (prepare_messages_for_ai self); LogError e]).
Proof.
  intros Hv Htruthy Hfind e. subst e.
  cbn [get_ai_response]. run_unfold. cbn. rewrite Htruthy, Hfind.
  destruct v; try reflexivity. destruct (Hv s eq_refl).
Qed.

(** C9: when the completion call (or the decoding of its payload)
    raises, the selector raises nothing: it logs the error and returns
    the empty response paired with the error text, the buffer
    untouched; the scheduler's turn then goes straight to the delay
    step, and nothing is sent to the channel in that turn. *)
Theorem completion_failure_is_silence (c : Completion) (e : string)
    (rest : list Completion) (depth : nat) (self : GPTBot)
    (send debug_send : option string) (hour pick : Z)
    (presence : Z -> option string) :
  completion_raises c = Some e ->
  let env := {| completions := c :: rest; stack := depth;
                send_raises := send; debug_send_raises := debug_send;
                tm_hour := hour; random_pick := pick;
                presence_raises := presence |} in
  let t := [CompletionRequest (prepare_messages_for_ai self);
            LogError (api_error e)] in
  get_ai_response depth (c :: rest) self
  = Some (Ok {| response := VStr ""; picked_message := VStr (api_error e) |},
          self, t)
  /\ never_raises (get_ai_response depth (c :: rest))
  /\ send_responses_try env self = after t (delay_step env self)
  /\ forall r self' t',
       send_responses_turn env self = Some (r, self', t') ->
       r = Ok tt /\ Forall (fun ev => is_send_event ev = false) t'.
Proof.
  intros Hraises env t.
  assert (Hsel : get_ai_response depth (c :: rest) self
                 = Some (Ok {| response := VStr "";
                               picked_message := VStr (api_error e) |}, self, t)).
  { destruct c as [e0|[r p|v]]; cbn in Hraises; try discriminate;
      injection Hraises as <-; reflexivity. }
  assert (Htry : send_responses_try env self = after t (delay_step env self)).
  { unfold send_responses_try.
    change (completions env) with (c :: rest).
    change (stack env) with depth.
    rewrite (run_bind_ok _ _ _ _ _ _ Hsel). f_equal.
    run_unfold. cbn.
    destruct (delay_step env self) as [[[r s] t']|]; reflexivity. }
  split; [exact Hsel|].
  split; [apply get_ai_response_never_raises|]. split; [exact Htry|].
  intros r self' t' Hturn. unfold send_responses_turn in Hturn.
  destruct (delay_step_run env self) as (rd & sd & td & Hd & _ & Hev).
  apply delay_events_send_nothing in Hev.
  apply run_try_inv in Hturn
    as [(a & H & ->)|(e' & s1 & t1 & t2 & H & Hh & ->)];
    rewrite Htry, Hd in H; injection H as Hr Hs Ht; subst.
  - destruct a. split; [reflexivity|].
    repeat (constructor; [reflexivity|]). exact Hev.
  - run_unfold. injection Hh as Hr' Hs' Ht'. subst. split; [reflexivity|].
    apply Forall_app. split; [|repeat constructor].
    repeat (constructor; [reflexivity|]). exact Hev.
Qed.

Lemma completion_failure_is_silence_witness :
  get_ai_response 980 [Failed "Connection error."] Sample.bot3
  = Some (Ok {| response := VStr "";
                picked_message := VStr "OpenAI API Error: Connection error." |},
          Sample.bot3,
          [CompletionRequest (prepare_messages_for_ai Sample.bot3);
           LogError "OpenAI API Error: Connection error."])
  /\ never_raises (get_ai_response 980 [Failed "Connection error."])
  /\ send_responses_try Sample.failing_turn Sample.bot3
     = after [CompletionRequest (prepare_messages_for_ai Sample.bot3);
              LogError "OpenAI API Error: Connection error."]
         (delay_step Sample.failing_turn Sample.bot3)
  /\ forall r self' t',
       send_responses_turn Sample.failing_turn Sample.bot3
       = Some (r, self', t') ->
       r = Ok tt /\ Forall (fun ev => is_send_event ev = false) t'.
Proof.
  apply (completion_failure_is_silence (Failed "Connection error.")
           "Connection error." [] 980 Sample.bot3 None None 12 7
           (fun _ => None)).
  reflexivity.
Defined.

(** ** The two decays *)

Lemma message_array_set (self : GPTBot) (arr : list Message) :
  message_array (set_message_array self arr) = arr.
Proof. reflexivity. Qed.

(** C5: a pick that is found halves the weight of that record in the
    selector, whether the result is returned or regenerated; the
    emission multiplies the same record's weight by 0.3 before it
    sends; every other record is left as it was; from 1.0 the weight
    goes to 0.5 and then to 0.15. *)
Theorem pick_and_send_decay (g : string) (p : Val) (i : nat) (picked : Message)
    (rest : list Completion) (depth : nat) (self : GPTBot) (env : Cycle) :
  truthy p = true ->
  find_picked (message_array self) p = Some (i, picked) ->
  let selected :=
    set_message_array self (alter (scale_weight 0.5) i (message_array self)) in
  let sent :=
    set_message_array selected
      (alter (scale_weight 0.3) i (message_array selected)) in
  get_ai_response depth
    (Parsed (JsonObject (Some (VStr g)) (Some p)) :: rest) self
  = (if is_echo (strip g) picked (message_array self)
     then after [CompletionRequest (prepare_messages_for_ai self);
                 LogWarning "Generated response is the same as the picked message or already exists in message history. Regenerating response."]
            (match depth with
             | O =>
                 Some (Ok {| response := VStr "";
                             picked_message := VStr (api_error RECURSION_ERROR) |},
                       selected, [LogError (api_error RECURSION_ERROR)])
             | S depth' => get_ai_response depth' rest selected
             end)
     else Some (Ok {| response := VStr g; picked_message := p |}, selected,
                [CompletionRequest (prepare_messages_for_ai self)]))
  /\ emission env (VStr g) p selected
     = after [ChannelSend g (Some p)]
         (match send_raises env with
          | Some e => raise e sent
          | None => debug_echo env sent
          end)
  /\ message_array selected !! i = Some (scale_weight 0.5 picked)
  /\ message_array sent !! i = Some (scale_weight 0.3 (scale_weight 0.5 picked))
  /\ (forall j, j <> i ->
        message_array selected !! j = message_array self !! j
        /\ message_array sent !! j = message_array self !! j)
  /\ (weight picked = 1.0%float ->
        weight (scale_weight 0.5 picked) = 0.5%float
        /\ weight (scale_weight 0.3 (scale_weight 0.5 picked)) = 0.15%float).
Proof.
  intros Htruthy Hfind selected sent.
  pose proof Hfind as Hlookup.
  apply list_find_Some in Hlookup as (Hlookup & _).
  split; [|split; [|split; [|split; [|split]]]].
  - subst selected. cbn [get_ai_response]. run_unfold. cbn.
    rewrite Htruthy, Hfind. cbn. rewrite is_echo_alter.
    destruct (is_echo _ _ _); [|reflexivity].
    destruct depth as [|depth]; [reflexivity|].
    pose proof (get_ai_response_never_raises depth rest) as Hnr.
    destruct (get_ai_response depth rest _) as [[[r s] t]|] eqn:Hretry;
      [|reflexivity].
    destruct (Hnr _ _ _ _ Hretry) as [a ->]. reflexivity.
  - subst selected sent. unfold emission. run_unfold. cbn. rewrite Htruthy.
    rewrite message_array_set, (find_picked_alter 0.5 _ _ _ _ Hfind). cbn.
    destruct (send_raises env) as [e|]; [reflexivity|].
    destruct (debug_echo env _) as [[[r s] t]|]; reflexivity.
  - cbn. rewrite list_lookup_alter_eq, Hlookup. reflexivity.
  - cbn. rewrite !list_lookup_alter_eq, Hlookup. reflexivity.
  - intros j Hj. cbn. rewrite !list_lookup_alter_ne by congruence. auto.
  - intros Hone. cbn. rewrite Hone. split; reflexivity.
Qed.

Lemma pick_and_send_decay_witness :
  let selected :=
    set_message_array Sample.bot3
      (alter (scale_weight 0.5) 1%nat (message_array Sample.bot3)) in
  let sent :=
    set_message_array selected
      (alter (scale_weight 0.3) 1%nat (message_array selected)) in
  get_ai_response 980 [Sample.hello "2"] Sample.bot3
  = Some (Ok {| response := VStr "hello"; picked_message := VStr "2" |},
          selected, [CompletionRequest (prepare_messages_for_ai Sample.bot3)])
  /\ emission (Sample.turn "2" None) (VStr "hello") (VStr "2") selected
     = after [ChannelSend "hello" (Some (VStr "2"))]
         (debug_echo (Sample.turn "2" None) sent)
  /\ message_array selected !! 1%nat
     = Some (scale_weight 0.5 (Sample.record "2" "how are you"))
  /\ message_array sent !! 1%nat
     = Some (scale_weight 0.3 (scale_weight 0.5 (Sample.record "2" "how are you")))
  /\ (forall j, j <> 1%nat ->
        message_array selected !! j = message_array Sample.bot3 !! j
        /\ message_array sent !! j = message_array Sample.bot3 !! j)
  /\ (weight (Sample.record "2" "how are you") = 1.0%float ->
        weight (scale_weight 0.5 (Sample.record "2" "how are you")) = 0.5%float
        /\ weight (scale_weight 0.3
                     (scale_weight 0.5 (Sample.record "2" "how are you")))
           = 0.15%float).
Proof.
  apply (pick_and_send_decay "hello" (VStr "2") 1%nat
           (Sample.record "2" "how are you") [] 980 Sample.bot3
           (Sample.turn "2" None));
    reflexivity.
Defined.

(** Scenario A, end to end: after one turn in which the service
    answers "hello" to message 2, the stored weights are 1.0, 0.15
    and 1.0, and the response went out as a reply to message 2. *)
Lemma scenario_A_weights :
  exists self' t,
    send_responses_turn (Sample.turn "2" None) Sample.bot3 = Some (Ok tt, self', t)
    /\ weight <$> message_array self' = [1.0; 0.15; 1.0]%float
    /\ filter (fun ev => is_send_event ev = true) t
       = [ChannelSend "hello" (Some (VStr "2"))].
Proof. eexists _, _. split; [vm_compute; reflexivity|]. split; reflexivity. Qed.

(** ** The scheduler loop *)

Section Finishes.
Context {A B : Type}.

Lemma finishes_ret (a : A) : finishes (mret a).
Proof. intros s. eexists _, _, _. reflexivity. Qed.

Lemma finishes_raise (e : string) : finishes (raise (A := A) e).
Proof. intros s. eexists _, _, _. reflexivity. Qed.

Lemma finishes_lift (x : Exc A) : finishes (lift x).
Proof. intros s. eexists _, _, _. reflexivity. Qed.

Lemma finishes_bind (m : M A) (k : A -> M B) :
  finishes m -> (forall a, finishes (k a)) -> finishes (m ≫= k).
Proof.
  intros Hm Hk s. destruct (Hm s) as ([a|e] & s1 & t1 & H1).
  - destruct (Hk a s1) as (r & s2 & t2 & H2).
    exists r, s2, (t1 ++ t2). rewrite (run_bind_ok _ _ _ _ _ _ H1), H2.
    reflexivity.
  - exists (Raise e), s1, t1. apply run_bind_raise. exact H1.
Qed.

Lemma finishes_try_except (m : M A) (h : string -> M A) :
  finishes m -> (forall e, finishes (h e)) -> finishes (try_except m h).
Proof.
  intros Hm Hh s. destruct (Hm s) as ([a|e] & s1 & t1 & H1).
  - exists (Ok a), s1, t1. apply run_try_ok. exact H1.
  - destruct (Hh e s1) as (r & s2 & t2 & H2).
    exists r, s2, (t1 ++ t2). rewrite (run_try_raise _ _ _ _ _ _ H1), H2.
    reflexivity.
Qed.

End Finishes.

Lemma finishes_get : finishes get.
Proof. intros s. eexists _, _, _. reflexivity. Qed.

Lemma finishes_put (self' : GPTBot) : finishes (put self').
Proof. intros s. eexists _, _, _. reflexivity. Qed.

Lemma finishes_emit (ev : Event) : finishes (emit ev).
Proof. intros s. eexists _, _, _. reflexivity. Qed.

Ltac finishes_step :=
  first [ apply finishes_ret | apply finishes_raise | apply finishes_lift
        | apply finishes_get | apply finishes_put | apply finishes_emit
        | apply finishes_bind | apply finishes_try_except ].

Lemma debug_echo_finishes (env : Cycle) : finishes (debug_echo env).
Proof.
  unfold debug_echo. finishes_step; [finishes_step|]. intros self.
  destruct (DEBUG self); [|finishes_step].
  finishes_step; [finishes_step|]. intros _.
  destruct (debug_send_raises env); finishes_step.
Qed.

Lemma channel_send_finishes (raises : option string) (text : string)
    (reference : option Val) :
  finishes (channel_send raises text reference).
Proof.
  unfold channel_send. finishes_step; [finishes_step|]. intros _.
  destruct raises; finishes_step.
Qed.

Lemma emission_finishes (env : Cycle) (ai_response picked_message_id : Val) :
  finishes (emission env ai_response picked_message_id).
Proof.
  unfold emission.
  finishes_step; [|intros _; apply debug_echo_finishes].
  destruct (truthy picked_message_id).
  - finishes_step; [finishes_step|]. intros self.
    destruct (find_picked _ _) as [[i picked]|].
    + finishes_step; [|intros _; apply channel_send_finishes].
      unfold decay_picked. repeat (finishes_step; intros).
    + finishes_step; [finishes_step|intros _; apply channel_send_finishes].
  - finishes_step; [finishes_step|intros _; apply channel_send_finishes].
Qed.

Lemma delay_step_finishes (env : Cycle) : finishes (delay_step env).
Proof.
  intros self. destruct (delay_step_run env self) as (r & s & t & H & _).
  eauto.
Qed.

(** One turn of the loop ends normally whenever the selector gets its
    answers: no exception leaves the turn, so the loop goes on to the
    next turn. *)
Lemma send_responses_turn_finishes (env : Cycle) (self self1 : GPTBot)
    (a : AIResponse) (t1 : list Event) :
  get_ai_response (stack env) (completions env) self = Some (Ok a, self1, t1) ->
  exists self2 t2,
    send_responses_turn env self = Some (Ok tt, self2, t1 ++ t2).
Proof.
  intros Hsel.
  assert (Hrest : finishes
    (lift (worth_sending (response a)) ≫= fun go =>
     (if go : bool then emission env (response a) (picked_message a)
      else mret tt) ≫= fun _ => delay_step env)).
  { finishes_step; [finishes_step|]. intros go.
    finishes_step; [|intros _; apply delay_step_finishes].
    destruct go; [apply emission_finishes|finishes_step]. }
  destruct (Hrest self1) as (r & s2 & t2 & H2).
  assert (Htry : send_responses_try env self = Some (r, s2, t1 ++ t2)).
  { unfold send_responses_try. rewrite (run_bind_ok _ _ _ _ _ _ Hsel), H2.
    reflexivity. }
  unfold send_responses_turn. destruct r as [[]|e].
  - exists s2, t2. apply run_try_ok. exact Htry.
  - exists s2, (t2 ++ [LogError ("Error in send_responses: " +:+ e)]).
    rewrite (run_try_raise _ _ _ _ _ _ Htry). cbn.
    rewrite app_assoc. reflexivity.
Qed.

Lemma send_responses_turn_never_raises (env : Cycle) :
  never_raises (send_responses_turn env).
Proof.
  apply try_except_never_raises. intros e s r s' t [= <- <- <-]. eauto.
Qed.

(** A send that raises leaves the emission at once. *)
Lemma emission_send_raises (env : Cycle) (text : string) (p : Val)
    (self : GPTBot) (e : string) :
  send_raises env = Some e ->
  emission env (VStr text) p self
  = Some (Raise e, decayed_on_send self p,
          send_warnings (message_array self) p
          ++ [ChannelSend text (reply_target (message_array self) p)]).
Proof.
  intros Hsend. unfold emission, decayed_on_send, send_warnings, reply_target.
  run_unfold. cbn. rewrite Hsend.
  destruct (truthy p); [|reflexivity].
  destruct (find_picked _ _) as [[i picked]|]; reflexivity.
Qed.

Lemma send_warnings_are_selector_events (arr : list Message) (p : Val) :
  Forall (fun ev => is_selector_event ev = true) (send_warnings arr p).
Proof.
  unfold send_warnings. destruct (truthy p); [|repeat constructor].
  destruct (find_picked _ _); repeat constructor.
Qed.

Lemma worth_sending_text (v : Val) :
  worth_sending v = Ok true -> exists text, v = VStr text.
Proof.
  destruct v as [|[]|n|s|ty r []]; unfold worth_sending; cbn;
    try discriminate.
  - destruct (n =? 0); discriminate.
  - intros _. exists s. reflexivity.
Qed.

(** C2: what the code does when the send raises. The exception is
    caught by the handler of the whole turn, which logs it and ends the
    turn there: the trace of the turn stops at the failed send and the
    error line, with no draw of a delay, no presence update and no
    sleep, so the next turn, and with it the next call of the
    completion service, follows at once. The bot is then as the
    emission left it before the send: the weight of the record the
    reply targets has been multiplied by 0.3 on top of the selector's
    0.5, although nothing went out. No turn ever lets an exception out,
    so the loop never ends. *)
Theorem send_failure_ends_turn (env : Cycle) (self self1 : GPTBot)
    (a : AIResponse) (t1 : list Event) (e : string) :
  get_ai_response (stack env) (completions env) self = Some (Ok a, self1, t1) ->
  worth_sending (response a) = Ok true ->
  send_raises env = Some e ->
  let self2 := decayed_on_send self1 (picked_message a) in
  let t := t1 ++ send_warnings (message_array self1) (picked_message a)
           ++ [ChannelSend (text_of (response a))
                 (reply_target (message_array self1) (picked_message a));
               LogError ("Error in send_responses: " +:+ e)] in
  send_responses_turn env self = Some (Ok tt, self2, t)
  /\ Forall (fun ev => is_delay_event ev = false) t
  /\ (forall i picked,
        truthy (picked_message a) = true ->
        find_picked (message_array self1) (picked_message a)
        = Some (i, picked) ->
        message_array self2 !! i = Some (scale_weight 0.3 picked)
        /\ forall j, j <> i ->
             message_array self2 !! j = message_array self1 !! j)
  /\ (forall rest,
        send_responses (env :: rest) self
        = after t (send_responses rest self2))
  /\ (forall env' : Cycle, never_raises (send_responses_turn env')).
Proof.
  intros Hsel Hgo Hsend self2 t.
  destruct (worth_sending_text _ Hgo) as [text Htext].
  pose proof (emission_send_raises env text (picked_message a) self1 e Hsend)
    as Hemit.
  assert (Htry : send_responses_try env self
                 = Some (Raise e, self2,
                         t1 ++ send_warnings (message_array self1)
                                 (picked_message a)
                         ++ [ChannelSend text
                               (reply_target (message_array self1)
                                  (picked_message a))])).
  { unfold send_responses_try. rewrite (run_bind_ok _ _ _ _ _ _ Hsel).
    rewrite Hgo, Htext.
    change (lift (Ok true)) with (mret (M := M) true).
    unfold mbind at 1, M_bind at 1. cbn [mret M_ret].
    rewrite (run_bind_raise _ _ _ _ _ _ Hemit). reflexivity. }
  assert (Hturn : send_responses_turn env self = Some (Ok tt, self2, t)).
  { unfold send_responses_turn. rewrite (run_try_raise _ _ _ _ _ _ Htry).
    subst t. rewrite Htext. cbn. rewrite <- !app_assoc. reflexivity. }
  split; [exact Hturn|]. split; [|split; [|split]].
  - subst t. rewrite app_assoc. apply Forall_app. split.
    + apply selector_events_delay_nothing, Forall_app. split.
      * exact (proj2 (get_ai_response_events _ _ _ _ _ _ Hsel)).
      * apply send_warnings_are_selector_events.
    + repeat constructor.
  - intros i picked Htruthy Hfind. subst self2. unfold decayed_on_send.
    rewrite Htruthy, Hfind. cbn.
    apply list_find_Some in Hfind as (Hlookup & _). split.
    + rewrite list_lookup_alter_eq, Hlookup. reflexivity.
    + intros j Hj. rewrite list_lookup_alter_ne by congruence. reflexivity.
  - intros rest. cbn [send_responses].
    exact (run_bind_ok _ _ _ _ _ _ Hturn).
  - exact send_responses_turn_never_raises.
Qed.

Lemma send_failure_ends_turn_witness :
  let self1 := set_message_array Sample.bot3
                 (alter (scale_weight 0.5) 1%nat (message_array Sample.bot3)) in
  let self2 := decayed_on_send self1 (VStr "2") in
  let t := [CompletionRequest (prepare_messages_for_ai Sample.bot3)]
           ++ send_warnings (message_array self1) (VStr "2")
           ++ [ChannelSend "hello" (reply_target (message_array self1) (VStr "2"));
               LogError ("Error in send_responses: " +:+ Sample.unreachable)] in
  send_responses_turn (Sample.turn "2" (Some Sample.unreachable)) Sample.bot3
  = Some (Ok tt, self2, t)
  /\ Forall (fun ev => is_delay_event ev = false) t
  /\ (forall i picked,
        truthy (VStr "2") = true ->
        find_picked (message_array self1) (VStr "2") = Some (i, picked) ->
        message_array self2 !! i = Some (scale_weight 0.3 picked)
        /\ forall j, j <> i ->
             message_array self2 !! j = message_array self1 !! j)
  /\ (forall rest,
        send_responses (Sample.turn "2" (Some Sample.unreachable) :: rest)
                       Sample.bot3
        = after t (send_responses rest self2))
  /\ (forall env' : Cycle, never_raises (send_responses_turn env')).
Proof.
  exact (send_failure_ends_turn (Sample.turn "2" (Some Sample.unreachable))
           Sample.bot3
           (set_message_array Sample.bot3
              (alter (scale_weight 0.5) 1%nat (message_array Sample.bot3)))
           {| response := VStr "hello"; picked_message := VStr "2" |}
           [CompletionRequest (prepare_messages_for_ai Sample.bot3)]
           Sample.unreachable eq_refl eq_refl eq_refl).
Defined.

(** C2 at a concrete input: in this turn the send of "hello" raises;
    the turn ends with the error line, and its trace holds no event of
    the delay step, while the weight of the picked record has already
    gone from 1.0 to 0.15. *)
Lemma send_failure_skips_delay :
  exists self' t,
    send_responses_turn (Sample.turn "2" (Some Sample.unreachable)) Sample.bot3
    = Some (Ok tt, self', t)
    /\ t = [CompletionRequest (prepare_messages_for_ai Sample.bot3);
            ChannelSend "hello" (Some (VStr "2"));
            LogError "Error in send_responses: Cannot connect to host discord.com:443"]
    /\ filter (fun ev => is_delay_event ev = true) t = []
    /\ weight <$> message_array self' = [1.0; 0.15; 1.0]%float.
Proof.
  eexists _, _. split; [vm_compute; reflexivity|].
  split; [reflexivity|]. split; reflexivity.
Qed.

(** Three such turns in a row: the completion service is asked three
    times, nothing is sent, the loop never waits, and the weight of the
    picked record has gone through both decays three times. *)
Lemma send_failure_spins :
  let env := Sample.turn "2" (Some Sample.unreachable) in
  exists self' t,
    send_responses [env; env; env] Sample.bot3 = Some (Ok tt, self', t)
    /\ length (filter (fun ev => is_completion_request ev = true) t) = 3%nat
    /\ filter (fun ev => is_delay_event ev = true) t = []
    /\ weight <$> message_array self'
       = [1.0; (1.0 * 0.5 * 0.3 * 0.5 * 0.3 * 0.5 * 0.3); 1.0]%float.
Proof.
  eexists _, _. split; [vm_compute; reflexivity|].
  split; [reflexivity|]. split; reflexivity.
Qed.

(** The same turn with a send that succeeds does reach the delay
    step: it draws from the normal range and counts down. *)
Lemma send_success_reaches_delay :
  exists self' t,
    send_responses_turn (Sample.turn "2" None) Sample.bot3
    = Some (Ok tt, self', t)
    /\ head (filter (fun ev => is_delay_event ev = true) t)
       = Some (RandInt 15 25 22)
    /\ time_remaining self' = 0.
Proof.
  eexists _, _. split; [vm_compute; reflexivity|]. split; reflexivity.
Qed.

(** ** Startup hydration *)

Lemma Message_init_succeeds (author : Discord.User) (content : string)
    (message_id : Val) (replying_to : option Discord.Resolved) :
  touches_deleted replying_to = false ->
  exists msg, Message_init author content message_id replying_to = Ok msg.
Proof.
  destruct replying_to as [[m|]|]; cbn; [|discriminate|eauto].
  destruct m as [a c i ch [[[[g|]|]]|]]; cbn; try discriminate; eauto.
Qed.

Lemma index0_startswith (s : string) :
  s <> "" ->
  exists c, index0 s = Ok c /\ Ascii.eqb c "#" = startswith_hash s.
Proof. destruct s as [|c s]; [congruence|]. intros _. exists c. auto. Qed.

(** On a fetch in which every message has some text and no deleted
    reference, the loop keeps exactly the messages that pass the
    filtering rule, in the order of the fetch. *)
Lemma history_loop_of_texts (self : GPTBot) (fetched : list Discord.Message)
    (messages : list Message) :
  Forall (fun m => Discord.content m <> ""
                   /\ touches_deleted (reference_resolved m) = false) fetched ->
  exists msgs,
    history_loop self fetched messages = Ok (messages ++ msgs)
    /\ Forall2 (fun m msg =>
                  Message_init (Discord.author m) (Discord.content m)
                               (VInt (Discord.mid m)) (reference_resolved m)
                  = Ok msg)
               (filter (fun m => hydration_keeps self m = true) fetched) msgs.
Proof.
  intros Hall. revert messages.
  induction Hall as [|m rest [Htext Hrefs] _ IH]; intros messages.
  - exists []. rewrite app_nil_r. split; [reflexivity|constructor].
  - cbn [history_loop]. rewrite filter_cons.
    destruct (index0_startswith _ Htext) as (c & Hidx & Hhash).
    rewrite Hidx. cbn [bind]. rewrite Hhash.
    fold (hydration_keeps self m). fold (reference_resolved m).
    destruct (hydration_keeps self m) eqn:Hkeep.
    + destruct (Message_init_succeeds (Discord.author m) (Discord.content m)
                  (VInt (Discord.mid m)) _ Hrefs) as [msg Hmsg].
      rewrite Hmsg. cbn [bind].
      destruct (IH (messages ++ [msg])) as (msgs & Hloop & Hmsgs).
      exists (msg :: msgs). rewrite Hloop, <- app_assoc. split; [reflexivity|].
      rewrite decide_True by reflexivity. constructor; [exact Hmsg|exact Hmsgs].
    + destruct (IH messages) as (msgs & Hloop & Hmsgs).
      exists msgs. split; [exact Hloop|].
      rewrite decide_False by discriminate. exact Hmsgs.
Qed.

(** Hydration from such a channel seeds the buffer with the kept
    records, oldest first, and logs nothing. *)
Lemma update_message_history_of_texts (channel : list Discord.Message)
    (self : GPTBot) :
  Forall (fun m => Discord.content m <> ""
                   /\ touches_deleted (reference_resolved m) = false)
         (channel_history channel (MESSAGE_MEMORY self)) ->
  exists msgs,
    update_message_history channel self
    = Some (Ok tt, set_message_array self (rev msgs), [])
    /\ Forall2 (fun m msg =>
                  Message_init (Discord.author m) (Discord.content m)
                               (VInt (Discord.mid m)) (reference_resolved m)
                  = Ok msg)
               (filter (fun m => hydration_keeps self m = true)
                       (channel_history channel (MESSAGE_MEMORY self))) msgs.
Proof.
  intros Hall.
  destruct (history_loop_of_texts self _ [] Hall) as (msgs & Hloop & Hmsgs).
  exists msgs. split; [|exact Hmsgs].
  unfold update_message_history. run_unfold. rewrite Hloop. reflexivity.
Qed.

Lemma update_message_history_of_texts_witness :
  exists msgs,
    update_message_history Sample.channel_of_texts Sample.fresh
    = Some (Ok tt, set_message_array Sample.fresh (rev msgs), [])
    /\ Forall2 (fun m msg =>
                  Message_init (Discord.author m) (Discord.content m)
                               (VInt (Discord.mid m)) (reference_resolved m)
                  = Ok msg)
               (filter (fun m => hydration_keeps Sample.fresh m = true)
                       (channel_history Sample.channel_of_texts
                                        (MESSAGE_MEMORY Sample.fresh))) msgs.
Proof.
  apply (update_message_history_of_texts Sample.channel_of_texts Sample.fresh).
  repeat constructor; discriminate.
Defined.

(** A fetched message with no text makes the loop raise, whatever
    else the fetch holds. *)
Lemma history_loop_raises_on_empty_text (self : GPTBot)
    (fetched : list Discord.Message) (messages : list Message) :
  Exists (fun m => Discord.content m = "") fetched ->
  exists e, history_loop self fetched messages = Raise e.
Proof.
  intros Hex. revert messages.
  induction Hex as [m rest Hempty|m rest _ IH]; intros messages;
    cbn [history_loop].
  - rewrite Hempty. cbn. eauto.
  - destruct (index0 _) as [c|e]; cbn [bind]; [|eauto].
    destruct (_ && _); [|apply IH].
    destruct (Message_init _ _ _ _) as [msg|e]; cbn [bind]; [apply IH|eauto].
Qed.

(** Hydration from a channel with such a message gives up: the buffer
    stays as it was and an error is logged. *)
Lemma update_message_history_raises_on_empty_text
    (channel : list Discord.Message) (self : GPTBot) :
  Exists (fun m => Discord.content m = "")
         (channel_history channel (MESSAGE_MEMORY self)) ->
  exists e,
    update_message_history channel self
    = Some (Ok tt, self, [LogError ("Error in update_message_history: " +:+ e)]).
Proof.
  intros Hex.
  destruct (history_loop_raises_on_empty_text self _ [] Hex) as [e He].
  exists e. unfold update_message_history. run_unfold. rewrite He. reflexivity.
Qed.

(** C3, on the code: a fetched message whose text is empty makes
    [message.content[0]] raise; the handler of [update_message_history]
    logs the error and the buffer is not seeded at all, although all
    three fetched messages pass the filtering rule. The inbound path,
    which tests [startswith], accepts the very same message. *)
Theorem hydration_gives_up_on_empty_text :
  update_message_history Sample.channel_with_attachment Sample.fresh
  = Some (Ok tt, Sample.fresh,
          [LogError "Error in update_message_history: string index out of range"])
  /\ message_array Sample.fresh = []
  /\ length (filter (fun m => hydration_keeps Sample.fresh m = true)
                    Sample.channel_with_attachment) = 3%nat
  /\ on_message_accepts Sample.fresh (Discord.mkMessage Sample.bob "" 2 5 None)
     = true.
Proof. repeat split. Qed.

(** Without the empty text the same hydration works as specified:
    command and own messages are skipped, the rest is stored oldest
    first. *)
Lemma hydration_of_texts :
  exists self',
    update_message_history Sample.channel_of_texts Sample.fresh
    = Some (Ok tt, self', [])
    /\ message <$> message_array self' = ["good morning"; "see you"].
Proof. eexists. split; reflexivity. Qed.

(** ** Night window and the draw of the delay *)

(** The night window is the hours 2 to 7 of the local day. *)
Lemma is_night_time_window (hour : Z) :
  is_night_time hour = true <-> 2 <= hour < 8.
Proof.
  unfold is_night_time. rewrite andb_true_iff, Z.leb_le, Z.ltb_lt. reflexivity.
Qed.


(** The countdown counts a delay of 7 seconds down in steps of 3,
    floored at zero. *)
Lemma countdown_status_of_7 :
  countdown_status (fun _ => None) 7 Sample.fresh
  = Some (Ok tt, Sample.fresh,
          [ChangePresence "v3s | Next: 7s"; Sleep 3;
           ChangePresence "v3s | Next: 4s"; Sleep 3;
           ChangePresence "v3s | Next: 1s"; Sleep 3;
           ChangePresence "v3s | Next: 0s"]).
Proof. reflexivity. Qed.

(** ** Lookup by id *)

(** The lookup compares the ids as strings: an id given as a number
    and the same id given as its decimal string find the same record. *)
Lemma find_picked_int_or_string (arr : list Message) (n : Z) :
  find_picked arr (VStr (str_int n)) = find_picked arr (VInt n).
Proof. reflexivity. Qed.

Lemma find_picked_number_as_string :
  find_picked
    [scale_weight 1.0 Sample.r1;
     {| author := Sample.bob; author_id := 12; message := "how are you";
        message_id := VInt 1001; replying_to := None;
        replying_to_replying_to := None; weight := 1.0%float |}]
    (VStr "1001")
  = Some (1%nat,
          {| author := Sample.bob; author_id := 12; message := "how are you";
             message_id := VInt 1001; replying_to := None;
             replying_to_replying_to := None; weight := 1.0%float |}).
Proof. reflexivity. Qed.

Lemma send_responses_turn_finishes_witness :
  exists self2 t2,
    send_responses_turn (Sample.turn "2" None) Sample.bot3
    = Some (Ok tt, self2,
            [CompletionRequest (prepare_messages_for_ai Sample.bot3)] ++ t2).
Proof.
  apply (send_responses_turn_finishes (Sample.turn "2" None) Sample.bot3
           (set_message_array Sample.bot3
              (alter (scale_weight 0.5) 1%nat (message_array Sample.bot3)))
           {| response := VStr "hello"; picked_message := VStr "2" |}
           [CompletionRequest (prepare_messages_for_ai Sample.bot3)]).
  reflexivity.
Defined.


(** ** White space and the silence sentinels *)

Lemma lstrip_head (s : string) (c : ascii) (r : string) :
  lstrip s = String c r -> isspace c = false.
Proof.
  induction s as [|d s IH]; cbn [lstrip]; [discriminate|].
  destruct (isspace d) eqn:Hd; [exact IH|].
  intros [= <- _]. exact Hd.
Qed.

Lemma lstrip_fixed (c : ascii) (r : string) :
  isspace c = false -> lstrip (String c r) = String c r.
Proof. intros H. cbn [lstrip]. rewrite H. reflexivity. Qed.

Lemma rstrip_head (c : ascii) (s : string) :
  isspace c = false -> exists r, rstrip (String c s) = String c r.
Proof.
  intros H. cbn [rstrip]. destruct (rstrip s) as [|d r].
  - rewrite H. eauto.
  - eauto.
Qed.

Lemma rstrip_idempotent (s : string) : rstrip (rstrip s) = rstrip s.
Proof.
  induction s as [|c s IH]; [reflexivity|]. cbn [rstrip].
  destruct (rstrip s) as [|d r] eqn:Hr.
  - destruct (isspace c) eqn:Hc; [reflexivity|].
    cbn [rstrip]. rewrite Hc. reflexivity.
  - cbn [rstrip]. cbn [rstrip] in IH. rewrite IH. reflexivity.
Qed.

(** A stripped text does not begin with white space. *)
Lemma strip_head (s : string) (c : ascii) (r : string) :
  strip s = String c r -> isspace c = false.
Proof.
  unfold strip. destruct (lstrip s) as [|d t] eqn:Hl; [discriminate|].
  pose proof (lstrip_head _ _ _ Hl) as Hd.
  destruct (rstrip_head d t Hd) as [r' Hr]. rewrite Hr.
  intros [= <- _]. exact Hd.
Qed.

Lemma strip_idempotent (s : string) : strip (strip s) = strip s.
Proof.
  unfold strip. destruct (lstrip s) as [|d t] eqn:Hl; [reflexivity|].
  pose proof (lstrip_head _ _ _ Hl) as Hd.
  destruct (rstrip_head d t Hd) as [r' Hr].
  rewrite Hr, (lstrip_fixed d r' Hd), <- Hr. apply rstrip_idempotent.
Qed.

(** The test before the emission, for a text: the response goes out
    exactly when its stripped form is neither empty nor one of the two
    sentinels. The fourth entry of the list in the source, a bare line
    feed, never decides anything, since no stripped text begins with
    white space; and white space around the response does not change
    the outcome. *)
Theorem worth_sending_stripped (s : string) :
  worth_sending (VStr s)
  = Ok (negb (existsb (String.eqb (strip s))
                ["*SILENCE*"; "*END OF CONVERSATION*"; ""]))
  /\ worth_sending (VStr (strip s)) = worth_sending (VStr s).
Proof.
  assert (Hchar : forall t,
    worth_sending (VStr t)
    = Ok (negb (existsb (String.eqb (strip t))
                  ["*SILENCE*"; "*END OF CONVERSATION*"; ""]))).
  { intros t. unfold worth_sending. cbn [truthy strip_val bind].
    destruct t as [|c t]; [reflexivity|]. cbn [String.eqb negb existsb].
    assert (Hlf : String.eqb (strip (String c t)) LINE_FEED = false).
    { apply String.eqb_neq. intros H. apply strip_head in H. discriminate. }
    rewrite Hlf, !orb_false_r. reflexivity. }
  split; [apply Hchar|]. rewrite !Hchar, strip_idempotent. reflexivity.
Qed.

(** ** What one turn sends *)

Lemma sends_of_app (t1 t2 : list Event) :
  sends_of (t1 ++ t2) = sends_of t1 ++ sends_of t2.
Proof. apply filter_app. Qed.

Lemma sends_of_silent (t : list Event) :
  Forall (fun ev => is_send_event ev = false) t -> sends_of t = [].
Proof.
  induction 1 as [|ev t Hev _ IH]; [reflexivity|].
  unfold sends_of. rewrite filter_cons, decide_False by congruence. exact IH.
Qed.

Lemma sends_of_send (text : string) (reference : option Val) :
  sends_of [ChannelSend text reference] = [ChannelSend text reference].
Proof. reflexivity. Qed.

(** A turn is its selector, then what follows it, then the error line
    of the handler if what followed raised. *)
Lemma send_responses_turn_run (env : Cycle) (self self1 self2 : GPTBot)
    (a : AIResponse) (t1 t2 : list Event) (r : Exc unit) :
  get_ai_response (stack env) (completions env) self = Some (Ok a, self1, t1) ->
  after_selector env a self1 = Some (r, self2, t2) ->
  send_responses_turn env self
  = Some (Ok tt, self2, t1 ++ t2 ++ turn_error r).
Proof.
  intros Hsel Hrest.
  assert (Htry : send_responses_try env self = Some (r, self2, t1 ++ t2)).
  { unfold send_responses_try. rewrite (run_bind_ok _ _ _ _ _ _ Hsel).
    fold (after_selector env a). rewrite Hrest. reflexivity. }
  unfold send_responses_turn. destruct r as [[]|e].
  - rewrite (run_try_ok _ _ _ _ _ _ Htry). cbn. rewrite app_nil_r. reflexivity.
  - rewrite (run_try_raise _ _ _ _ _ _ Htry). cbn.
    rewrite <- app_assoc. reflexivity.
Qed.

(** The emission of a text sends it once, to the reply target, and
    adds at most the debug echo. *)
Lemma emission_run (env : Cycle) (text : string) (p : Val) (self : GPTBot) :
  exists r self' warnings echo,
    emission env (VStr text) p self
    = Some (r, self',
            warnings ++ ChannelSend text (reply_target (message_array self) p)
                     :: echo)
    /\ Forall (fun ev => is_selector_event ev = true) warnings
    /\ (echo = [] \/ exists context, echo = [DebugSend context]).
Proof.
  unfold emission, debug_echo, reply_target. run_unfold. cbn.
  destruct (truthy p); [destruct (find_picked _ _) as [[i picked]|]|];
    destruct (send_raises env) as [e|]; cbn;
    try (destruct (DEBUG _); [destruct (debug_send_raises env)|]);
    first [ eexists _, _, [], _; split; [reflexivity|]; split; [constructor|];
            solve [eauto]
          | eexists _, _, [_], _; split; [reflexivity|]; split;
            [repeat constructor|]; solve [eauto] ].
Qed.

(** In a turn the bot posts at most one response, addressed to the
    reply target computed on the buffer as the selector left it, and
    at most one debug echo after it; it posts nothing when the response
    does not pass the test before the emission. *)
Theorem turn_sends_at_most_once (env : Cycle) (self self1 : GPTBot)
    (a : AIResponse) (t1 : list Event) :
  get_ai_response (stack env) (completions env) self = Some (Ok a, self1, t1) ->
  exists self2 t echo,
    send_responses_turn env self = Some (Ok tt, self2, t)
    /\ sends_of t
       = match worth_sending (response a) with
         | Ok true =>
             ChannelSend (text_of (response a))
                         (reply_target (message_array self1) (picked_message a))
             :: echo
         | _ => []
         end
    /\ (echo = [] \/ exists context, echo = [DebugSend context]).
Proof.
  intros Hsel.
  pose proof (proj2 (get_ai_response_events _ _ _ _ _ _ Hsel)) as Ht1.
  apply selector_events_send_nothing, sends_of_silent in Ht1.
  destruct (delay_step_run env self1) as (rd & sd & td & Hd & _ & Htd).
  apply delay_events_send_nothing, sends_of_silent in Htd.
  assert (Herr : forall r, sends_of (turn_error r) = []).
  { intros [[]|e]; reflexivity. }
  destruct (worth_sending (response a)) as [[|]|e] eqn:Hgo.
  - destruct (worth_sending_text _ Hgo) as [text Htext].
    destruct (emission_run env text (picked_message a) self1)
      as (re & se & warnings & echo & Hemit & Hwarn & Hecho).
    apply selector_events_send_nothing, sends_of_silent in Hwarn.
    assert (Hecho' : sends_of echo = echo).
    { destruct Hecho as [->|[context ->]]; reflexivity. }
    destruct re as [[]|e].
    + destruct (delay_step_run env se) as (rd' & sd' & td' & Hd' & _ & Htd').
      apply delay_events_send_nothing, sends_of_silent in Htd'.
      exists sd', (t1 ++ ((warnings ++ ChannelSend text
                 (reply_target (message_array self1) (picked_message a))
                 :: echo) ++ td') ++ turn_error rd'), echo.
      split; [|split; [|exact Hecho]].
      * apply (send_responses_turn_run env self self1 sd' a).
        { exact Hsel. }
        unfold after_selector. rewrite Hgo, Htext.
        rewrite (run_bind_ok (lift (Ok true)) _ self1 true self1 [] eq_refl).
        rewrite (run_bind_ok _ _ _ _ _ _ Hemit), Hd'. reflexivity.
      * rewrite Htext. cbn [text_of].
        rewrite !sends_of_app, Ht1, Hwarn, Htd', Herr.
        change (ChannelSend text ?x :: echo)
          with ([ChannelSend text x] ++ echo).
        rewrite sends_of_app, Hecho', sends_of_send. cbn [app].
        rewrite ?app_nil_r. reflexivity.
    + exists se, (t1 ++ (warnings ++ ChannelSend text
                 (reply_target (message_array self1) (picked_message a))
                 :: echo) ++ turn_error (Raise e)), echo.
      split; [|split; [|exact Hecho]].
      * apply (send_responses_turn_run env self self1 se a).
        { exact Hsel. }
        unfold after_selector. rewrite Hgo, Htext.
        rewrite (run_bind_ok (lift (Ok true)) _ self1 true self1 [] eq_refl).
        rewrite (run_bind_raise _ _ _ _ _ _ Hemit). reflexivity.
      * rewrite Htext. cbn [text_of].
        rewrite !sends_of_app, Ht1, Hwarn, Herr.
        change (ChannelSend text ?x :: echo)
          with ([ChannelSend text x] ++ echo).
        rewrite sends_of_app, Hecho', sends_of_send. cbn [app].
        rewrite ?app_nil_r. reflexivity.
  - exists sd, (t1 ++ td ++ turn_error rd), [].
    split; [|split; [|left; reflexivity]].
    + apply (send_responses_turn_run env self self1 sd a); [exact Hsel|].
      unfold after_selector. rewrite Hgo. run_unfold. cbn. rewrite Hd.
      reflexivity.
    + rewrite !sends_of_app, Ht1, Htd, Herr. reflexivity.
  - exists self1, (t1 ++ [] ++ turn_error (Raise e)), [].
    split; [|split; [|left; reflexivity]].
    + apply (send_responses_turn_run env self self1 self1 a); [exact Hsel|].
      unfold after_selector. rewrite Hgo. reflexivity.
    + rewrite !sends_of_app, Ht1, Herr. reflexivity.
Qed.

Lemma turn_sends_at_most_once_witness :
  exists self2 t echo,
    send_responses_turn (Sample.turn "2" None) Sample.bot3 = Some (Ok tt, self2, t)
    /\ sends_of t = ChannelSend "hello" (Some (VStr "2")) :: echo
    /\ (echo = [] \/ exists context, echo = [DebugSend context]).
Proof.
  exact (turn_sends_at_most_once (Sample.turn "2" None) Sample.bot3
           (set_message_array Sample.bot3
              (alter (scale_weight 0.5) 1%nat (message_array Sample.bot3)))
           {| response := VStr "hello"; picked_message := VStr "2" |}
           [CompletionRequest (prepare_messages_for_ai Sample.bot3)]
           eq_refl).
Defined.

(** A response that does not pass the test before the emission (the
    empty text, white space, a silence sentinel) leads straight to the
    delay step: nothing is sent, and the buffer stays as the selector
    left it, the halving of a picked weight included. *)
Theorem silent_turn (env : Cycle) (self self1 : GPTBot) (a : AIResponse)
    (t1 : list Event) :
  get_ai_response (stack env) (completions env) self = Some (Ok a, self1, t1) ->
  worth_sending (response a) = Ok false ->
  exists r self2 t2,
    delay_step env self1 = Some (r, self2, t2)
    /\ send_responses_turn env self
       = Some (Ok tt, self2, t1 ++ t2 ++ turn_error r)
    /\ message_array self2 = message_array self1
    /\ sends_of (t1 ++ t2 ++ turn_error r) = [].
Proof.
  intros Hsel Hgo.
  destruct (delay_step_run env self1) as (r & s2 & t2 & Hd & Hsame & Ht2).
  exists r, s2, t2. split; [exact Hd|]. split; [|split; [exact Hsame|]].
  - apply (send_responses_turn_run env self self1 s2 a); [exact Hsel|].
    unfold after_selector. rewrite Hgo. run_unfold. cbn. rewrite Hd.
    reflexivity.
  - pose proof (proj2 (get_ai_response_events _ _ _ _ _ _ Hsel)) as Ht1.
    apply selector_events_send_nothing, sends_of_silent in Ht1.
    apply delay_events_send_nothing, sends_of_silent in Ht2.
    rewrite !sends_of_app, Ht1, Ht2. destruct r as [[]|e]; reflexivity.
Qed.

Lemma silent_turn_witness :
  exists r self2 t2,
    delay_step (Sample.turn_of "  *SILENCE* " "2") 
               (set_message_array Sample.bot3
                  (alter (scale_weight 0.5) 1%nat (message_array Sample.bot3)))
    = Some (r, self2, t2)
    /\ send_responses_turn (Sample.turn_of "  *SILENCE* " "2") Sample.bot3
       = Some (Ok tt, self2,
               [CompletionRequest (prepare_messages_for_ai Sample.bot3)]
               ++ t2 ++ turn_error r)
    /\ message_array self2
       = alter (scale_weight 0.5) 1%nat (message_array Sample.bot3)
    /\ sends_of ([CompletionRequest (prepare_messages_for_ai Sample.bot3)]
                 ++ t2 ++ turn_error r) = [].
Proof.
  exact (silent_turn (Sample.turn_of "  *SILENCE* " "2") Sample.bot3
           (set_message_array Sample.bot3
              (alter (scale_weight 0.5) 1%nat (message_array Sample.bot3)))
           {| response := VStr "  *SILENCE* "; picked_message := VStr "2" |}
           [CompletionRequest (prepare_messages_for_ai Sample.bot3)]
           eq_refl eq_refl).
Defined.

(** ** No pick *)

(** When the service picks nothing (the key is absent or null) or
    gives a falsy id (the empty text, zero, false), the selector logs
    that no message was picked, touches no weight and returns the
    response with the id as given; the emission of such a result has
    no reference. *)
Theorem no_pick_is_untargeted (r p : option Val) (rest : list Completion)
    (depth : nat) (self : GPTBot) (env : Cycle) (text : string) :
  truthy (default VNone p) = false ->
  get_ai_response depth (Parsed (JsonObject r p) :: rest) self
  = Some (Ok {| response := default (VStr "") r;
                picked_message := default VNone p |},
          self,
          [CompletionRequest (prepare_messages_for_ai self);
           LogWarning "No message picked."])
  /\ emission env (VStr text) (default VNone p) self
     = after [LogWarning "No message picked."; ChannelSend text None]
         (match send_raises env with
          | Some e => raise e self
          | None => debug_echo env self
          end).
Proof.
  intros Hfalsy. split.
  - cbn [get_ai_response]. run_unfold. cbn. rewrite Hfalsy. reflexivity.
  - unfold emission. run_unfold. cbn. rewrite Hfalsy.
    destruct (send_raises env) as [e|]; [reflexivity|].
    destruct (debug_echo env self) as [[[r' s'] t']|]; reflexivity.
Qed.

Lemma no_pick_is_untargeted_witness :
  get_ai_response 980
    [Parsed (JsonObject (Some (VStr "hello")) (Some (VInt 0)))] Sample.bot3
  = Some (Ok {| response := VStr "hello"; picked_message := VInt 0 |},
          Sample.bot3,
          [CompletionRequest (prepare_messages_for_ai Sample.bot3);
           LogWarning "No message picked."])
  /\ emission (Sample.turn "2" None) (VStr "hello") (VInt 0) Sample.bot3
     = after [LogWarning "No message picked."; ChannelSend "hello" None]
         (debug_echo (Sample.turn "2" None) Sample.bot3).
Proof.
  apply (no_pick_is_untargeted (Some (VStr "hello")) (Some (VInt 0)) [] 980
           Sample.bot3 (Sample.turn "2" None) "hello").
  reflexivity.
Defined.

(** ** Decay over several turns *)

(** A pick that is found and no echo: the selector returns it, with
    the weight halved. *)
Lemma selector_pick_run (g : string) (p : Val) (i : nat) (picked : Message)
    (rest : list Completion) (depth : nat) (self : GPTBot) :
  truthy p = true ->
  find_picked (message_array self) p = Some (i, picked) ->
  is_echo (strip g) picked (message_array self) = false ->
  get_ai_response depth (Parsed (JsonObject (Some (VStr g)) (Some p)) :: rest) self
  = Some (Ok {| response := VStr g; picked_message := p |},
          set_message_array self
            (alter (scale_weight 0.5) i (message_array self)),
          [CompletionRequest (prepare_messages_for_ai self)]).
Proof.
  intros Htruthy Hfind Hecho. cbn [get_ai_response]. run_unfold. cbn.
  rewrite Htruthy, Hfind. cbn. rewrite is_echo_alter, Hecho. reflexivity.
Qed.

(** The emission to a pick that is found applies the second decay,
    whatever becomes of the sends. *)
Lemma emission_found_run (env : Cycle) (g : string) (p : Val) (i : nat)
    (picked : Message) (self : GPTBot) :
  truthy p = true ->
  find_picked (message_array self) p = Some (i, picked) ->
  exists r t,
    emission env (VStr g) p self
    = Some (r, set_message_array self
                 (alter (scale_weight 0.3) i (message_array self)), t).
Proof.
  intros Htruthy Hfind. unfold emission, debug_echo. run_unfold. cbn.
  rewrite Htruthy, Hfind. cbn.
  destruct (send_raises env); cbn; [eauto|].
  destruct (DEBUG self); [destruct (debug_send_raises env)|]; eauto.
Qed.

Lemma alter_engage (arr : list Message) (i : nat) :
  alter (scale_weight 0.3) i (alter (scale_weight 0.5) i arr)
  = alter engage i arr.
Proof. rewrite list_alter_alter_eq. reflexivity. Qed.

(** One turn that picks a record and answers it leaves the buffer with
    exactly the two decays on that record, whether or not the sends
    succeed. *)
Lemma engaging_turn_run (env : Cycle) (p : Val) (i : nat) (picked : Message)
    (self : GPTBot) :
  truthy p = true ->
  find_picked (message_array self) p = Some (i, picked) ->
  answers_to p picked (message_array self) env ->
  exists self' t,
    send_responses_turn env self = Some (Ok tt, self', t)
    /\ message_array self' = alter engage i (message_array self).
Proof.
  intros Htruthy Hfind (g & rest & Hcompl & Hecho & Hgo).
  pose proof (selector_pick_run g p i picked rest (stack env) self
                Htruthy Hfind Hecho) as Hsel.
  rewrite <- Hcompl in Hsel.
  set (selected := set_message_array self
                     (alter (scale_weight 0.5) i (message_array self))) in *.
  destruct (emission_found_run env g p i (scale_weight 0.5 picked) selected
              Htruthy (find_picked_alter 0.5 _ _ _ _ Hfind))
    as (re & te & Hemit).
  set (sent := set_message_array selected
                 (alter (scale_weight 0.3) i (message_array selected))) in *.
  assert (Hsent : message_array sent = alter engage i (message_array self)).
  { subst sent selected. rewrite !message_array_set. apply alter_engage. }
  destruct re as [[]|e].
  - destruct (delay_step_run env sent) as (rd & sd & td & Hd & Hsame & _).
    exists sd, ([CompletionRequest (prepare_messages_for_ai self)]
                ++ (te ++ td) ++ turn_error rd).
    split; [|rewrite Hsame; exact Hsent].
    apply (send_responses_turn_run env self selected sd _ _ _ _ Hsel).
    unfold after_selector. cbn [response picked_message]. rewrite Hgo.
    rewrite (run_bind_ok (lift (Ok true)) _ selected true selected [] eq_refl).
    rewrite (run_bind_ok _ _ _ _ _ _ Hemit), Hd. reflexivity.
  - exists sent, ([CompletionRequest (prepare_messages_for_ai self)]
                  ++ te ++ turn_error (Raise e)).
    split; [|exact Hsent].
    apply (send_responses_turn_run env self selected sent _ _ _ _ Hsel).
    unfold after_selector. cbn [response picked_message]. rewrite Hgo.
    rewrite (run_bind_ok (lift (Ok true)) _ selected true selected [] eq_refl).
    rewrite (run_bind_raise _ _ _ _ _ _ Hemit). reflexivity.
Qed.

Lemma find_picked_engage (arr : list Message) (p : Val) (i : nat)
    (picked : Message) :
  find_picked arr p = Some (i, picked) ->
  find_picked (alter engage i arr) p = Some (i, engage picked).
Proof.
  intros H. rewrite <- alter_engage.
  apply find_picked_alter, find_picked_alter. exact H.
Qed.

Lemma is_echo_engage (g : string) (picked : Message) (arr : list Message)
    (i : nat) :
  is_echo g (engage picked) (alter engage i arr) = is_echo g picked arr.
Proof.
  rewrite <- alter_engage, !is_echo_alter. reflexivity.
Qed.

(** Turns that keep picking and answering the same record compound:
    after [n] of them that record has gone through the two decays [n]
    times, every other record is as it was, and the loop has come
    through every turn, whatever the sends did. *)
Theorem repeated_picks_compound (envs : list Cycle) (p : Val) (i : nat)
    (picked : Message) (self : GPTBot) :
  truthy p = true ->
  find_picked (message_array self) p = Some (i, picked) ->
  Forall (answers_to p picked (message_array self)) envs ->
  exists self' t,
    send_responses envs self = Some (Ok tt, self', t)
    /\ message_array self'
       = alter (Nat.iter (length envs) engage) i (message_array self)
    /\ message_array self' !! i = Some (Nat.iter (length envs) engage picked)
    /\ forall j, j <> i -> message_array self' !! j = message_array self !! j.
Proof.
  intros Htruthy Hfind Hall.
  assert (Hrun : exists self' t,
    send_responses envs self = Some (Ok tt, self', t)
    /\ message_array self'
       = alter (Nat.iter (length envs) engage) i (message_array self)).
  { revert self picked Hfind Hall.
    induction envs as [|env envs IH]; intros self picked Hfind Hall.
    - exists self, []. split; [reflexivity|].
      cbn [length Nat.iter]. symmetry. apply list_alter_id. reflexivity.
    - apply Forall_cons in Hall as [Henv Hall].
      destruct (engaging_turn_run env p i picked self Htruthy Hfind Henv)
        as (s1 & t1 & Hturn & Harr1).
      destruct (IH s1 (engage picked)) as (s2 & t2 & Hrest & Harr2).
      + rewrite Harr1. apply find_picked_engage. exact Hfind.
      + rewrite Harr1. eapply Forall_impl; [exact Hall|].
        intros env' (g & rest & Hc & He & Hg). exists g, rest.
        rewrite is_echo_engage. auto.
      + exists s2, (t1 ++ t2). split.
        * cbn [send_responses]. rewrite (run_bind_ok _ _ _ _ _ _ Hturn), Hrest.
          reflexivity.
        * rewrite Harr2, Harr1, list_alter_alter_eq. cbn [length].
          apply list_alter_ext; [|reflexivity].
          intros x _. cbn [compose]. symmetry. apply Nat.iter_succ_r. }
  destruct Hrun as (self' & t & Hsend & Harr).
  apply list_find_Some in Hfind as (Hlookup & _).
  exists self', t. split; [exact Hsend|]. split; [exact Harr|].
  rewrite Harr. split.
  - rewrite list_lookup_alter_eq, Hlookup. reflexivity.
  - intros j Hj. apply list_lookup_alter_ne. congruence.
Qed.

Lemma repeated_picks_compound_witness :
  exists self' t,
    send_responses [Sample.turn "2" None; Sample.turn "2" (Some Sample.unreachable)]
                   Sample.bot3
    = Some (Ok tt, self', t)
    /\ message_array self'
       = alter (Nat.iter 2 engage) 1%nat (message_array Sample.bot3)
    /\ message_array self' !! 1%nat
       = Some (Nat.iter 2 engage (Sample.record "2" "how are you"))
    /\ forall j, j <> 1%nat ->
         message_array self' !! j = message_array Sample.bot3 !! j.
Proof.
  apply (repeated_picks_compound
           [Sample.turn "2" None; Sample.turn "2" (Some Sample.unreachable)]
           (VStr "2") 1%nat (Sample.record "2" "how are you") Sample.bot3);
    [reflexivity | reflexivity |].
  repeat constructor; exists "hello", []; repeat split.
Defined.

(** The weights are binary64 numbers: 400 such turns take a weight of
    1.0 to exactly 0.0. *)
Lemma weight_reaches_zero :
  weight (Nat.iter 400 engage (Sample.record "2" "how are you")) = 0%float.
Proof. vm_compute. reflexivity. Qed.

(** ** What on_message stores *)

Lemma Message_init_raises (author : Discord.User) (content : string)
    (message_id : Val) (replying_to : option Discord.Resolved) :
  touches_deleted replying_to = true ->
  exists e, Message_init author content message_id replying_to = Raise e.
Proof.
  destruct replying_to as [[m|]|]; cbn; [|eauto|discriminate].
  destruct m as [a c i ch [[[[g|]|]]|]]; cbn; try discriminate; eauto.
Qed.

(** With a memory size of at least 1, [on_message] stores a message
    exactly when it passes the guard and neither the message it
    replies to nor the one before that is deleted. It then becomes the
    newest record; the oldest one goes exactly when the buffer was not
    below the memory size, so a buffer below the size grows by one and
    any other keeps its length, also one that is longer than the size.
    In every other case the bot is left as it was, and a message that
    passed the guard is not handed to the commands but logged as an
    error. *)
Theorem on_message_stores (self : GPTBot) (m : Discord.Message) :
  1 <= MESSAGE_MEMORY self ->
  if on_message_accepts self m
     && negb (touches_deleted (reference_resolved m))
  then
    exists msg,
      Message_init (Discord.author m) (Discord.content m)
                   (VInt (Discord.mid m)) (reference_resolved m) = Ok msg
      /\ on_message self m
         = (set_message_array self
              ((if Z.of_nat (length (message_array self)) <? MESSAGE_MEMORY self
                then message_array self else tail (message_array self))
               ++ [if mentions_bot self (Discord.content m)
                   then scale_weight 1.4 msg else msg]),
            [ProcessCommands (Discord.mid m)])
      /\ length (message_array (fst (on_message self m)))
         = (if Z.of_nat (length (message_array self)) <? MESSAGE_MEMORY self
            then S (length (message_array self))
            else length (message_array self))
  else
    fst (on_message self m) = self
    /\ (on_message_accepts self m = true ->
        exists e, snd (on_message self m)
                  = [LogError ("Error in on_message: " +:+ e)]).
Proof.
  intros Hmem. unfold on_message, on_message_try.
  destruct (on_message_accepts self m); cbn [andb];
    [|split; [reflexivity|discriminate]].
  destruct (touches_deleted (reference_resolved m)) eqn:Hdel; cbn [negb].
  - destruct (Message_init_raises (Discord.author m) (Discord.content m)
                (VInt (Discord.mid m)) _ Hdel) as [e He].
    rewrite He. cbn. split; [reflexivity|]. intros _. eauto.
  - destruct (Message_init_succeeds (Discord.author m) (Discord.content m)
                (VInt (Discord.mid m)) _ Hdel) as [msg Hmsg].
    rewrite Hmsg. cbn [bind]. exists msg. split; [reflexivity|].
    unfold message_array_append.
    destruct (Z.geb_spec (Z.of_nat (length (message_array self)))
                         (MESSAGE_MEMORY self)) as [Hge|Hlt];
      destruct (Z.ltb_spec (Z.of_nat (length (message_array self)))
                           (MESSAGE_MEMORY self)); try lia.
    + destruct (message_array self) as [|x arr] eqn:E;
        cbn [length] in Hge; [lia|].
      cbn. split; [reflexivity|]. rewrite length_app. cbn. lia.
    + cbn. split; [reflexivity|]. rewrite length_app. cbn. lia.
Qed.

Lemma on_message_stores_witness :
  exists msg,
    Message_init Sample.bob "hi <@99>, are you there?" (VInt 1001) None = Ok msg
    /\ on_message Sample.ready (Sample.incoming "hi <@99>, are you there?")
       = (set_message_array Sample.ready ([] ++ [scale_weight 1.4 msg]),
          [ProcessCommands 1001])
    /\ length (message_array
                 (fst (on_message Sample.ready
                         (Sample.incoming "hi <@99>, are you there?"))))
       = 1%nat.
Proof.
  exact (on_message_stores Sample.ready
           (Sample.incoming "hi <@99>, are you there?") ltac:(cbn; lia)).
Defined.

(** ** Hydration, all or nothing *)

Lemma Message_init_base_weight (author0 : Discord.User) (content : string)
    (message_id : Val) (replying_to0 : option Discord.Resolved) (msg : Message) :
  Message_init author0 content message_id replying_to0 = Ok msg ->
  has_base_weight msg.
Proof.
  unfold Message_init, has_base_weight. intros H.
  destruct (init_replying_to _) as [rt|]; cbn [bind] in H; [|discriminate].
  destruct (init_replying_to_replying_to _); cbn [bind] in H; [|discriminate].
  injection H as <-. reflexivity.
Qed.

Lemma history_loop_hydratable (self : GPTBot) (fetched : list Discord.Message)
    (messages : list Message) :
  hydratable self fetched = true ->
  exists msgs,
    history_loop self fetched messages = Ok (messages ++ msgs)
    /\ Forall2 (fun m msg =>
                  Message_init (Discord.author m) (Discord.content m)
                               (VInt (Discord.mid m)) (reference_resolved m)
                  = Ok msg)
               (filter (fun m => hydration_keeps self m = true) fetched) msgs.
Proof.
  revert messages. induction fetched as [|m rest IH]; intros messages Hall.
  - exists []. rewrite app_nil_r. split; [reflexivity|constructor].
  - cbn [hydratable forallb] in Hall.
    apply andb_true_iff in Hall as [Hm Hrest].
    apply andb_true_iff in Hm as [Htext Hrefs].
    apply negb_true_iff, String.eqb_neq in Htext.
    cbn [history_loop]. rewrite filter_cons.
    destruct (index0_startswith _ Htext) as (c & Hidx & Hhash).
    rewrite Hidx. cbn [bind]. rewrite Hhash.
    fold (hydration_keeps self m). fold (reference_resolved m).
    destruct (hydration_keeps self m) eqn:Hkeep.
    + cbn [negb orb] in Hrefs. apply negb_true_iff in Hrefs.
      destruct (Message_init_succeeds (Discord.author m) (Discord.content m)
                  (VInt (Discord.mid m)) _ Hrefs) as [msg Hmsg].
      rewrite Hmsg. cbn [bind].
      destruct (IH (messages ++ [msg]) Hrest) as (msgs & Hloop & Hmsgs).
      exists (msg :: msgs). rewrite Hloop, <- app_assoc. split; [reflexivity|].
      rewrite decide_True by reflexivity. constructor; [exact Hmsg|exact Hmsgs].
    + destruct (IH messages Hrest) as (msgs & Hloop & Hmsgs).
      exists msgs. split; [exact Hloop|].
      rewrite decide_False by discriminate. exact Hmsgs.
Qed.

Lemma history_loop_not_hydratable (self : GPTBot)
    (fetched : list Discord.Message) (messages : list Message) :
  hydratable self fetched = false ->
  exists e, history_loop self fetched messages = Raise e.
Proof.
  revert messages. induction fetched as [|m rest IH]; intros messages Hnot;
    [discriminate|].
  cbn [hydratable forallb] in Hnot. cbn [history_loop].
  destruct (String.eqb_spec (Discord.content m) "") as [Hempty|Htext].
  - rewrite Hempty. cbn. eauto.
  - destruct (index0_startswith _ Htext) as (c & Hidx & Hhash).
    rewrite Hidx. cbn [bind]. rewrite Hhash.
    fold (hydration_keeps self m). fold (reference_resolved m).
    cbn [negb andb] in Hnot.
    destruct (hydration_keeps self m) eqn:Hkeep; cbn [negb orb andb] in Hnot.
    + destruct (touches_deleted (reference_resolved m)) eqn:Hdel.
      * destruct (Message_init_raises (Discord.author m) (Discord.content m)
                    (VInt (Discord.mid m)) _ Hdel) as [e He].
        rewrite He. cbn. eauto.
      * destruct (Message_init_succeeds (Discord.author m) (Discord.content m)
                    (VInt (Discord.mid m)) _ Hdel) as [msg Hmsg].
        rewrite Hmsg. cbn [bind]. apply IH. exact Hnot.
    + apply IH. exact Hnot.
Qed.

(** What the hydration does, by the fetch it meets. *)
Lemma update_message_history_run
    (channel : list Discord.Message) (self : GPTBot) :
  let fetched := channel_history channel (MESSAGE_MEMORY self) in
  if hydratable self fetched then
    exists msgs,
      update_message_history channel self
      = Some (Ok tt, set_message_array self (rev msgs), [])
      /\ Forall2 (fun m msg =>
                    Message_init (Discord.author m) (Discord.content m)
                                 (VInt (Discord.mid m)) (reference_resolved m)
                    = Ok msg)
                 (filter (fun m => hydration_keeps self m = true) fetched) msgs
      /\ (length (rev msgs) <= Z.to_nat (MESSAGE_MEMORY self))%nat
      /\ Forall has_base_weight (rev msgs)
  else
    exists e,
      update_message_history channel self
      = Some (Ok tt, self,
              [LogError ("Error in update_message_history: " +:+ e)]).
Proof.
  intros fetched. destruct (hydratable self fetched) eqn:Hh.
  - destruct (history_loop_hydratable self fetched [] Hh)
      as (msgs & Hloop & Hmsgs).
    exists msgs. split; [|split; [exact Hmsgs|split]].
    + unfold update_message_history. run_unfold. fold fetched.
      rewrite Hloop. reflexivity.
    + rewrite length_rev, <- (Forall2_length _ _ _ Hmsgs).
      etransitivity; [apply length_filter|].
      subst fetched. unfold channel_history. rewrite length_take. lia.
    + apply Forall_rev.
      clear Hloop. induction Hmsgs as [|m msg ms msgs Hm _ IH]; constructor.
      * exact (Message_init_base_weight _ _ _ _ _ Hm).
      * exact IH.
  - destruct (history_loop_not_hydratable self fetched [] Hh) as [e He].
    exists e. unfold update_message_history. run_unfold. fold fetched.
    rewrite He. reflexivity.
Qed.

(** Hydration is all or nothing. When the fetch is one it gets
    through, the buffer becomes the records of the messages that pass
    the filtering rule, oldest first, no more of them than the memory
    size (if that is not negative), each with its base weight, and
    nothing is logged. Otherwise (some text is empty, or a kept message
    leads to a deleted one) the bot stays as it was and one error is
    logged; nothing of the fetch is stored. *)
Theorem update_message_history_all_or_nothing
    (channel : list Discord.Message) (self : GPTBot) :
  let fetched := channel_history channel (MESSAGE_MEMORY self) in
  if hydratable self fetched then
    exists msgs,
      update_message_history channel self
      = Some (Ok tt, set_message_array self (rev msgs), [])
      /\ Forall2 (fun m msg =>
                    Message_init (Discord.author m) (Discord.content m)
                                 (VInt (Discord.mid m)) (reference_resolved m)
                    = Ok msg)
                 (filter (fun m => hydration_keeps self m = true) fetched) msgs
      /\ (length (rev msgs) <= Z.to_nat (MESSAGE_MEMORY self))%nat
      /\ Forall has_base_weight (rev msgs)
  else
    exists e,
      update_message_history channel self
      = Some (Ok tt, self,
              [LogError ("Error in update_message_history: " +:+ e)]).
Proof. exact (update_message_history_run channel self). Qed.

(** ** The commands *)

(** What [set_memory_size] does, by the size and the fetch. *)
Lemma set_memory_size_run (ctx_channel : list Discord.Message)
    (ack_raises : option string) (size : Z) (self : GPTBot) :
  if (size <? 1) || (size >? 100) then
    exists t,
      set_memory_size ctx_channel ack_raises size self = Some (Ok tt, self, t)
  else
    exists self' t,
      set_memory_size ctx_channel ack_raises size self = Some (Ok tt, self', t)
      /\ MESSAGE_MEMORY self' = size
      /\ if hydratable self (channel_history ctx_channel size) then
           Z.of_nat (length (message_array self')) <= size
           /\ Forall has_base_weight (message_array self')
         else message_array self' = message_array self.
Proof.
  unfold set_memory_size.
  destruct ((size <? 1) || (size >? 100)) eqn:Hrange.
  - unfold ctx_send. run_unfold. destruct ack_raises; eauto.
  - apply orb_false_iff in Hrange as [Hlo Hhi].
    apply Z.ltb_ge in Hlo.
    pose proof (update_message_history_run ctx_channel
                  (set_MESSAGE_MEMORY self size)) as Hrun.
    cbn zeta in Hrun.
    change (MESSAGE_MEMORY (set_MESSAGE_MEMORY self size)) with size in Hrun.
    change (hydratable (set_MESSAGE_MEMORY self size))
      with (hydratable self) in Hrun.
    destruct (hydratable self (channel_history ctx_channel size)).
    + destruct Hrun as (msgs & Hrun & _ & Hlen & Hbase).
      unfold ctx_send. run_unfold. rewrite Hrun.
      destruct ack_raises; eexists _, _;
        (split; [reflexivity|]; split; [reflexivity|]; cbn; split;
         [lia|exact Hbase]).
    + destruct Hrun as (e & Hrun).
      unfold ctx_send. run_unfold. rewrite Hrun.
      destruct ack_raises; eexists _, _;
        (split; [reflexivity|]; split; reflexivity).
Qed.

(** [set_memory_size] refuses a size outside 1..100 and leaves the bot
    as it was. A size within the range is stored and the buffer is
    hydrated anew from the channel of the command: when that succeeds,
    the buffer lies within the new size and every record has its base
    weight again, so earlier decays and mention boosts are gone; when
    it fails, the new size stands but the buffer stays as it was, also
    if it is longer than the new size. A failing acknowledgment is
    logged and changes nothing of this. *)
Theorem set_memory_size_rehydrates (ctx_channel : list Discord.Message)
    (ack_raises : option string) (size : Z) (self : GPTBot) :
  if (size <? 1) || (size >? 100) then
    exists t,
      set_memory_size ctx_channel ack_raises size self = Some (Ok tt, self, t)
  else
    exists self' t,
      set_memory_size ctx_channel ack_raises size self = Some (Ok tt, self', t)
      /\ MESSAGE_MEMORY self' = size
      /\ if hydratable self (channel_history ctx_channel size) then
           Z.of_nat (length (message_array self')) <= size
           /\ Forall has_base_weight (message_array self')
         else message_array self' = message_array self.
Proof.
  exact (set_memory_size_run ctx_channel ack_raises size self).
Qed.

(** ** The countdown and the draw *)

Lemma set_time_remaining_same (self : GPTBot) :
  set_time_remaining self (time_remaining self) = self.
Proof. destruct self. reflexivity. Qed.

(** The loop when every presence update succeeds. *)
Lemma countdown_loop_counts (presence : Z -> option string) (fuel : nat)
    (self : GPTBot) :
  0 <= time_remaining self <= Z.of_nat fuel ->
  (forall k, 0 < k <= time_remaining self -> presence k = None) ->
  exists n,
    time_remaining self <= 3 * Z.of_nat n < time_remaining self + 3
    /\ countdown_loop presence fuel self
       = Some (Ok tt, set_time_remaining self 0,
               countdown_events (model_name self) n (time_remaining self)).
Proof.
  revert self. induction fuel as [|fuel IH]; intros self Hfuel Hpresence.
  - exists 0%nat. split; [lia|]. cbn [countdown_loop]. run_unfold.
    destruct (Z.ltb_spec 0 (time_remaining self)); [lia|].
    rewrite <- (set_time_remaining_same self) at 1.
    replace (time_remaining self) with 0 by lia. reflexivity.
  - cbn [countdown_loop].
    rewrite (run_bind_ok get _ self self self [] eq_refl), after_nil.
    destruct (Z.ltb_spec 0 (time_remaining self)) as [Hpos|Hle].
    + destruct (IH (set_time_remaining self (Z.max 0 (time_remaining self - 3))))
        as (n & Hn & Hrun); [cbn; lia|cbn; intros k Hk; apply Hpresence; lia|].
      cbn [time_remaining set_time_remaining] in Hn.
      exists (S n). split; [lia|].
      rewrite Hpresence by lia.
      rewrite (run_bind_ok _ _ _ _ _ _ (update_status_run None self)).
      run_unfold. cbn. cbn in Hrun. rewrite Hrun. reflexivity.
    + exists 0%nat. split; [lia|].
      rewrite <- (set_time_remaining_same self) at 1.
      replace (time_remaining self) with 0 by lia. reflexivity.
Qed.

(** The loop when the presence update of round [m] is the first that
    raises. *)
Lemma countdown_loop_stops (presence : Z -> option string) (m : nat) (e : string) :
  forall (fuel : nat) (self : GPTBot),
    0 < time_remaining self - 3 * Z.of_nat m ->
    time_remaining self <= Z.of_nat fuel ->
    (forall j, (j < m)%nat ->
               presence (time_remaining self - 3 * Z.of_nat j) = None) ->
    presence (time_remaining self - 3 * Z.of_nat m) = Some e ->
    countdown_loop presence fuel self
    = Some (Raise e,
            set_time_remaining self (time_remaining self - 3 * Z.of_nat m),
            countdown_events (model_name self) m (time_remaining self)
            ++ [ChangePresence
                  (status_text (model_name self)
                     (time_remaining self - 3 * Z.of_nat m))]).
Proof.
  induction m as [|m IH]; intros fuel self Hpos Hfuel Hbefore Hfail;
    (destruct fuel as [|fuel]; [lia|]); cbn [countdown_loop];
    rewrite (run_bind_ok get _ self self self [] eq_refl), after_nil;
    (destruct (Z.ltb_spec 0 (time_remaining self)); [|lia]).
  - replace (time_remaining self - 3 * Z.of_nat 0) with (time_remaining self)
      in * by lia.
    rewrite Hfail, set_time_remaining_same.
    rewrite (run_bind_raise _ _ _ _ _ _ (update_status_run (Some e) self)).
    reflexivity.
  - assert (H0 : presence (time_remaining self) = None)
      by (rewrite <- (Hbefore 0%nat) by lia; f_equal; lia).
    rewrite H0.
    rewrite (run_bind_ok _ _ _ _ _ _ (update_status_run None self)).
    pose proof (IH fuel
                  (set_time_remaining self (Z.max 0 (time_remaining self - 3))))
      as Hrun.
    cbn [time_remaining set_time_remaining model_name] in Hrun.
    replace (Z.max 0 (time_remaining self - 3)) with (time_remaining self - 3)
      in * by lia.
    replace (time_remaining self - 3 - 3 * Z.of_nat m)
      with (time_remaining self - 3 * Z.of_nat (S m)) in Hrun by lia.
    run_unfold. cbn.
    replace (Z.max 0 (time_remaining self - 3)) with (time_remaining self - 3)
      by lia.
    rewrite Hrun; [reflexivity|lia|lia| |exact Hfail].
    intros j Hj.
    replace (time_remaining self - 3 - 3 * Z.of_nat j)
      with (time_remaining self - 3 * Z.of_nat (S j)) by lia.
    apply Hbefore. lia.
Qed.

(** The run of the countdown when no update in the loop raises. *)
Lemma countdown_status_run (presence : Z -> option string) (d : Z)
    (self : GPTBot) :
  0 <= d ->
  (forall k, 0 < k <= d -> presence k = None) ->
  exists n,
    d <= 3 * Z.of_nat n < d + 3
    /\ countdown_status presence d self
       = Some (outcome (presence 0), set_time_remaining self 0,
               countdown_events (model_name self) n d
               ++ [ChangePresence (status_text (model_name self) 0)]).
Proof.
  intros Hd Hpresence.
  destruct (countdown_loop_counts presence (Z.to_nat d)
              (set_time_remaining self d))
    as (n & Hn & Hrun); [cbn; lia|exact Hpresence|].
  cbn [time_remaining set_time_remaining model_name] in Hn, Hrun.
  exists n. split; [exact Hn|].
  unfold countdown_status.
  rewrite (run_bind_ok get _ self self self [] eq_refl), after_nil.
  rewrite (run_bind_ok (put _) _ self tt _ [] eq_refl), after_nil.
  rewrite (run_bind_ok _ _ _ _ _ _ Hrun).
  rewrite (run_bind_ok get _ _ _ _ [] eq_refl), after_nil.
  rewrite update_status_run.
  cbn [time_remaining set_time_remaining model_name].
  destruct (presence 0); reflexivity.
Qed.

(** The countdown of [d] seconds, [d] not negative. While the presence
    updates succeed it sleeps 3 seconds as often as it takes to reach
    [d]: it waits at least [d] and less than [d + 3] seconds, shows the
    remainder before each sleep, and ends with the remainder 0 stored
    and shown, normally if that last update succeeds and with its
    exception if not. The first update in the loop that raises ends the
    countdown at once with that exception, the remainder left as it was
    shown: the function has no handler of its own. *)
Theorem countdown_status_counts (presence : Z -> option string) (d : Z)
    (self : GPTBot) :
  0 <= d ->
  ((forall k, 0 < k <= d -> presence k = None) ->
   exists n,
     d <= 3 * Z.of_nat n < d + 3
     /\ countdown_status presence d self
        = Some (outcome (presence 0), set_time_remaining self 0,
                countdown_events (model_name self) n d
                ++ [ChangePresence (status_text (model_name self) 0)]))
  /\ (forall (m : nat) (e : string),
        0 < d - 3 * Z.of_nat m ->
        (forall j, (j < m)%nat -> presence (d - 3 * Z.of_nat j) = None) ->
        presence (d - 3 * Z.of_nat m) = Some e ->
        countdown_status presence d self
        = Some (Raise e, set_time_remaining self (d - 3 * Z.of_nat m),
                countdown_events (model_name self) m d
                ++ [ChangePresence
                      (status_text (model_name self) (d - 3 * Z.of_nat m))])).
Proof.
  intros Hd. split; [exact (countdown_status_run presence d self Hd)|].
  intros m e Hpos Hbefore Hfail.
  pose proof (countdown_loop_stops presence m e (Z.to_nat d)
                (set_time_remaining self d)) as Hrun.
  cbn [time_remaining set_time_remaining model_name] in Hrun.
  unfold countdown_status.
  rewrite (run_bind_ok get _ self self self [] eq_refl), after_nil.
  rewrite (run_bind_ok (put _) _ self tt _ [] eq_refl), after_nil.
  rewrite (run_bind_raise _ _ _ _ _ _ (Hrun Hpos ltac:(lia) Hbefore Hfail)).
  reflexivity.
Qed.

Lemma countdown_status_counts_witness :
  ((forall k, 0 < k <= 7 -> Sample.presence_fails_at 4 k = None) ->
   exists n,
     7 <= 3 * Z.of_nat n < 7 + 3
     /\ countdown_status (Sample.presence_fails_at 4) 7 Sample.fresh
        = Some (outcome (Sample.presence_fails_at 4 0),
                set_time_remaining Sample.fresh 0,
                countdown_events "v3s" n 7
                ++ [ChangePresence (status_text "v3s" 0)]))
  /\ (forall (m : nat) (e : string),
        0 < 7 - 3 * Z.of_nat m ->
        (forall j, (j < m)%nat ->
                   Sample.presence_fails_at 4 (7 - 3 * Z.of_nat j) = None) ->
        Sample.presence_fails_at 4 (7 - 3 * Z.of_nat m) = Some e ->
        countdown_status (Sample.presence_fails_at 4) 7 Sample.fresh
        = Some (Raise e, set_time_remaining Sample.fresh (7 - 3 * Z.of_nat m),
                countdown_events "v3s" m 7
                ++ [ChangePresence (status_text "v3s" (7 - 3 * Z.of_nat m))])).
Proof.
  exact (countdown_status_counts (Sample.presence_fails_at 4) 7 Sample.fresh
           ltac:(lia)).
Defined.

(** A countdown of 7 seconds in which the update showing 4 seconds
    raises: it ends there, with 4 seconds left on the bot. *)
Lemma countdown_cut_short :
  countdown_status (Sample.presence_fails_at 4) 7 Sample.fresh
  = Some (Raise Sample.unreachable, set_time_remaining Sample.fresh 4,
          [ChangePresence "v3s | Next: 7s"; Sleep 3;
           ChangePresence "v3s | Next: 4s"]).
Proof. reflexivity. Qed.



(** ** What every entry point keeps *)

Section Preserves.
Variable I : GPTBot -> Prop.

Lemma preserves_ret {A} (a : A) : preserves I (mret a).
Proof. intros s r s' t Hs [= <- <- <-]. exact Hs. Qed.

Lemma preserves_raise {A} (e : string) : preserves I (raise (A := A) e).
Proof. intros s r s' t Hs [= <- <- <-]. exact Hs. Qed.

Lemma preserves_lift {A} (x : Exc A) : preserves I (lift x).
Proof. intros s r s' t Hs [= <- <- <-]. exact Hs. Qed.

Lemma preserves_unanswered {A} : preserves I (unanswered (A := A)).
Proof. intros s r s' t Hs [=]. Qed.

Lemma preserves_emit (ev : Event) : preserves I (emit ev).
Proof. intros s r s' t Hs [= <- <- <-]. exact Hs. Qed.

Lemma preserves_put (self' : GPTBot) : I self' -> preserves I (put self').
Proof. intros H s r s' t Hs [= <- <- <-]. exact H. Qed.

Lemma preserves_bind {A B} (m : M A) (k : A -> M B) :
  preserves I m -> (forall a, preserves I (k a)) -> preserves I (m ≫= k).
Proof.
  intros Hm Hk s r s2 t Hs H.
  apply run_bind_inv in H
    as [(a & s1 & t1 & t2 & H1 & H2 & ->)|(e & H1 & _)].
  - exact (Hk a _ _ _ _ (Hm _ _ _ _ Hs H1) H2).
  - exact (Hm _ _ _ _ Hs H1).
Qed.

(** What is read from a bot satisfying [I] satisfies [I]. *)
Lemma preserves_read {A} (k : GPTBot -> M A) :
  (forall s, I s -> preserves I (k s)) -> preserves I (get ≫= k).
Proof.
  intros Hk s r s' t Hs H.
  rewrite (run_bind_ok get k s s s [] eq_refl), after_nil in H.
  exact (Hk s Hs _ _ _ _ Hs H).
Qed.

Lemma preserves_try_except {A} (m : M A) (h : string -> M A) :
  preserves I m -> (forall e, preserves I (h e)) ->
  preserves I (try_except m h).
Proof.
  intros Hm Hh s r s2 t Hs H.
  apply run_try_inv in H
    as [(a & H1 & _)|(e & s1 & t1 & t2 & H1 & H2 & ->)].
  - exact (Hm _ _ _ _ Hs H1).
  - exact (Hh e _ _ _ _ (Hm _ _ _ _ Hs H1) H2).
Qed.

End Preserves.

Ltac preserves_step :=
  lazymatch goal with
  | |- preserves _ (get ≫= _) => apply preserves_read
  | |- preserves _ (_ ≫= _) => apply preserves_bind
  | |- preserves _ (try_except _ _) => apply preserves_try_except
  | |- preserves _ (mret _) => apply preserves_ret
  | |- preserves _ (raise _) => apply preserves_raise
  | |- preserves _ (lift _) => apply preserves_lift
  | |- preserves _ unanswered => apply preserves_unanswered
  | |- preserves _ (emit _) => apply preserves_emit
  | |- preserves _ (put _) => apply preserves_put
  end.

(** The turn of the loop writes the bot in two ways only: it scales the
    weight of a record, and it stores the seconds that remain. *)
Section Turn.
Variable I : GPTBot -> Prop.
Hypothesis I_scale :
  forall s k i,
    I s -> I (set_message_array s (alter (scale_weight k) i (message_array s))).
Hypothesis I_time : forall s d, I s -> I (set_time_remaining s d).

Lemma decay_picked_preserves (k : float) (i : nat) :
  preserves I (decay_picked k i).
Proof.
  unfold decay_picked. preserves_step. intros s Hs. preserves_step.
  apply I_scale. exact Hs.
Qed.

Lemma channel_send_preserves (raises : option string) (text : string)
    (reference : option Val) :
  preserves I (channel_send raises text reference).
Proof.
  unfold channel_send. destruct raises; repeat (preserves_step; intros).
Qed.

Lemma update_status_preserves (raises : option string) :
  preserves I (update_status raises).
Proof.
  unfold update_status. destruct raises; repeat (preserves_step; intros).
Qed.

Lemma get_ai_response_preserves (depth : nat) (completions : list Completion) :
  preserves I (get_ai_response depth completions).
Proof.
  revert depth.
  induction completions as [|c rest IH]; intros depth; cbn [get_ai_response];
    [preserves_step|].
  preserves_step; [|intros e; repeat (preserves_step; intros)].
  preserves_step. intros s Hs. preserves_step; [preserves_step|]. intros _.
  destruct c as [e|[r p|v]]; cbn [select]; [preserves_step| |preserves_step].
  destruct (truthy _); [|repeat (preserves_step; intros)].
  preserves_step. intros s1 Hs1.
  destruct (find_picked _ _) as [[i picked]|];
    [|repeat (preserves_step; intros)].
  preserves_step; [apply decay_picked_preserves|]. intros _.
  preserves_step; [preserves_step|]. intros g.
  preserves_step. intros s2 Hs2.
  destruct (is_echo _ _ _); [|preserves_step].
  preserves_step; [preserves_step|]. intros _.
  destruct depth; [preserves_step|apply IH].
Qed.

Lemma countdown_loop_preserves (presence : Z -> option string) (fuel : nat) :
  preserves I (countdown_loop presence fuel).
Proof.
  induction fuel as [|fuel IH]; cbn [countdown_loop].
  - preserves_step. intros s Hs. destruct (0 <? _); preserves_step.
  - preserves_step. intros s Hs. destruct (0 <? _); [|preserves_step].
    preserves_step; [apply update_status_preserves|]. intros _.
    preserves_step; [preserves_step|]. intros _.
    preserves_step. intros s1 Hs1.
    preserves_step; [|intros _; exact IH].
    preserves_step. apply I_time. exact Hs1.
Qed.

Lemma countdown_status_preserves (presence : Z -> option string) (d : Z) :
  preserves I (countdown_status presence d).
Proof.
  unfold countdown_status. preserves_step. intros s Hs.
  preserves_step; [preserves_step; apply I_time; exact Hs|]. intros _.
  preserves_step; [apply countdown_loop_preserves|]. intros _.
  preserves_step. intros s1 Hs1. apply update_status_preserves.
Qed.

Lemma delay_step_preserves (env : Cycle) : preserves I (delay_step env).
Proof.
  unfold delay_step. preserves_step. intros s Hs.
  preserves_step; [|intros d; apply countdown_status_preserves].
  unfold randint.
  destruct (_ && _); destruct (_ <=? _); repeat (preserves_step; intros).
Qed.

Lemma debug_echo_preserves (env : Cycle) : preserves I (debug_echo env).
Proof.
  unfold debug_echo. preserves_step. intros s Hs.
  destruct (DEBUG s); [|preserves_step].
  destruct (debug_send_raises env); repeat (preserves_step; intros).
Qed.

Lemma emission_preserves (env : Cycle) (ai_response picked_message_id : Val) :
  preserves I (emission env ai_response picked_message_id).
Proof.
  unfold emission.
  preserves_step; [|intros _; apply debug_echo_preserves].
  destruct (truthy _).
  - preserves_step. intros s Hs.
    destruct (find_picked _ _) as [[i picked]|].
    + preserves_step; [apply decay_picked_preserves|].
      intros _. apply channel_send_preserves.
    + preserves_step; [preserves_step|]. intros _. apply channel_send_preserves.
  - preserves_step; [preserves_step|]. intros _. apply channel_send_preserves.
Qed.

Lemma send_responses_turn_preserves (env : Cycle) :
  preserves I (send_responses_turn env).
Proof.
  unfold send_responses_turn, send_responses_try.
  preserves_step; [|intros e; preserves_step].
  preserves_step; [apply get_ai_response_preserves|]. intros a.
  preserves_step; [preserves_step|]. intros go.
  preserves_step; [|intros _; apply delay_step_preserves].
  destruct go; [apply emission_preserves|preserves_step].
Qed.

End Turn.

Lemma update_message_history_preserves (I : GPTBot -> Prop)
    (channel : list Discord.Message) :
  (forall s arr,
      I s -> (length arr <= Z.to_nat (MESSAGE_MEMORY s))%nat ->
      I (set_message_array s arr)) ->
  preserves I (update_message_history channel).
Proof.
  intros HI s r s' t Hs Hrun.
  pose proof (update_message_history_run channel s) as H. cbn zeta in H.
  destruct (hydratable s _).
  - destruct H as (msgs & H & _ & Hlen & _). rewrite H in Hrun.
    injection Hrun as _ <- _. apply HI; assumption.
  - destruct H as (e & H). rewrite H in Hrun.
    injection Hrun as _ <- _. exact Hs.
Qed.

Lemma set_message_array_same (self : GPTBot) :
  set_message_array self (message_array self) = self.
Proof. destruct self. reflexivity. Qed.

(** [on_message] writes nothing of the bot but the buffer. *)
Lemma on_message_array_only (self : GPTBot) (m : Discord.Message) :
  exists arr, fst (on_message self m) = set_message_array self arr.
Proof.
  unfold on_message.
  destruct (on_message_try self m) as [s|e] eqn:Htry; cbn [fst];
    [|exists (message_array self); symmetry; apply set_message_array_same].
  unfold on_message_try in Htry.
  destruct (on_message_accepts self m);
    [|injection Htry as <-; exists (message_array self); symmetry;
      apply set_message_array_same].
  destruct (Message_init _ _ _ _) as [msg|]; cbn [bind] in Htry; [|discriminate].
  destruct (message_array_append _ _ _) as [arr|]; cbn [bind] in Htry;
    [|discriminate].
  injection Htry as <-. exists arr. reflexivity.
Qed.

(** The writes of the entry points other than [set_memory_size]: a
    property [I] of the bot that each of these writes keeps is kept by
    a run of any of them. *)
Section Handlers.
Variable I : GPTBot -> Prop.
Hypothesis I_scale :
  forall s k i,
    I s -> I (set_message_array s (alter (scale_weight k) i (message_array s))).
Hypothesis I_time : forall s d, I s -> I (set_time_remaining s d).
Hypothesis I_array :
  forall s arr,
    I s -> (length arr <= Z.to_nat (MESSAGE_MEMORY s))%nat ->
    I (set_message_array s arr).
Hypothesis I_mention : forall s p, I s -> I (set_bot_mention_pattern s p).
Hypothesis I_debug : forall s v, I s -> I (set_DEBUG s v).
Hypothesis I_night : forall s v, I s -> I (set_NIGHT_MODE_ENABLED s v).
Hypothesis I_delay :
  forall s a b, I s -> 1 <= a -> a < b -> b <= 60 -> I (set_DELAY s a b).
Hypothesis I_on_message : forall s m, I s -> I (fst (on_message s m)).

Lemma handle_preserves (h : Handler) :
  match h with SetMemorySize _ _ _ => False | _ => True end ->
  preserves I (handle h).
Proof.
  destruct h as [channel timed_out presence|m|env|ack|ch ack size|ack value
                |presence ack a b|ack value|ack|ack]; cbn [handle]; intros Hh;
    [| | | |destruct Hh| | | | |].
  - unfold on_ready. preserves_step; [|intros; preserves_step].
    preserves_step; [|intros e; repeat (preserves_step; intros)].
    preserves_step;
      [destruct timed_out;
       [preserves_step|apply update_message_history_preserves; exact I_array]|].
    intros _. preserves_step; [apply update_status_preserves|]. intros _.
    preserves_step. intros s Hs. preserves_step; [|intros; preserves_step].
    preserves_step. apply I_mention. exact Hs.
  - intros s r s' t Hs [= _ <- _]. apply I_on_message. exact Hs.
  - apply send_responses_turn_preserves; assumption.
  - unfold reset_history. preserves_step; [|intros e; preserves_step].
    preserves_step. intros s Hs.
    preserves_step;
      [preserves_step; apply I_array; [exact Hs|cbn; lia]|].
    intros _. apply channel_send_preserves; assumption.
  - unfold set_debug. preserves_step; [|intros e; preserves_step].
    destruct (not_a_flag value); [apply channel_send_preserves; assumption|].
    preserves_step. intros s Hs.
    preserves_step; [preserves_step; apply I_debug; exact Hs|]. intros _.
    preserves_step. intros s1 Hs1. apply channel_send_preserves; assumption.
  - unfold set_delay. preserves_step; [|intros e; preserves_step].
    destruct ((a <? 1) || (b >? 60) || (a >=? b)) eqn:Hrange;
      [apply channel_send_preserves; assumption|].
    apply orb_false_iff in Hrange as [Hrange Hlt].
    apply orb_false_iff in Hrange as [Hlo Hhi]. apply Z.ltb_ge in Hlo.
    assert (b <= 60) by (destruct (Z.gtb_spec b 60); [discriminate|lia]).
    assert (a < b) by (destruct (Z.geb_spec a b); [discriminate|lia]).
    preserves_step. intros s Hs.
    preserves_step; [preserves_step; apply I_delay; assumption|].
    intros _. preserves_step; [apply update_status_preserves|]. intros _.
    preserves_step. intros s1 Hs1. apply channel_send_preserves; assumption.
  - unfold set_night_mode. preserves_step; [|intros e; preserves_step].
    destruct (not_a_flag value); [apply channel_send_preserves; assumption|].
    preserves_step. intros s Hs.
    preserves_step; [preserves_step; apply I_night; exact Hs|]. intros _.
    preserves_step. intros s1 Hs1. apply channel_send_preserves; assumption.
  - unfold refresh_prompt. preserves_step; [|intros e; preserves_step].
    preserves_step; [preserves_step|]. intros _.
    apply channel_send_preserves; assumption.
  - apply channel_send_preserves; assumption.
Qed.

End Handlers.

Lemma handle_keeps_settings (h : Handler) (self self' : GPTBot)
    (r : Exc unit) (t : list Event) :
  config_ok self ->
  handle h self = Some (r, self', t) ->
  config_ok self' /\ same_identity self self'.
Proof.
  intros Hok Hrun.
  set (I := fun s => config_ok s /\ same_identity self s).
  assert (Hself : I self) by (split; [exact Hok|repeat split]).
  assert (I_scale : forall s k i,
             I s -> I (set_message_array s
                         (alter (scale_weight k) i (message_array s))))
    by (intros s k i Hs; exact Hs).
  assert (I_time : forall s d, I s -> I (set_time_remaining s d))
    by (intros s d Hs; exact Hs).
  assert (I_array : forall s arr,
             I s -> (length arr <= Z.to_nat (MESSAGE_MEMORY s))%nat ->
             I (set_message_array s arr))
    by (intros s arr Hs _; exact Hs).
  assert (I_delay : forall s a b,
             I s -> 1 <= a -> a < b -> b <= 60 -> I (set_DELAY s a b)).
  { intros s a b [Hc Hi] Ha Hab Hb. split; [|exact Hi].
    unfold config_ok in *; cbn; lia. }
  assert (I_on_message : forall s m, I s -> I (fst (on_message s m))).
  { intros s m Hs. destruct (on_message_array_only s m) as [arr ->]. exact Hs. }
  enough (Hh : preserves I (handle h)) by exact (Hh _ _ _ _ Hself Hrun).
  clear Hrun Hself r self' t.
  assert (Hrest : match h with SetMemorySize _ _ _ => False | _ => True end
                  -> preserves I (handle h)).
  { apply handle_preserves; try assumption; intros s v Hs; exact Hs. }
  destruct h as [channel timed_out presence|m|env|ack|ch ack size|ack value
                |presence ack a b|ack value|ack|ack]; try exact (Hrest Logic.I).
  clear Hrest. cbn [handle]. unfold set_memory_size.
  preserves_step; [|intros e; preserves_step].
  destruct ((size <? 1) || (size >? 100)) eqn:Hrange.
  - preserves_step; [apply channel_send_preserves; assumption|].
    intros _. preserves_step.
  - apply orb_false_iff in Hrange as [Hlo Hhi]. apply Z.ltb_ge in Hlo.
    assert (size <= 100) by (destruct (Z.gtb_spec size 100); [discriminate|lia]).
    preserves_step. intros s [Hc Hi].
    preserves_step;
      [preserves_step; split; [|exact Hi];
       unfold config_ok in *; cbn; lia|].
    intros _.
    preserves_step;
      [apply update_message_history_preserves; exact I_array|].
    intros _. apply channel_send_preserves; assumption.
Qed.

(** Whatever entry point runs, on a bot whose settings are valid: the
    settings are valid afterwards, and the bot still has its channel,
    its account and its name. The memory size stays within 1..100, the
    delay range within 1..60 and not empty, the night range as
    [__init__] set it. *)
Theorem handlers_keep_settings (h : Handler) (self self' : GPTBot)
    (r : Exc unit) (t : list Event) :
  config_ok self ->
  handle h self = Some (r, self', t) ->
  config_ok self' /\ same_identity self self'.
Proof. exact (handle_keeps_settings h self self' r t). Qed.

Lemma handlers_keep_settings_witness :
  config_ok (set_DELAY Sample.fresh 5 9)
  /\ same_identity Sample.fresh (set_DELAY Sample.fresh 5 9).
Proof.
  eapply (handlers_keep_settings (SetDelay None None 5 9) Sample.fresh).
  - unfold config_ok. cbn. lia.
  - vm_compute. reflexivity.
Defined.

(** An entry point run on a bot with valid settings and a buffer
    within the memory size leaves the buffer within the memory size,
    provided that a [set_memory_size] storing a new size gets through
    its hydration. *)
Theorem handlers_keep_buffer_bound (h : Handler) (self self' : GPTBot)
    (r : Exc unit) (t : list Event) :
  config_ok self ->
  within_memory self ->
  rehydrates h self = true ->
  handle h self = Some (r, self', t) ->
  within_memory self'.
Proof.
  intros Hok Hwithin Hre Hrun.
  set (I := fun s => config_ok s /\ within_memory s).
  assert (Hrest : match h with SetMemorySize _ _ _ => False | _ => True end
                  -> preserves I (handle h)).
  { apply handle_preserves.
    - intros s k i [Hc Hw]. split; [exact Hc|].
      unfold within_memory in *. cbn. rewrite length_alter. exact Hw.
    - intros s d Hs. exact Hs.
    - intros s arr [Hc Hw] Hlen. split; [exact Hc|].
      unfold within_memory, config_ok in *. cbn. lia.
    - intros s p Hs. exact Hs.
    - intros s v Hs. exact Hs.
    - intros s v Hs. exact Hs.
    - intros s a b [Hc Hw] Ha Hab Hb. split; [|exact Hw].
      unfold config_ok in *; cbn; lia.
    - intros s m [Hc Hw]. split.
      + destruct (on_message_array_only s m) as [arr ->]. exact Hc.
      + apply on_message_within_memory; [destruct Hc; lia|exact Hw]. }
  destruct h as [channel timed_out presence|m|env|ack|ch ack size|ack value
                |presence ack a b|ack value|ack|ack];
    try exact (proj2 (Hrest Logic.I _ _ _ _ (conj Hok Hwithin) Hrun)).
  clear Hrest. cbn [handle rehydrates] in Hre, Hrun.
  pose proof (set_memory_size_run ch ack size self) as H.
  destruct ((size <? 1) || (size >? 100)); cbn [orb] in Hre.
  - destruct H as (t0 & H). rewrite H in Hrun. injection Hrun as _ <- _.
    exact Hwithin.
  - rewrite Hre in H. destruct H as (s1 & t1 & H & Hsize & Hlen & _).
    rewrite H in Hrun. injection Hrun as _ <- _.
    unfold within_memory. rewrite Hsize. exact Hlen.
Qed.

Lemma handlers_keep_buffer_bound_witness :
  within_memory (fst (on_message Sample.ready (Sample.incoming "hi"))).
Proof.
  eapply (handlers_keep_buffer_bound (OnMessage (Sample.incoming "hi"))
            Sample.ready).
  - unfold config_ok. cbn. lia.
  - unfold within_memory. cbn. lia.
  - reflexivity.
  - reflexivity.
Defined.

(** ** A buffer longer than the memory size *)

Lemma on_message_full (self : GPTBot) (m : Discord.Message) :
  1 <= MESSAGE_MEMORY self ->
  MESSAGE_MEMORY self <= Z.of_nat (length (message_array self)) ->
  MESSAGE_MEMORY (fst (on_message self m)) = MESSAGE_MEMORY self
  /\ length (message_array (fst (on_message self m)))
     = length (message_array self).
Proof.
  intros Hmem Hlen. unfold on_message, on_message_try.
  destruct (on_message_accepts self m); [|split; reflexivity].
  destruct (Message_init _ _ _ _) as [msg|e]; cbn [bind fst];
    [|split; reflexivity].
  unfold message_array_append.
  destruct (Z.geb_spec (Z.of_nat (length (message_array self)))
                       (MESSAGE_MEMORY self)); [|lia].
  destruct (message_array self) as [|x arr]; cbn [length] in *; [lia|].
  cbn. split; [reflexivity|]. rewrite length_app. cbn. lia.
Qed.

Lemma receive_full (ms : list Discord.Message) (self : GPTBot) :
  1 <= MESSAGE_MEMORY self ->
  MESSAGE_MEMORY self <= Z.of_nat (length (message_array self)) ->
  MESSAGE_MEMORY (receive self ms) = MESSAGE_MEMORY self
  /\ length (message_array (receive self ms)) = length (message_array self).
Proof.
  revert self. induction ms as [|m ms IH]; intros self Hmem Hlen;
    [split; reflexivity|].
  destruct (on_message_full self m Hmem Hlen) as [Hm Hl].
  change (receive self (m :: ms)) with (receive (fst (on_message self m)) ms).
  destruct (IH (fst (on_message self m))) as [Hm' Hl']; [lia|lia|].
  rewrite Hm', Hl', Hm, Hl. split; reflexivity.
Qed.

(** A [set_memory_size] with a size within 1..100 whose hydration
    fails stores the size and keeps the buffer; if the buffer is not
    shorter than the new size, it keeps its length under every run of
    inbound messages after that, each stored message pushing one out:
    it does not shrink to the new size. *)
Theorem failed_rehydration_leaves_oversized (ctx_channel : list Discord.Message)
    (ack_raises : option string) (size : Z) (self : GPTBot)
    (ms : list Discord.Message) :
  1 <= size <= 100 ->
  hydratable self (channel_history ctx_channel size) = false ->
  size <= Z.of_nat (length (message_array self)) ->
  exists self' t,
    set_memory_size ctx_channel ack_raises size self = Some (Ok tt, self', t)
    /\ MESSAGE_MEMORY (receive self' ms) = size
    /\ length (message_array (receive self' ms)) = length (message_array self).
Proof.
  intros Hsize Hfail Hlen.
  pose proof (set_memory_size_run ctx_channel ack_raises size self) as H.
  destruct (Z.ltb_spec size 1); [lia|].
  destruct (Z.gtb_spec size 100); [lia|]. cbn [orb] in H.
  rewrite Hfail in H. destruct H as (self' & t & Hrun & Hmem & Harr).
  exists self', t. split; [exact Hrun|].
  destruct (receive_full ms self') as [Hm Hl];
    [lia|rewrite Hmem, Harr; exact Hlen|].
  rewrite Hm, Hl, Hmem, Harr. split; reflexivity.
Qed.

Lemma failed_rehydration_leaves_oversized_witness :
  exists self' t,
    set_memory_size Sample.channel_with_attachment None 2 Sample.bot3
    = Some (Ok tt, self', t)
    /\ MESSAGE_MEMORY (receive self' [Sample.incoming "hi"]) = 2
    /\ length (message_array (receive self' [Sample.incoming "hi"]))
       = length (message_array Sample.bot3).
Proof.
  exact (failed_rehydration_leaves_oversized Sample.channel_with_attachment
           None 2 Sample.bot3 [Sample.incoming "hi"]
           ltac:(lia) eq_refl ltac:(cbn; lia)).
Defined.

(** ** Exceptions and acknowledgments of the entry points *)

Lemma log_error_never_raises (text : string) :
  never_raises (emit (LogError text)).
Proof. intros s r s' t [= <- _ _]. eauto. Qed.

Lemma on_ready_never_raises (channel : list Discord.Message) (timed_out : bool)
    (presence_raises : option string) :
  never_raises (on_ready channel timed_out presence_raises).
Proof.
  apply try_except_never_raises. intros e s r s' t H.
  run_unfold. injection H as <- _ _. eauto.
Qed.

(** No entry point but [help] lets an exception out: every other one
    ends normally whatever happens in it, and [help] ends with the
    exception of its send when that send fails, and only then. *)
Theorem only_help_raises (h : Handler) (self self' : GPTBot) (r : Exc unit)
    (t : list Event) (e : string) :
  handle h self = Some (r, self', t) ->
  r = Raise e <-> h = Help (Some e).
Proof.
  intros Hrun. split.
  - intros ->.
    assert (Hnever : never_raises (handle h) -> False).
    { intros Hn. destruct (Hn _ _ _ _ Hrun) as [a [=]]. }
    destruct h as [channel timed_out|m|env|ack|ch ack size|ack value
                  |ack a b|ack value|ack|ack]; cbn [handle] in *;
      try (exfalso; apply Hnever; apply try_except_never_raises;
           intros e0; apply log_error_never_raises).
    + exfalso. apply Hnever. intros s r s' t0 H.
      apply run_bind_inv in H
        as [(a & s1 & t1 & t2 & _ & [= <- _ _] & _)|(e0 & H & _)]; [eauto|].
      destruct (on_ready_never_raises _ _ _ _ _ _ _ H) as [a [=]].
    + discriminate Hrun.
    + unfold help_command, ctx_send in Hrun. run_unfold.
      destruct ack as [e0|]; [|discriminate].
      injection Hrun as <- _ _. reflexivity.
  - intros ->. cbn [handle] in Hrun.
    unfold help_command, ctx_send in Hrun. run_unfold.
    injection Hrun as <- _ _. reflexivity.
Qed.

Lemma only_help_raises_witness :
  Raise (A := unit) Sample.unreachable = Raise Sample.unreachable
  <-> Help (Some Sample.unreachable) = Help (Some Sample.unreachable).
Proof.
  exact (only_help_raises (Help (Some Sample.unreachable)) Sample.fresh
           Sample.fresh (Raise Sample.unreachable)
           [ChannelSend help_text None] Sample.unreachable eq_refl).
Defined.

Lemma hash_not_stored (text : string) (bot : GPTBot) (m : Discord.Message) :
  startswith_hash text = true ->
  Discord.content m = text ->
  fst (on_message bot m) = bot.
Proof.
  intros Hhash Htext. unfold on_message, on_message_try, on_message_accepts.
  rewrite Htext, Hhash, andb_false_r. reflexivity.
Qed.

Ltac answers_once :=
  eexists; split; [reflexivity|];
  split; [reflexivity|];
  intros bot m; apply hash_not_stored; reflexivity.

(** Every command sends at most one message to the channel, a refusal
    or an acknowledgment, without a reference; its text begins with the
    command prefix, so no bot that reads it, in whatever state, stores
    it. [refresh_prompt] sends nothing at all. [set_delay] sends
    nothing when it accepts the range and the presence update that
    precedes its acknowledgment raises: the new range is stored all
    the same. Every other run of a command sends exactly one message,
    whether or not that send succeeds. *)
Theorem commands_answer_once (h : Handler) (self self' : GPTBot)
    (r : Exc unit) (t : list Event) :
  is_command h = true ->
  handle h self = Some (r, self', t) ->
  let once :=
    exists text,
      sends_of t = [ChannelSend text None]
      /\ startswith_hash text = true
      /\ forall bot m,
           Discord.content m = text -> fst (on_message bot m) = bot in
  match h with
  | RefreshPrompt _ => sends_of t = []
  | SetDelay (Some _) _ min_delay max_delay =>
      if (min_delay <? 1) || (max_delay >? 60) || (min_delay >=? max_delay)
      then once
      else sends_of t = []
           /\ DELAY_MIN self' = min_delay /\ DELAY_MAX self' = max_delay
  | _ => once
  end.
Proof.
  intros Hcmd Hrun once. subst once.
  destruct h as [channel timed_out presence|m|env|ack|ch ack size|ack value
                |presence ack a b|ack value|ack|ack]; try discriminate Hcmd;
    cbn [handle] in Hrun.
  - unfold reset_history, ctx_send in Hrun. run_unfold.
    destruct ack; injection Hrun as _ _ <-; answers_once.
  - unfold set_memory_size, ctx_send in Hrun.
    destruct ((size <? 1) || (size >? 100)).
    + run_unfold. destruct ack; injection Hrun as _ _ <-; answers_once.
    + pose proof (update_message_history_run ch (set_MESSAGE_MEMORY self size))
        as H.
      cbn zeta in H. run_unfold.
      destruct (hydratable _ _).
      * destruct H as (msgs & H & _). rewrite H in Hrun.
        destruct ack; injection Hrun as _ _ <-; answers_once.
      * destruct H as (e & H). rewrite H in Hrun.
        destruct ack; injection Hrun as _ _ <-; answers_once.
  - unfold set_debug, ctx_send in Hrun. run_unfold.
    destruct (not_a_flag value); destruct ack;
      injection Hrun as _ _ <-; answers_once.
  - unfold set_delay, update_status, ctx_send in Hrun. run_unfold.
    destruct presence as [e|];
      destruct ((a <? 1) || (b >? 60) || (a >=? b)); destruct ack;
      cbn in Hrun; injection Hrun as _ <- <-;
      first [answers_once | repeat split].
  - unfold set_night_mode, ctx_send in Hrun. run_unfold.
    destruct (not_a_flag value); destruct ack;
      injection Hrun as _ _ <-; answers_once.
  - unfold refresh_prompt, ctx_send in Hrun. run_unfold.
    injection Hrun as _ _ <-. reflexivity.
  - unfold help_command, ctx_send in Hrun. run_unfold.
    destruct ack; injection Hrun as _ _ <-; answers_once.
Qed.

Lemma commands_answer_once_witness :
  sends_of [ChangePresence (status_text "v3s" 0);
            LogError ("Error in set_delay: " +:+ Sample.unreachable)] = []
  /\ DELAY_MIN (set_DELAY Sample.fresh 5 9) = 5
  /\ DELAY_MAX (set_DELAY Sample.fresh 5 9) = 9.
Proof.
  exact (commands_answer_once (SetDelay (Some Sample.unreachable) None 5 9)
           Sample.fresh (set_DELAY Sample.fresh 5 9) (Ok tt)
           [ChangePresence (status_text "v3s" 0);
            LogError ("Error in set_delay: " +:+ Sample.unreachable)]
           eq_refl eq_refl).
Defined.

(** ** on_ready *)


(** ** Ids taken from the context *)

Lemma prepare_messages_for_ai_lookup (self : GPTBot) (j : nat) (d : MessageDict) :
  prepare_messages_for_ai self !! j = Some d ->
  exists msg,
    message_array self !! j = Some msg /\ d_message_id d = message_id msg.
Proof.
  unfold prepare_messages_for_ai.
  pose proof (prepare_loop_imap self (message_array self) 0) as H.
  change (0 + Z.of_nat (length (message_array self)))
    with (Z.of_nat (length (message_array self))) in H.
  rewrite H, list_lookup_imap.
  destruct (message_array self !! j) as [msg|]; [|discriminate].
  intros [= <-]. exists msg. split; reflexivity.
Qed.

Lemma on_message_keeps_memory (self : GPTBot) (m : Discord.Message) :
  MESSAGE_MEMORY (fst (on_message self m)) = MESSAGE_MEMORY self.
Proof. destruct (on_message_array_only self m) as [arr ->]. reflexivity. Qed.

(** One inbound message moves a record of a buffer within the memory
    size down by at most one position, and pushes out the one at the
    front only. *)
Lemma on_message_moves (self : GPTBot) (m : Discord.Message) (j : nat)
    (msg : Message) :
  1 <= MESSAGE_MEMORY self ->
  within_memory self ->
  message_array self !! j = Some msg ->
  let arr' := message_array (fst (on_message self m)) in
  (length arr' = length (message_array self) /\ arr' !! j = Some msg)
  \/ (Z.of_nat (length (message_array self)) < MESSAGE_MEMORY self
      /\ length arr' = S (length (message_array self))
      /\ arr' !! j = Some msg)
  \/ (Z.of_nat (length (message_array self)) = MESSAGE_MEMORY self
      /\ length arr' = length (message_array self)
      /\ forall j', j = S j' -> arr' !! j' = Some msg).
Proof.
  intros Hmem Hwithin Hmsg arr'. subst arr'. unfold within_memory in Hwithin.
  unfold on_message, on_message_try.
  destruct (on_message_accepts self m); [|left; split; [reflexivity|exact Hmsg]].
  destruct (Message_init _ _ _ _) as [x|e]; cbn [bind fst];
    [|left; split; [reflexivity|exact Hmsg]].
  unfold message_array_append.
  destruct (Z.geb_spec (Z.of_nat (length (message_array self)))
                       (MESSAGE_MEMORY self)) as [Hge|Hlt].
  - destruct (message_array self) as [|y arr] eqn:Harr; [discriminate Hmsg|].
    cbn [Py.pop0 pop0 bind fst message_array set_message_array].
    right. right. split; [lia|]. split; [rewrite length_app; cbn; lia|].
    intros j' ->. cbn in Hmsg. apply lookup_app_l_Some. exact Hmsg.
  - cbn [bind fst message_array set_message_array].
    right. left. split; [lia|]. split; [rewrite length_app; cbn; lia|].
    apply lookup_app_l_Some. exact Hmsg.
Qed.

Lemma receive_keeps_position (ms : list Discord.Message) :
  forall (self : GPTBot) (j : nat) (msg : Message),
    1 <= MESSAGE_MEMORY self ->
    within_memory self ->
    message_array self !! j = Some msg ->
    (length (message_array self) + length ms
     <= Z.to_nat (MESSAGE_MEMORY self) + j)%nat ->
    exists j', (j' <= j)%nat /\ message_array (receive self ms) !! j' = Some msg.
Proof.
  induction ms as [|m ms IH]; intros self j msg Hmem Hwithin Hmsg Hroom;
    [exists j; split; [lia|exact Hmsg]|].
  change (receive self (m :: ms)) with (receive (fst (on_message self m)) ms).
  pose proof (on_message_keeps_memory self m) as Hkeep.
  unfold within_memory in Hwithin. cbn [length] in Hroom.
  destruct (on_message_moves self m j msg Hmem Hwithin Hmsg)
    as [[Hlen H]|[(Hlt & Hlen & H)|(Hfull & Hlen & H)]].
  - destruct (IH (fst (on_message self m)) j msg) as (j' & Hj' & Hfound);
      [lia|unfold within_memory; lia|exact H|lia|].
    exists j'. split; [lia|exact Hfound].
  - destruct (IH (fst (on_message self m)) j msg) as (j' & Hj' & Hfound);
      [lia|unfold within_memory; lia|exact H|lia|].
    exists j'. split; [lia|exact Hfound].
  - destruct j as [|j0]; [lia|].
    destruct (IH (fst (on_message self m)) j0 msg) as (j' & Hj' & Hfound);
      [lia|unfold within_memory; lia|exact (H j0 eq_refl)|lia|].
    exists j'. split; [lia|exact Hfound].
Qed.

(** The context is built before the completion service is awaited and
    the picked id is looked up after it, on the buffer as the messages
    [ms] that arrived in between have left it; none of them is a
    command, so that [on_message] is all that runs on them. An id that
    the service copies from the entry at position [j] of the context,
    as it was or as a text with the same spelling, is found by that
    lookup, in a record with that spelling of the id, provided the
    arrivals cannot have pushed the record out: the buffer, within its
    memory size, had room for all of them but [j]. *)
Theorem context_ids_found_after_arrivals (self : GPTBot) (j : nat)
    (d : MessageDict) (p : Val) (ms : list Discord.Message) :
  1 <= MESSAGE_MEMORY self ->
  within_memory self ->
  prepare_messages_for_ai self !! j = Some d ->
  str p = str (d_message_id d) ->
  Forall (fun m => startswith_hash (Discord.content m) = false) ms ->
  (length (message_array self) + length ms
   <= Z.to_nat (MESSAGE_MEMORY self) + j)%nat ->
  exists i picked,
    find_picked (message_array (receive self ms)) p = Some (i, picked)
    /\ (i <= j)%nat
    /\ str (message_id picked) = str p.
Proof.
  intros Hmem Hwithin Hd Hp _ Hroom.
  destruct (prepare_messages_for_ai_lookup self j d Hd) as (msg & Hmsg & Hid).
  destruct (receive_keeps_position ms self j msg Hmem Hwithin Hmsg Hroom)
    as (j' & Hj' & Hfound).
  unfold find_picked.
  destruct (list_find_elem_of
              (fun msg0 => str (message_id msg0) = str p)
              (message_array (receive self ms)) msg) as [[i picked] Hfind].
  - eapply list_elem_of_lookup_2. exact Hfound.
  - rewrite Hp, Hid. reflexivity.
  - exists i, picked. split; [exact Hfind|].
    apply list_find_Some in Hfind as (Hi & Hpicked & Hfirst).
    split; [|exact Hpicked].
    destruct (Nat.le_gt_cases i j') as [Hle|Hgt]; [lia|].
    exfalso. apply (Hfirst j' msg Hfound Hgt). rewrite Hp, Hid. reflexivity.
Qed.

Lemma context_ids_found_after_arrivals_witness :
  exists i picked,
    find_picked (message_array (receive Sample.bot3 [Sample.incoming "hi"]))
                (VStr "2")
    = Some (i, picked)
    /\ (i <= 1)%nat
    /\ str (message_id picked) = str (VStr "2").
Proof.
  exact (context_ids_found_after_arrivals Sample.bot3 1
           (scale_dict_weight 0.7 (to_dict (Sample.record "2" "how are you")))
           (VStr "2") [Sample.incoming "hi"]
           ltac:(cbn; lia) ltac:(unfold within_memory; cbn; lia)
           eq_refl eq_refl ltac:(repeat constructor) ltac:(cbn; lia)).
Defined.

(** Where the buffer is full, one arrival during the completion call
    is enough to lose the oldest record: its id, copied from the
    context, is no longer found. *)
Lemma context_id_pushed_out :
  let full := set_MESSAGE_MEMORY Sample.bot3 3 in
  d_message_id <$> prepare_messages_for_ai full !! 0%nat = Some (VStr "1")
  /\ find_picked (message_array full) (VStr "1")
     = Some (0%nat, Sample.record "1" "good morning")
  /\ find_picked (message_array (receive full [Sample.incoming "hi"]))
                 (VStr "1")
     = None.
Proof. repeat split. Qed.

(** ** Colours of the console log *)

Lemma lower_char_idempotent (c : ascii) :
  lower_char (lower_char c) = lower_char c.
Proof.
  destruct c as [[] [] [] [] [] [] [] []]; vm_compute; reflexivity.
Qed.

Lemma lower_idempotent (s : string) : lower (lower s) = lower s.
Proof.
  induction s as [|c s IH]; [reflexivity|].
  cbn [lower]. rewrite lower_char_idempotent, IH. reflexivity.
Qed.

(** Whatever colour name the configuration gives, the code put into
    the escape sequence of the console log is one of the eight
    foreground colours 30 to 37; the case of the name plays no part;
    and a name that is none of the eight, in lower case, gives white. *)
Theorem get_color_code_is_a_colour (color_name : string) :
  get_color_code color_name
    ∈ ["30"; "31"; "32"; "33"; "34"; "35"; "36"; "37"]
  /\ get_color_code (lower color_name) = get_color_code color_name
  /\ (lower color_name
        ∉ ["black"; "red"; "green"; "yellow"; "blue"; "magenta"; "cyan"; "white"]
      -> get_color_code color_name = "37").
Proof.
  split; [|split].
  - unfold get_color_code.
    destruct (colors !! lower color_name) as [v|] eqn:E; cbn [default];
      [|set_solver].
    apply elem_of_list_to_map_2 in E.
    repeat (apply elem_of_cons in E as [[= _ <-]|E]; [set_solver|]).
    apply elem_of_nil in E. destruct E.
  - unfold get_color_code. rewrite lower_idempotent. reflexivity.
  - intros Hnot. unfold get_color_code.
    destruct (colors !! lower color_name) as [v|] eqn:E; [|reflexivity].
    exfalso. apply Hnot.
    apply elem_of_list_to_map_2 in E.
    repeat (apply elem_of_cons in E as [[= <- _]|E]; [set_solver|]).
    apply elem_of_nil in E. destruct E.
Qed.
